(** * Binder build scripts: a shallow embedding of [build.py] and
      [make_bindings_via_cmake.py]

    The two scripts drive external tools (git, cmake, ninja, ldconfig, the
    binder executable) and the file system.  The embedding keeps the Python
    control flow, makes the file system an explicit value, records every
    interaction with the operating system in a trace, and leaves the
    behaviour of external processes to an oracle, so that every statement
    below holds whatever those processes do.

    Conventions.  Calls of [print] and of the logger are left out.  A
    method that assigns to a field of [self] returns the changed object.
    The class attributes [_git_remote], which [main] may overwrite, are
    fields of the installers.  Command-line parsing is not modelled: the
    entry points take the parsed arguments.  Symbolic links and file
    permissions are not part of the file system: where a call depends on
    them, as the removal of a tree does, the environment answers. *)

From Stdlib Require Import String Ascii List Bool Arith ZArith Lia.
From Stdlib Require Import Permutation Sorted DecimalString.
Import ListNotations.
Open Scope list_scope.
Open Scope string_scope.

Set Implicit Arguments.

(** List concatenation, next to [++] on strings. *)
Infix "+++" := List.app (at level 60, right associativity).

(* ================================================================== *)
(** * Python [str] built-ins

    A [string] stands for a Python [str] whose code points are below 256. *)
(* ================================================================== *)

Module PyStr.

Definition chr (n : nat) : string := String (ascii_of_nat n) EmptyString.

(** ["\n"] and the double quote character. *)
Definition nl : string := chr 10.
Definition dquote : string := chr 34.

(** [str.isspace] on one character: tab, LF, VT, FF, CR, the four
    separators 0x1c-0x1f, space, NEL and the no-break space. *)
Definition isspace (c : ascii) : bool :=
  let n := nat_of_ascii c in
  ((9 <=? n)%nat && (n <=? 13)%nat) || ((28 <=? n)%nat && (n <=? 32)%nat)
  || (n =? 133)%nat || (n =? 160)%nat.

Definition is_empty (s : string) : bool :=
  match s with EmptyString => true | _ => false end.

(** [s.lstrip()], [s.rstrip()], [s.strip()]. *)
Fixpoint lstrip (s : string) : string :=
  match s with
  | EmptyString => EmptyString
  | String c s' => if isspace c then lstrip s' else s
  end.

Fixpoint rstrip (s : string) : string :=
  match s with
  | EmptyString => EmptyString
  | String c s' =>
      let r := rstrip s' in
      if is_empty r && isspace c then EmptyString else String c r
  end.

Definition strip (s : string) : string := rstrip (lstrip s).

(** [s.startswith(p)]. *)
Definition startswith (p s : string) : bool := prefix p s.

(** [s.endswith(p)]: [p] is [s] or ends the tail of [s]. *)
Fixpoint endswith (p s : string) : bool :=
  (p =? s)
  || match s with
     | EmptyString => false
     | String _ s' => endswith p s'
     end.

(** [w in s]: [w] occurs in [s] as a contiguous substring. *)
Fixpoint contains (w s : string) : bool :=
  prefix w s ||
  match s with
  | EmptyString => false
  | String _ s' => contains w s'
  end.

(** [s.split()]: the maximal runs of non-space characters. *)
Fixpoint split_from (cur s : string) : list string :=
  match s with
  | EmptyString => if is_empty cur then [] else [cur]
  | String c s' =>
      if isspace c
      then (if is_empty cur then split_from EmptyString s'
            else cur :: split_from EmptyString s')
      else split_from (cur ++ String c EmptyString) s'
  end.

Definition split (s : string) : list string := split_from EmptyString s.

(** [sep.join(l)]. *)
Definition join (sep : string) (l : list string) : string := String.concat sep l.

(** [s.replace(a, b)] for a single character [a]. *)
Fixpoint replace_char (a : ascii) (b : string) (s : string) : string :=
  match s with
  | EmptyString => EmptyString
  | String c s' =>
      (if Ascii.eqb c a then b else String c EmptyString)
      ++ replace_char a b s'
  end.

(** Truth value of a string: non-empty. *)
Definition truthy (s : string) : bool := negb (is_empty s).

(** Splitting at one separator character, keeping empty fields
    ([s.split(c)]). *)
Fixpoint split_on_from (sep : ascii) (cur s : string) : list string :=
  match s with
  | EmptyString => [cur]
  | String c s' =>
      if Ascii.eqb c sep then cur :: split_on_from sep EmptyString s'
      else split_on_from sep (cur ++ String c EmptyString) s'
  end.

Definition split_on (sep : ascii) (s : string) : list string :=
  split_on_from sep EmptyString s.

(** Text-mode reading with universal newlines: CR LF and a lone CR are
    both delivered as LF. *)
Fixpoint universal_newlines (s : string) : string :=
  match s with
  | EmptyString => EmptyString
  | String c s' =>
      if Ascii.eqb c "013"%char then
        match s' with
        | String d s'' =>
            if Ascii.eqb d "010"%char
            then String "010"%char (universal_newlines s'')
            else String "010"%char (universal_newlines s')
        | EmptyString => String "010"%char EmptyString
        end
      else String c (universal_newlines s')
  end.

(** The lines a text file object yields: each ends with its LF, except
    possibly the last. *)
Fixpoint lines_from (cur s : string) : list string :=
  match s with
  | EmptyString => if is_empty cur then [] else [cur]
  | String c s' =>
      if Ascii.eqb c "010"%char
      then (cur ++ String c EmptyString) :: lines_from EmptyString s'
      else lines_from (cur ++ String c EmptyString) s'
  end.

Definition readlines (content : string) : list string :=
  lines_from EmptyString (universal_newlines content).

End PyStr.

(* ================================================================== *)
(** * [pathlib.PurePosixPath]

    A path is its root (nothing, one slash, or exactly two slashes) and
    its components; empty components and single dots disappear when a
    string is parsed, as in the constructor of [PurePosixPath]. *)
(* ================================================================== *)

Module Path.

Record t : Type := mk { root : string; parts : list string }.

Fixpoint leading_slashes (s : string) : nat :=
  match s with
  | String c s' => if Ascii.eqb c "/"%char then S (leading_slashes s') else 0
  | EmptyString => 0
  end.

Definition keep_part (c : string) : bool :=
  negb (PyStr.is_empty c) && negb (c =? ".").

(** [Path(s)]. *)
Definition of_string (s : string) : t :=
  let n := leading_slashes s in
  {| root := if (n =? 0)%nat then EmptyString
             else if (n =? 2)%nat then "//" else "/";
     parts := filter keep_part (PyStr.split_on "/"%char s) |}.

(** [str(p)]. *)
Definition to_string (p : t) : string :=
  match parts p with
  | [] => if PyStr.is_empty (root p) then "." else root p
  | _ => root p ++ PyStr.join "/" (parts p)
  end.

(** [p / s]: an absolute right operand replaces the left one. *)
Definition joinpath (p : t) (s : string) : t :=
  let q := of_string s in
  if PyStr.is_empty (root q)
  then {| root := root p; parts := (parts p ++ parts q)%list |}
  else q.

(** [p.name]. *)
Definition name (p : t) : string := last (parts p) EmptyString.

(** Position of the last dot of a string ([str.rfind]). *)
Fixpoint rfind_dot (s : string) : option nat :=
  match s with
  | EmptyString => None
  | String c s' =>
      match rfind_dot s' with
      | Some i => Some (S i)
      | None => if Ascii.eqb c "."%char then Some 0 else None
      end
  end.

(** [p.suffix]: the last dot of the name and what follows, unless the
    dot is the first or the last character. *)
Definition suffix (p : t) : string :=
  let n := name p in
  match rfind_dot n with
  | Some i =>
      if (0 <? i)%nat && (i <? String.length n - 1)%nat
      then substring i (String.length n - i) n
      else EmptyString
  | None => EmptyString
  end.

(** [p.parent]. *)
Definition parent (p : t) : t :=
  {| root := root p; parts := removelast (parts p) |}.

Fixpoint list_eqb (l1 l2 : list string) : bool :=
  match l1, l2 with
  | [], [] => true
  | a :: l1', b :: l2' => (a =? b) && list_eqb l1' l2'
  | _, _ => false
  end.

Fixpoint is_prefix (l1 l2 : list string) : bool :=
  match l1, l2 with
  | [], _ => true
  | a :: l1', b :: l2' => (a =? b) && is_prefix l1' l2'
  | _ :: _, [] => false
  end.

Definition eqb (p q : t) : bool :=
  (root p =? root q) && list_eqb (parts p) (parts q).

(** [q] is [p] or lies below [p]. *)
Definition is_under (p q : t) : bool :=
  (root p =? root q) && is_prefix (parts p) (parts q).

(** [q] lies strictly below [p]. *)
Definition is_below (p q : t) : bool :=
  is_under p q && negb (eqb p q).

(** The image of [q], found below [src], in a copy of [src] at [dst]. *)
Definition rebase (src dst q : t) : t :=
  {| root := root dst;
     parts := (parts dst ++ skipn (List.length (parts src)) (parts q))%list |}.

(** [p] and its ancestors that have a name, outermost first. *)
Definition chain (p : t) : list t :=
  map (fun k => {| root := root p; parts := firstn k (parts p) |})
      (seq 1 (List.length (parts p))).

(** Normal form of a path string, as the operating system sees it. *)
Definition norm (s : string) : string := to_string (of_string s).

(** [os.path.join(a, b)]. *)
Definition os_path_join (a b : string) : string :=
  if PyStr.startswith "/" b then b
  else if PyStr.is_empty a || PyStr.endswith "/" a then a ++ b
  else a ++ "/" ++ b.

End Path.

(* ================================================================== *)
(** * Exceptions, the file system and the trace of system interactions *)
(* ================================================================== *)

Inductive PyExc : Type :=
| RuntimeError (msg : string)
| TypeError (msg : string)
| FileExistsError (path : string)
| FileNotFoundError (path : string)
| IsADirectoryError (path : string)
| NotADirectoryError (path : string)
| ModuleNotFoundError (name : string).

Inductive Node : Type :=
| Dir
| File (content : string).

(** The file system: the named entries, in the order in which directory
    enumeration delivers them.  The root and the working directory (the
    paths without components) are directories that always exist. *)
Definition FS : Type := list (Path.t * Node).

Module Fs.

Fixpoint assoc (p : Path.t) (fs : FS) : option Node :=
  match fs with
  | [] => None
  | (q, n) :: fs' => if Path.eqb q p then Some n else assoc p fs'
  end.

Definition lookup (p : Path.t) (fs : FS) : option Node :=
  match Path.parts p with
  | [] => Some Dir
  | _ => assoc p fs
  end.

Definition is_dir (fs : FS) (p : Path.t) : bool :=
  match lookup p fs with Some Dir => true | _ => false end.

Definition is_file (fs : FS) (p : Path.t) : bool :=
  match lookup p fs with Some (File _) => true | _ => false end.

Definition exists_ (fs : FS) (p : Path.t) : bool :=
  match lookup p fs with Some _ => true | None => false end.

(** Create or overwrite the entry of [p], keeping its place. *)
Fixpoint set (p : Path.t) (n : Node) (fs : FS) : FS :=
  match fs with
  | [] => [(p, n)]
  | (q, m) :: fs' =>
      if Path.eqb q p then (q, n) :: fs' else (q, m) :: set p n fs'
  end.


(** [Path.mkdir(parents=True, exist_ok=True)] and [os.makedirs]. *)
Definition add_dir (fs : FS) (q : Path.t) : FS :=
  if exists_ fs q then fs else set q Dir fs.

Definition mkdir_p (p : Path.t) (fs : FS) : PyExc + FS :=
  if is_dir fs p then inr fs
  else if exists_ fs p then inl (FileExistsError (Path.to_string p))
  else if existsb (is_file fs) (Path.chain (Path.parent p))
  then inl (NotADirectoryError (Path.to_string p))
  else inr (fold_left add_dir (Path.chain p) fs).

(** Whether the removal of [q] succeeds inside [shutil.rmtree]: the
    system lets the process delete [q], and everything below [q] can be
    deleted too (a directory that still holds an entry is not removed). *)
Definition removable (deletable : Path.t -> bool) (fs : FS) (q : Path.t) : bool :=
  deletable q
  && forallb (fun e => negb (Path.is_below q (fst e)) || deletable (fst e)) fs.

(** [shutil.rmtree(p, ignore_errors=True)] on a path that names an
    entry and is no symbolic link: below a directory every entry that can
    be removed goes, and the directory itself when nothing is left in it;
    each failure is dropped and the walk goes on.  On anything but a
    directory the error is dropped and nothing changes. *)
Definition rmtree_ignore_errors (deletable : Path.t -> bool) (p : Path.t)
    (fs : FS) : FS :=
  if is_dir fs p
  then filter (fun e => negb (Path.is_under p (fst e)
                              && removable deletable fs (fst e))) fs
  else fs.

(** [open(p, mode).write(text)] for the modes w and a. *)
Definition open_for_writing (p : Path.t) (fs : FS) : PyExc + option string :=
  match lookup p fs with
  | Some Dir => inl (IsADirectoryError (Path.to_string p))
  | Some (File old) =>
      inr (Some old)
  | None =>
      if is_dir fs (Path.parent p) then inr None
      else if exists_ fs (Path.parent p)
      then inl (NotADirectoryError (Path.to_string p))
      else inl (FileNotFoundError (Path.to_string p))
  end.

Definition write (p : Path.t) (text : string) (fs : FS) : PyExc + FS :=
  match open_for_writing p fs with
  | inl e => inl e
  | inr _ => inr (set p (File text) fs)
  end.

Definition append (p : Path.t) (text : string) (fs : FS) : PyExc + FS :=
  match open_for_writing p fs with
  | inl e => inl e
  | inr (Some old) => inr (set p (File (old ++ text)) fs)
  | inr None => inr (set p (File text) fs)
  end.

(** [open(p, "r")] and reading all of it. *)
Definition read (p : Path.t) (fs : FS) : PyExc + string :=
  match lookup p fs with
  | Some (File c) => inr c
  | Some Dir => inl (IsADirectoryError (Path.to_string p))
  | None => inl (FileNotFoundError (Path.to_string p))
  end.

(** [shutil.copytree(src, dst)]: [dst] must not exist; it is created
    with its missing parents and receives a copy of what [src] holds. *)
Definition copytree (src dst : Path.t) (fs : FS) : PyExc + FS :=
  if negb (is_dir fs src) then
    inl (if exists_ fs src then NotADirectoryError (Path.to_string src)
         else FileNotFoundError (Path.to_string src))
  else if exists_ fs dst then inl (FileExistsError (Path.to_string dst))
  else
    match mkdir_p dst fs with
    | inl e => inl e
    | inr fs1 =>
        inr (fold_left
               (fun acc e => set (Path.rebase src dst (fst e)) (snd e) acc)
               (filter (fun e => Path.is_below src (fst e)) fs)
               fs1)
    end.

(** [fnmatch] for the patterns used here: a leading star followed by
    literal text, or literal text alone. *)
Definition fnmatch (name pattern : string) : bool :=
  match pattern with
  | String "*"%char rest => PyStr.endswith rest name
  | _ => name =? pattern
  end.

(** [p.rglob(pattern)]: the entries strictly below [p] whose name
    matches, in enumeration order; nothing when [p] is no directory. *)
Definition rglob (p : Path.t) (pattern : string) (fs : FS) : list Path.t :=
  if is_dir fs p
  then map fst
         (filter (fun e => Path.is_below p (fst e)
                           && fnmatch (Path.name (fst e)) pattern) fs)
  else [].

End Fs.

(** One interaction with the operating system, with its outcome. *)
Inductive Event : Type :=
| EvRun (argv : list string) (cwd : option string) (outcome : PyExc + Z)
| EvIsDir (path : string) (answer : bool)
| EvExists (path : string) (answer : bool)
| EvCopyTree (src dst : string) (ok : bool)
| EvWrite (path : string) (text : string) (ok : bool)
| EvAppend (path : string) (text : string) (ok : bool)
| EvRead (path : string) (content : option string)
| EvMkdir (path : string) (ok : bool)
| EvRmTree (path : string)
| EvGlob (dir pattern : string) (found : list string)
| EvImport (name : string) (ok : bool).

(** What the scripts cannot decide themselves.  [exec] is
    [subprocess.run]: given the number of interactions so far, the argument
    vector, the working directory and the file system, it yields the file
    system the process leaves and either its exit status or the exception
    raised when it cannot be started.  [importable] tells whether
    [importlib.import_module] finds and loads the module.  [set_order] is
    the order in which iterating a [set] of strings delivers them, given
    the list the set was built from.  [resolve] is [Path.resolve]; the
    file system is keyed by paths as written, so [resolve] is expected to
    send a path to the key of the same file.  [islink] tells whether a
    path, as written, names a symbolic link, and [deletable] whether the
    system lets the process remove an entry. *)
Record Env : Type := mkEnv {
  exec : nat -> list string -> option string -> FS -> FS * (PyExc + Z);
  importable : nat -> string -> FS -> bool;
  which : string -> option string;
  resolve : string -> string;
  python_inc : string;
  set_order : list string -> list string;
  sys_argv : list string;
  getcwd : string;
  islink : string -> bool;
  deletable : Path.t -> bool
}.

Record World : Type := mkWorld {
  fs : FS;
  trace : list Event;
  sys_path : list string
}.

(** Computations: they read the environment, change the world, and end
    with a value or a raised exception. *)
Definition M (A : Type) : Type := Env -> World -> World * (PyExc + A).

Definition ret {A} (a : A) : M A := fun _ w => (w, inr a).

Definition raise {A} (e : PyExc) : M A := fun _ w => (w, inl e).

Definition ask : M Env := fun env w => (w, inr env).

Definition bind {A B} (m : M A) (f : A -> M B) : M B :=
  fun env w =>
    match m env w with
    | (w1, inl e) => (w1, inl e)
    | (w1, inr a) => f a env w1
    end.

Declare Scope py_scope.
Delimit Scope py_scope with py.
Notation "x <- m ;; k" := (bind m (fun x => k))
  (at level 61, m at next level, right associativity) : py_scope.
Notation "m ;; k" := (bind m (fun _ => k))
  (at level 61, right associativity) : py_scope.
Open Scope py_scope.

(** A [for] loop whose body may raise. *)
Fixpoint for_each {A} (l : list A) (body : A -> M unit) : M unit :=
  match l with
  | [] => ret tt
  | a :: l' => body a ;; for_each l' body
  end.

(** A [for] loop that threads an accumulator. *)
Fixpoint fold_m {A S} (body : S -> A -> M S) (l : list A) (s : S) : M S :=
  match l with
  | [] => ret s
  | a :: l' => s' <- body s a ;; fold_m body l' s'
  end.

Definition log (e : Event) (w : World) : World :=
  {| fs := fs w; trace := (trace w ++ [e])%list; sys_path := sys_path w |}.

Definition with_fs (fs' : FS) (w : World) : World :=
  {| fs := fs'; trace := trace w; sys_path := sys_path w |}.

Module Os.

(** [subprocess.run(argv, cwd=cwd)]; the value is [ret.returncode]. *)
Definition subprocess_run (argv : list string) (cwd : option string) : M Z :=
  fun env w =>
    let '(fs', out) := exec env (List.length (trace w)) argv cwd (fs w) in
    (log (EvRun argv cwd out) (with_fs fs' w), out).

(** [Path(p).is_dir()]. *)
Definition is_dir (p : string) : M bool :=
  fun _ w =>
    let b := Fs.is_dir (fs w) (Path.of_string p) in
    (log (EvIsDir p b) w, inr b).

(** [Path(p).exists()]. *)
Definition exists_ (p : string) : M bool :=
  fun _ w =>
    let b := Fs.exists_ (fs w) (Path.of_string p) in
    (log (EvExists p b) w, inr b).

Definition fs_step (ev : bool -> Event) (r : PyExc + FS) : M unit :=
  fun _ w =>
    match r with
    | inl e => (log (ev false) w, inl e)
    | inr fs' => (log (ev true) (with_fs fs' w), inr tt)
    end.

(** [shutil.copytree(src, dst)]. *)
Definition copytree (src dst : string) : M unit :=
  fun env w =>
    fs_step (EvCopyTree src dst)
      (Fs.copytree (Path.of_string src) (Path.of_string dst) (fs w)) env w.

(** [with open(p, "w") as fh: fh.write(text)]. *)
Definition write_file (p text : string) : M unit :=
  fun env w =>
    fs_step (EvWrite p text) (Fs.write (Path.of_string p) text (fs w)) env w.

(** [with open(p, "a") as fh: fh.write(text)]. *)
Definition append_file (p text : string) : M unit :=
  fun env w =>
    fs_step (EvAppend p text) (Fs.append (Path.of_string p) text (fs w)) env w.

(** [with open(p, "r") as fh], all of the text. *)
Definition read_file (p : string) : M string :=
  fun _ w =>
    match Fs.read (Path.of_string p) (fs w) with
    | inl e => (log (EvRead p None) w, inl e)
    | inr c => (log (EvRead p (Some c)) w, inr c)
    end.

(** [Path(p).mkdir(exist_ok=True, parents=True)]. *)
Definition mkdir (p : string) : M unit :=
  fun env w =>
    fs_step (EvMkdir p) (Fs.mkdir_p (Path.of_string p) (fs w)) env w.

(** [shutil.rmtree(p, ignore_errors=True)].  The call gives up at once,
    silently, when [p] is the empty string ([os.lstat] fails on it) or a
    symbolic link (which [rmtree] refuses). *)
Definition rmtree (p : string) : M unit :=
  fun env w =>
    (log (EvRmTree p)
       (if PyStr.is_empty p || islink env p then w
        else with_fs
               (Fs.rmtree_ignore_errors (deletable env) (Path.of_string p) (fs w))
               w),
     inr tt).

(** [list(Path(dir).rglob(pattern))], as strings. *)
Definition rglob (dir pattern : string) : M (list string) :=
  fun _ w =>
    let found :=
      map Path.to_string (Fs.rglob (Path.of_string dir) pattern (fs w)) in
    (log (EvGlob dir pattern found) w, inr found).

(** [importlib.import_module(name)]. *)
Definition import_module (name : string) : M unit :=
  fun env w =>
    let ok := importable env (List.length (trace w)) name (fs w) in
    (log (EvImport name ok) w,
     if ok then inr tt else inl (ModuleNotFoundError name)).

(** [if d not in sys.path: sys.path.append(d)]. *)
Definition sys_path_add (d : string) : M unit :=
  fun _ w =>
    (if existsb (String.eqb d) (sys_path w) then w
     else {| fs := fs w; trace := trace w;
             sys_path := (sys_path w ++ [d])%list |},
     inr tt).

End Os.

(** Values that may be [None]: an optional command-line argument. *)
Module PyVal.

(** [if x:] on a string or [None]; when true, the string it holds. *)
Definition as_truthy (x : option string) : option string :=
  match x with
  | Some s => if PyStr.truthy s then Some s else None
  | None => None
  end.

Definition truthy (x : option string) : bool :=
  match as_truthy x with Some _ => true | None => false end.

(** How an f-string shows the value. *)
Definition fmt (x : option string) : string :=
  match x with Some s => s | None => "None" end.

(** [Path(x)]: [None] is a type error. *)
Definition path (x : option string) : PyExc + Path.t :=
  match x with
  | Some s => inr (Path.of_string s)
  | None => inl (TypeError "expected str, bytes or os.PathLike object, not NoneType")
  end.

End PyVal.

(** [str(n)] for an [int]. *)
Definition str_of_int (n : Z) : string :=
  DecimalString.NilZero.string_of_int (Z.to_int n).

(** A pure step that may raise, run inside [M]. *)
Definition lift {A} (r : PyExc + A) : M A :=
  match r with inl e => raise e | inr a => ret a end.

(* ================================================================== *)
(** * build.py *)
(* ================================================================== *)

Definition SUPPORTED_PYBIND11_SHA : string := "32c4d7e17f267e10e71138a78d559b1eef17c909".
Definition ALLOWED_BUILD_MODES : list string :=
  ["Release"; "Debug"; "MinSizeRel"; "RelWithDebInfo"].
Definition KNOWN_COMPILERS : list (string * (string * string)) :=
  [("clang", ("clang", "clang++")); ("gcc", ("gcc", "g++"))].
Definition SUGGESTED_LLVM_RELEASE : string := "llvmorg-13.0.1".
Definition SUGGESTED_BINDER_BRANCH : string := "master".

Fixpoint dict_get {V} (d : list (string * V)) (k : string) : option V :=
  match d with
  | [] => None
  | (k', v) :: d' => if k' =? k then Some v else dict_get d' k
  end.

Module CompileOptions.

Record t : Type := mk {
  build_mode : string;
  compiler : string;
  cc : string;
  cpp : string;
  cmake_extra_commands : string
}.

Definition cmake_extra_commands_from_known_compiler_paths
    (full_cc full_cpp build_mode : string) : string :=
  let out0 : list string := [] in
  let out1 :=
    if PyStr.truthy full_cc
    then List.app out0 ["-DCMAKE_C_COMPILER=" ++ full_cc] else out0 in
  let out2 :=
    if PyStr.truthy full_cpp
    then List.app out1 ["-DCMAKE_CXX_COMPILER=" ++ full_cpp] else out1 in
  let out3 :=
    if PyStr.truthy build_mode
    then List.app out2 ["-DCMAKE_BUILD_TYPE=" ++ build_mode] else out2 in
  PyStr.join " " out3.

Definition init (compiler build_mode : string) : PyExc + t :=
  if negb (existsb (String.eqb build_mode) ALLOWED_BUILD_MODES) then
    inl (RuntimeError ("Build mode " ++ build_mode
           ++ " not supported, we support ('Release', 'Debug', 'MinSizeRel', 'RelWithDebInfo')"))
  else
    match dict_get KNOWN_COMPILERS compiler with
    | None =>
        inl (RuntimeError ("Compiler " ++ compiler
               ++ " not supported, we support dict_keys(['clang', 'gcc'])"))
    | Some (cc, cpp) =>
        inr {| build_mode := build_mode; compiler := compiler;
               cc := cc; cpp := cpp;
               cmake_extra_commands :=
                 cmake_extra_commands_from_known_compiler_paths cc cpp build_mode |}
    end.

End CompileOptions.

Module VersionOrSourceLocation.

Record t : Type := mk {
  version : option string;
  source_location : option string
}.

Definition init (version source_location : option string) : PyExc + t :=
  if PyVal.truthy version && PyVal.truthy source_location then
    inl (RuntimeError
           ("Must have only version OR source_location, not both -- have version='"
            ++ PyVal.fmt version ++ "', source_location='"
            ++ PyVal.fmt source_location ++ "'"))
  else if negb (PyVal.truthy version) && negb (PyVal.truthy source_location) then
    inl (RuntimeError
           ("Must have only version OR source_location, not neither -- have version='"
            ++ PyVal.fmt version ++ "', source_location='"
            ++ PyVal.fmt source_location ++ "'"))
  else inr {| version := version; source_location := source_location |}.

Definition get_id (self : t) : string :=
  match PyVal.as_truthy (version self) with
  | Some v => v
  | None => "FROM_SOURCE_" ++ PyVal.fmt (source_location self)
  end.

End VersionOrSourceLocation.

(** The abstract base class: what an installer has to provide.  A method
    that assigns to a field of [self] returns the changed object. *)
Class BaseInstaller (T R : Type) : Type := {
  _prepare : T -> M unit;
  _install : T -> M (R * T)
}.

(** [BaseInstaller.prepare]. *)
Definition prepare {T R} `{BaseInstaller T R} (self : T) : M unit :=
  _prepare self.

(** [BaseInstaller.install]. *)
Definition install {T R} `{BaseInstaller T R} (self : T) : M T :=
  _prepare self ;;
  r <- _install self ;;
  ret (snd r).

(** [ret = subprocess.run(c.split(), cwd=cwd)] followed by
    [if ret.returncode != 0: raise RuntimeError(msg)]. *)
Definition run_checked (command : string) (cwd : option string) (msg : string)
  : M unit :=
  rc <- Os.subprocess_run (PyStr.split command) cwd ;;
  if negb (rc =? 0)%Z then raise (RuntimeError msg) else ret tt.

Module Pybind11Installer.

Record t : Type := mk {
  git_remote : string;
  github_sha_or_source_location : VersionOrSourceLocation.t;
  base_source_directory : string;
  include_dir : string
}.

Definition default_git_remote : string :=
  "https://github.com/RosettaCommons/pybind11.git".

Definition init (git_remote : string)
    (github_sha_or_source_location : VersionOrSourceLocation.t)
    (base_source_directory : string) : t :=
  {| git_remote := git_remote;
     github_sha_or_source_location := github_sha_or_source_location;
     base_source_directory := base_source_directory;
     include_dir :=
       Path.to_string
         (Path.joinpath (Path.of_string base_source_directory) "include") |}.

Definition download_commands (self : t) : list string :=
  [ "git init";
    "git remote add origin " ++ git_remote self;
    "git fetch --depth 1 origin "
      ++ PyVal.fmt (VersionOrSourceLocation.version
                      (github_sha_or_source_location self));
    "git checkout FETCH_HEAD" ].

Definition _prepare (self : t) : M unit :=
  d <- Os.is_dir (include_dir self) ;;
  if negb d then
    (match PyVal.as_truthy
             (VersionOrSourceLocation.source_location
                (github_sha_or_source_location self)) with
     | Some src => Os.copytree src (base_source_directory self)
     | None =>
         Os.mkdir (base_source_directory self) ;;
         for_each (download_commands self)
           (fun command =>
              run_checked command (Some (base_source_directory self))
                "Error downloading pybind11")
     end) ;;
    e <- Os.exists_ (include_dir self) ;;
    if negb e then
      raise (RuntimeError ("Error downloading pybind11, unable to find path "
                           ++ include_dir self))
    else ret tt
  else ret tt.

Definition _install (self : t) : M (list string * t) :=
  ret ([ "PYBIND11_INCLUDE_DIR=" ++ include_dir self;
         "PYBIND11_SHA="
           ++ VersionOrSourceLocation.get_id (github_sha_or_source_location self) ],
       self).

#[global] Instance installer : BaseInstaller t (list string) :=
  Build_BaseInstaller _prepare _install.

End Pybind11Installer.

Module LLVMInstall.

Record t : Type := mk {
  git_remote : string;
  version_or_source_location : VersionOrSourceLocation.t;
  base_source_directory : string;
  binder_source_directory : string;
  build_subdir : string;
  compiler : CompileOptions.t;
  install_cpus : Z;
  build_dir : string;
  build_bin_dir : string;
  llvm_dir : string;
  clang_tools_extra_subdir : string;
  clang_tools_extra_subdir_cmakelists : string;
  binder_clang_tools_extra_subdir : string
}.

Definition default_git_remote : string := "https://github.com/llvm/llvm-project.git".
Definition binder_clang_tools_extras_subdir : string := "binder".

Definition sub (dir name : string) : string :=
  Path.to_string (Path.joinpath (Path.of_string dir) name).

Definition init (git_remote : string)
    (version_or_source_location : VersionOrSourceLocation.t)
    (compiler : CompileOptions.t)
    (binder_source_directory base_source_directory build_subdir : string)
    (install_cpus : Z) : t :=
  let build_dir := sub base_source_directory build_subdir in
  let clang_tools_extra_subdir := sub base_source_directory "clang-tools-extra" in
  {| git_remote := git_remote;
     version_or_source_location := version_or_source_location;
     base_source_directory := base_source_directory;
     binder_source_directory := binder_source_directory;
     build_subdir := build_subdir;
     compiler := compiler;
     install_cpus := install_cpus;
     build_dir := build_dir;
     build_bin_dir := sub build_dir "bin";
     llvm_dir := sub base_source_directory "llvm";
     clang_tools_extra_subdir := clang_tools_extra_subdir;
     clang_tools_extra_subdir_cmakelists :=
       sub clang_tools_extra_subdir "CMakeLists.txt";
     binder_clang_tools_extra_subdir :=
       sub clang_tools_extra_subdir binder_clang_tools_extras_subdir |}.

(** The assignment [self.build_dir = d]. *)
Definition set_build_dir (self : t) (d : string) : t :=
  {| git_remote := git_remote self;
     version_or_source_location := version_or_source_location self;
     base_source_directory := base_source_directory self;
     binder_source_directory := binder_source_directory self;
     build_subdir := build_subdir self;
     compiler := compiler self;
     install_cpus := install_cpus self;
     build_dir := d;
     build_bin_dir := build_bin_dir self;
     llvm_dir := llvm_dir self;
     clang_tools_extra_subdir := clang_tools_extra_subdir self;
     clang_tools_extra_subdir_cmakelists := clang_tools_extra_subdir_cmakelists self;
     binder_clang_tools_extra_subdir := binder_clang_tools_extra_subdir self |}.

Definition cmake_base_command (self : t) (cmake_extra_commands : string) : string :=
  "cmake llvm -B " ++ build_dir self ++ " -G Ninja"
  ++ " " ++ cmake_extra_commands
  ++ " -DLLVM_ENABLE_LIBCXX=ON -DLLVM_INCLUDE_TESTS=OFF -DLLVM_ENABLE_RUNTIMES='libc;libcxx;libcxxabi' -DLLVM_ENABLE_PROJECTS='clang-tools-extra;clang' -DLLVM_ENABLE_EH=1 -DLLVM_ENABLE_RTTI=ON".

Definition _run_llvm_cmake_base_command (self : t) (cmake_extra_commands : string)
  : M unit :=
  run_checked (cmake_base_command self cmake_extra_commands)
    (Some (base_source_directory self))
    "Error running llvm cmake init command".

Definition ninja_build_command (self : t) : string :=
  "ninja -j " ++ str_of_int (install_cpus self).

Definition ninja_install_command (self : t) : string :=
  "ninja install-clang-resource-headers install-cxx install-cxxabi install-clang tools/clang/tools/extra/binder/install install-clang-headers  -j "
  ++ str_of_int (install_cpus self).

Definition _run_ninja_build_and_install_command (self : t) : M unit :=
  for_each [ninja_build_command self; ninja_install_command self]
    (fun command =>
       run_checked command (Some (build_dir self))
         "Error running llvm build command").

Definition base_ldconfig_path : string := "/etc/ld.so.conf.d".
Definition out_ld_fn : string := "libc2.conf".

Definition _setup_ldconfig_path (self : t) : M unit :=
  Os.mkdir base_ldconfig_path ;;
  Os.write_file
    (Path.to_string (Path.joinpath (Path.of_string base_ldconfig_path) out_ld_fn))
    "/usr/local/lib/x86_64-unknown-linux-gnu" ;;
  rc <- Os.subprocess_run ["ldconfig"] (Some (build_dir self)) ;;
  if negb (rc =? 0)%Z then raise (RuntimeError "Error running llvm build command")
  else ret tt.

Definition download_command (self : t) : string :=
  "git clone --depth 1 --branch "
  ++ PyVal.fmt (VersionOrSourceLocation.version (version_or_source_location self))
  ++ " " ++ git_remote self ++ " " ++ base_source_directory self.

Definition _prepare (self : t) : M unit :=
  b <- Os.is_dir (binder_source_directory self) ;;
  if negb b then
    raise (RuntimeError
      "Cannot install llvm without binder, unable to find binder source at {self.binder_source_subdir}")
  else
    d <- Os.is_dir (base_source_directory self) ;;
    if negb d then
      (match PyVal.as_truthy
               (VersionOrSourceLocation.source_location
                  (version_or_source_location self)) with
       | Some src => Os.copytree src (base_source_directory self)
       | None => run_checked (download_command self) None "Error downloading llvm"
       end) ;;
      Os.copytree (binder_source_directory self)
        (binder_clang_tools_extra_subdir self) ;;
      Os.append_file (clang_tools_extra_subdir_cmakelists self)
        (PyStr.nl ++ "add_subdirectory(" ++ binder_clang_tools_extras_subdir
         ++ ")" ++ PyStr.nl)
    else ret tt.

Definition _install (self : t) : M (list string * t) :=
  _run_llvm_cmake_base_command self
    (CompileOptions.cmake_extra_commands (compiler self)) ;;
  _run_ninja_build_and_install_command self ;;
  _setup_ldconfig_path self ;;
  let self := set_build_dir self (build_dir self ++ "2") in
  _run_llvm_cmake_base_command self
    (CompileOptions.cmake_extra_commands_from_known_compiler_paths
       "clang" "clang++" (CompileOptions.build_mode (compiler self))) ;;
  _run_ninja_build_and_install_command self ;;
  ret (["LLVM_BIN_DIR={self.build_bin_dir}"; "LLVM_VERSION={self.version}"], self).

#[global] Instance installer : BaseInstaller t (list string) :=
  Build_BaseInstaller _prepare _install.

End LLVMInstall.

Module MasterBinderInstaller.

Record t : Type := mk {
  git_remote : string;
  llvm_version_or_source_location : VersionOrSourceLocation.t;
  pybind11_sha_or_source_location : VersionOrSourceLocation.t;
  binder_branch_or_source_location : VersionOrSourceLocation.t;
  compiler : CompileOptions.t;
  build_dir : string;
  install_cpus : Z;
  binder_download_dir : string;
  llvm_installer : LLVMInstall.t;
  pybind11_installer : Pybind11Installer.t;
  envfile : string
}.

Definition default_git_remote : string :=
  "https://github.com/RosettaCommons/binder.git".

(** The three class attributes [_git_remote], which [main] may replace. *)
Record remotes : Type := mkRemotes {
  binder_remote : string;
  llvm_remote : string;
  pybind11_remote : string
}.

Definition default_remotes : remotes :=
  {| binder_remote := default_git_remote;
     llvm_remote := LLVMInstall.default_git_remote;
     pybind11_remote := Pybind11Installer.default_git_remote |}.

Definition init (rem : remotes)
    (binder_branch_or_source_location llvm_version_or_source_location
       pybind11_sha_or_source_location : VersionOrSourceLocation.t)
    (build_dir _compiler build_mode : string) (install_cpus : Z)
  : PyExc + t :=
  match CompileOptions.init _compiler build_mode with
  | inl e => inl e
  | inr compiler =>
      let binder_download_dir := LLVMInstall.sub build_dir "binder" in
      match
        (if PyVal.truthy (VersionOrSourceLocation.version
                            binder_branch_or_source_location)
         then inr (LLVMInstall.sub binder_download_dir "source")
         else
           match PyVal.path (VersionOrSourceLocation.source_location
                               binder_branch_or_source_location) with
           | inl e => inl e
           | inr p => inr (Path.to_string (Path.joinpath p "source"))
           end)
      with
      | inl e => inl e
      | inr binder_source_directory =>
          inr {| git_remote := binder_remote rem;
                 llvm_version_or_source_location := llvm_version_or_source_location;
                 pybind11_sha_or_source_location := pybind11_sha_or_source_location;
                 binder_branch_or_source_location := binder_branch_or_source_location;
                 compiler := compiler;
                 build_dir := build_dir;
                 install_cpus := install_cpus;
                 binder_download_dir := binder_download_dir;
                 llvm_installer :=
                   LLVMInstall.init (llvm_remote rem)
                     llvm_version_or_source_location compiler
                     binder_source_directory
                     (LLVMInstall.sub build_dir "llvm-project")
                     "build" install_cpus;
                 pybind11_installer :=
                   Pybind11Installer.init (pybind11_remote rem)
                     pybind11_sha_or_source_location
                     (LLVMInstall.sub build_dir "pybind11");
                 envfile := LLVMInstall.sub build_dir "ENVFILE" |}
      end
  end.

(** The assignment made inside [self.llvm_installer._install()]. *)
Definition set_llvm_installer (self : t) (l : LLVMInstall.t) : t :=
  {| git_remote := git_remote self;
     llvm_version_or_source_location := llvm_version_or_source_location self;
     pybind11_sha_or_source_location := pybind11_sha_or_source_location self;
     binder_branch_or_source_location := binder_branch_or_source_location self;
     compiler := compiler self;
     build_dir := build_dir self;
     install_cpus := install_cpus self;
     binder_download_dir := binder_download_dir self;
     llvm_installer := l;
     pybind11_installer := pybind11_installer self;
     envfile := envfile self |}.

Definition download_command (self : t) (version : string) : string :=
  "git clone --depth 1 --branch " ++ version ++ " " ++ git_remote self
  ++ " " ++ binder_download_dir self.

Definition _prepare (self : t) : M unit :=
  (match PyVal.as_truthy
           (VersionOrSourceLocation.version
              (binder_branch_or_source_location self)) with
   | Some version =>
       run_checked (download_command self version) None
         ("Error downloading binder version " ++ version)
   | None => ret tt
   end) ;;
  prepare (pybind11_installer self) ;;
  prepare (llvm_installer self).

Definition _install (self : t) : M (unit * t) :=
  let env_info : list string := [] in
  r1 <- _install (pybind11_installer self) ;;
  let env_info := List.app env_info (fst r1) in
  r2 <- _install (llvm_installer self) ;;
  let env_info := List.app env_info (fst r2) in
  Os.write_file (envfile self) (PyStr.join PyStr.nl env_info) ;;
  ret (tt, set_llvm_installer self (snd r2)).

#[global] Instance installer : BaseInstaller t unit :=
  Build_BaseInstaller _prepare _install.

End MasterBinderInstaller.

(** ** The entry point of build.py *)
Module BuildMain.

(** The namespace [parse_args] returns. *)
Record Args : Type := mkArgs {
  jobs : Z;
  build_mode : string;
  compiler : string;
  prepare_only : bool;
  build_path : string;
  pybind11_sha : option string;
  pybind11_source : option string;
  llvm_source : option string;
  llvm_version : option string;
  binder_source : option string;
  binder_branch : option string;
  pybind11_git_url : option string;
  binder_git_url : option string;
  llvm_git_url : option string
}.

Definition override (url : option string) (current : string) : string :=
  match PyVal.as_truthy url with Some u => u | None => current end.

Definition main (args : Args) : M unit :=
  let rem :=
    {| MasterBinderInstaller.binder_remote :=
         override (binder_git_url args) MasterBinderInstaller.default_git_remote;
       MasterBinderInstaller.llvm_remote :=
         override (llvm_git_url args) LLVMInstall.default_git_remote;
       MasterBinderInstaller.pybind11_remote :=
         override (pybind11_git_url args) Pybind11Installer.default_git_remote |} in
  pybind11_sha_or_source_location <-
    lift (VersionOrSourceLocation.init (pybind11_sha args) (pybind11_source args)) ;;
  llvm_version_or_source_location <-
    lift (VersionOrSourceLocation.init (llvm_version args) (llvm_source args)) ;;
  binder_branch_or_source_location <-
    lift (VersionOrSourceLocation.init (binder_branch args) (binder_source args)) ;;
  mbi <- lift (MasterBinderInstaller.init rem
                 binder_branch_or_source_location
                 llvm_version_or_source_location
                 pybind11_sha_or_source_location
                 (build_path args) (compiler args) (build_mode args) (jobs args)) ;;
  if prepare_only args then prepare mbi
  else install mbi ;; ret tt.

End BuildMain.

(* ================================================================== *)
(** * make_bindings_via_cmake.py *)
(* ================================================================== *)

(** [list.sort()] on strings: insertion into ascending code-point order. *)
Fixpoint insert_sorted (x : string) (l : list string) : list string :=
  match l with
  | [] => [x]
  | y :: l' => if (x <=? y) then x :: l else y :: insert_sorted x l'
  end.

Fixpoint sort (l : list string) : list string :=
  match l with
  | [] => []
  | x :: l' => insert_sorted x (sort l')
  end.

Module Bindings.

(** The options shared by the two subcommands. *)
Record Common : Type := mkCommon {
  output_directory : string;
  module_name : string;
  project_sources : list string;
  source_directories_to_include : list string;
  config_file : string;
  extra_binder_flags : string;
  include_line_ignore_words : list string;
  preinstall_script : string;
  custom_all_includes_file : string
}.

(** The namespace [parseargs] returns: [dbuild] has a docker image,
    [lbuild] has the pybind11 source and the binder executable. *)
Inductive Args : Type :=
| dbuild (c : Common) (docker_image : string)
| lbuild (c : Common) (pybind11_source : string) (binder_executable : string).

Definition common (args : Args) : Common :=
  match args with dbuild c _ => c | lbuild c _ _ => c end.

Definition subparser (args : Args) : string :=
  match args with dbuild _ _ => "dbuild" | lbuild _ _ _ => "lbuild" end.

(** [getattr(args, "binder_executable", None)]. *)
Definition getattr_binder_executable (args : Args) : option string :=
  match args with dbuild _ _ => None | lbuild _ _ b => Some b end.

Definition source_patterns : list string :=
  ["*.hpp"; "*.cpp"; "*.h"; "*.hh"; "*.cc"; "*.c"].

Definition get_all_project_source_files (project_sources : list string)
  : M (list string) :=
  fold_m
    (fun all_source_files project_source =>
       found <- fold_m
                  (fun acc pattern =>
                     r <- Os.rglob project_source pattern ;;
                     ret (List.app acc r))
                  source_patterns [] ;;
       ret (List.app all_source_files found))
    project_sources [].

(** The test of line 99 on one line of a source file. *)
Definition keep_line (include_line_ignore_words : list string) (line : string)
  : bool :=
  PyStr.startswith "#include" line
  && negb (existsb (fun x => PyStr.contains x line) include_line_ignore_words).

(** What the inner loop appends for the lines of one file. *)
Definition includes_of_lines (include_line_ignore_words lines : list string)
  : list string :=
  map PyStr.strip (filter (keep_line include_line_ignore_words) lines).

(** The text written by the last loop: each include and a newline. *)
Definition render (all_includes : list string) : string :=
  String.concat EmptyString (map (fun include => include ++ PyStr.nl) all_includes).

Definition make_and_write_all_includes
    (all_project_source_files : list string) (out_all_includes_fn : string)
    (include_line_ignore_words : list string) : M unit :=
  all_includes <-
    fold_m
      (fun acc filename =>
         content <- Os.read_file filename ;;
         ret (List.app acc
                (includes_of_lines include_line_ignore_words
                   (PyStr.readlines content))))
      all_project_source_files [] ;;
  env <- ask ;;
  let all_includes := set_order env all_includes in
  let all_includes := sort all_includes in
  Os.write_file out_all_includes_fn (render all_includes).

Definition DUPLICATED_SOURCE : string :=
  "WARNING - DUPLICATED SOURCE - DO NOT NAME YOUR MODULE THE SAME AS ONE OF YOUR NAMESPACES/CLASSES".

(** The loop over the lines of the manifest. *)
Fixpoint scan_sources (lines sources_to_compile : list string)
  : PyExc + list string :=
  match lines with
  | [] => inr sources_to_compile
  | line :: lines' =>
      let l := PyStr.strip line in
      if existsb (String.eqb l) sources_to_compile
      then inl (RuntimeError DUPLICATED_SOURCE)
      else scan_sources lines' (List.app sources_to_compile [l])
  end.

Definition binder_command
    (binder_executable all_includes_fn bindings_dir python_module_name : string)
    (extra_source_directories : list string)
    (extra_binder_flags config_file : string) : string :=
  let includes :=
    PyStr.join " " (map (fun x => "-I" ++ x) extra_source_directories) in
  binder_executable ++ " --root-module " ++ python_module_name
  ++ " --prefix " ++ bindings_dir ++ " " ++ extra_binder_flags
  ++ " --config " ++ config_file
  ++ " " ++ all_includes_fn ++ " -- -std=c++11"
  ++ " " ++ includes ++ " -DNDEBUG -v".

Definition manifest_path (bindings_dir python_module_name : string) : string :=
  Path.os_path_join bindings_dir (python_module_name ++ ".sources").

Definition make_bindings_code
    (binder_executable all_includes_fn bindings_dir python_module_name : string)
    (extra_source_directories : list string)
    (extra_binder_flags config_file : string) : M (list string) :=
  let command :=
    binder_command binder_executable all_includes_fn bindings_dir
      python_module_name extra_source_directories extra_binder_flags
      config_file in
  run_checked command None ("Bad command return " ++ command) ;;
  content <- Os.read_file (manifest_path bindings_dir python_module_name) ;;
  lift (scan_sources (PyStr.readlines content) []).

(** The three lines a project source contributes, when its suffix
    contains the letter c. *)
Definition source_lib_name (source_fn : string) : string :=
  PyStr.replace_char "."%char "_" (PyStr.replace_char "/"%char "_" source_fn).

Definition is_compiled_source (source_fn : string) : bool :=
  PyStr.contains "c" (Path.suffix (Path.of_string source_fn)).

Definition library_lines (directories_to_include : list string)
    (source_fn : string) : list string :=
  if is_compiled_source source_fn then
    let n := source_lib_name source_fn in
    [ "add_library(" ++ n ++ " STATIC ${CMAKE_SOURCE_DIR}/" ++ source_fn ++ ")";
      "set_target_properties(" ++ n ++ " PROPERTIES POSITION_INDEPENDENT_CODE ON)";
      "target_include_directories(" ++ n ++ " PRIVATE "
        ++ PyStr.join " " directories_to_include ++ ")" ]
  else [].

Definition cmakelists_lines
    (sources_to_compile : list string) (module_name : string)
    (directories_to_include : list string) (pybind11_source : string)
    (all_project_source_files : list string) : list string :=
  let tolink :=
    map source_lib_name (filter is_compiled_source all_project_source_files) in
  let sources_to_compile_for_cmake :=
    map (fun x => "${CMAKE_CURRENT_BINARY_DIR}/" ++ x) sources_to_compile in
  List.app
    [ "cmake_minimum_required(VERSION 3.4...3.18)";
      "project(" ++ module_name ++ ")";
      "add_subdirectory(" ++ PyStr.dquote ++ pybind11_source ++ PyStr.dquote
        ++ " " ++ PyStr.dquote ++ "${CMAKE_CURRENT_BINARY_DIR}/pybind11_build"
        ++ PyStr.dquote ++ ")";
      EmptyString ]
    (List.app
       (flat_map (library_lines directories_to_include) all_project_source_files)
       [ "pybind11_add_module(" ++ module_name ++ " MODULE "
           ++ PyStr.join " " sources_to_compile_for_cmake ++ ")";
         "target_include_directories(" ++ module_name ++ " PRIVATE "
           ++ PyStr.join " " directories_to_include ++ ")";
         "set_target_properties(" ++ module_name
           ++ " PROPERTIES POSITION_INDEPENDENT_CODE ON)";
         "target_link_libraries(" ++ module_name ++ " PRIVATE "
           ++ PyStr.join " " tolink ++ ")" ]).

Definition cmake_configure_argv : list string :=
  PyStr.split "cmake -G Ninja -DCMAKE_CXX_COMPILER=clang++ -DCMAKE_C_COMPILER=clang ..".

Definition ninja_argv : list string := PyStr.split "ninja -v".

Definition compile_sources
    (sources_to_compile : list string) (bindings_dir module_name : string)
    (directories_to_include : list string) (pybind11_source : string)
    (all_project_source_files : list string) : M unit :=
  let lines_to_write :=
    cmakelists_lines sources_to_compile module_name directories_to_include
      pybind11_source all_project_source_files in
  Os.write_file "CMakeLists.txt"
    (String.concat EmptyString (map (fun line => line ++ PyStr.nl) lines_to_write)) ;;
  Os.subprocess_run cmake_configure_argv (Some bindings_dir) ;;
  Os.subprocess_run ninja_argv (Some bindings_dir) ;;
  Os.sys_path_add bindings_dir ;;
  Os.import_module module_name.

Definition validate_args (args : Args) : M unit :=
  match getattr_binder_executable args with
  | None =>
      if subparser args =? "lbuild" then
        env <- ask ;;
        match which env "binder" with
        | None => raise (RuntimeError "Unable to find binder in $PATH")
        | Some _ => ret tt
        end
      else ret tt
  | Some _ => ret tt
  end.

(** The argument list handed to the container. *)
Fixpoint docker_new_args (prev : option string) (argv : list string)
  : list string :=
  match argv with
  | [] => []
  | x :: argv' =>
      let renamed := if x =? "dbuild" then ["lbuild"] else [] in
      let skip :=
        PyStr.contains "docker-image" x
        || match prev with
           | Some y => PyStr.contains "docker-image" y
           | None => false
           end in
      List.app renamed
        (List.app (if skip then [] else [x]) (docker_new_args (Some x) argv'))
  end.

Definition run_in_docker (docker_image : string) : M unit :=
  env <- ask ;;
  let new_args := docker_new_args None (tl (sys_argv env)) in
  let command :=
    List.app
      (List.app
         [ "docker"; "run"; "--workdir"; getcwd env; "-v";
           getcwd env ++ ":" ++ getcwd env; "-t"; docker_image;
           "make_bindings_via_cmake.py" ]
         new_args)
      ["--pybind11-source"; "/build/pybind11"; "--binder-executable"; "binder"] in
  rc <- Os.subprocess_run command None ;;
  if negb (rc =? 0)%Z
  then raise (RuntimeError ("Error with command: " ++ PyStr.join " " command))
  else ret tt.

Definition run_preinstall_script (preinstall_script : string) : M unit :=
  if PyStr.truthy preinstall_script
  then Os.subprocess_run ["sh"; preinstall_script] None ;; ret tt
  else ret tt.

(** What [main] does once the output directory is in place. *)
Definition main_pipeline (c : Common) (pybind11_source binder_executable : string)
    (extra_source_directories : list string) : M unit :=
  all_project_source_files <- get_all_project_source_files (project_sources c) ;;
  env <- ask ;;
  all_includes_fn <-
    (if PyStr.truthy (custom_all_includes_file c)
     then ret (resolve env (custom_all_includes_file c))
     else
       let all_includes_fn :=
         resolve env
           (Path.to_string
              (Path.joinpath (Path.of_string (output_directory c))
                 "all_includes.hpp")) in
       make_and_write_all_includes all_project_source_files all_includes_fn
         (include_line_ignore_words c) ;;
       ret all_includes_fn) ;;
  sources_to_compile <-
    make_bindings_code binder_executable all_includes_fn (output_directory c)
      (module_name c) extra_source_directories (extra_binder_flags c)
      (config_file c) ;;
  compile_sources sources_to_compile (output_directory c) (module_name c)
    extra_source_directories pybind11_source all_project_source_files.

Definition main (args : Args) : M unit :=
  match args with
  | dbuild _ docker_image => run_in_docker docker_image
  | lbuild c pybind11_source binder_executable =>
      validate_args args ;;
      run_preinstall_script (preinstall_script c) ;;
      env <- ask ;;
      let extra_source_directories :=
        map (resolve env)
          (List.app
             (List.app (project_sources c) [python_inc env; "pybind11/include"])
             (source_directories_to_include c)) in
      Os.rmtree (output_directory c) ;;
      Os.mkdir (output_directory c) ;;
      main_pipeline c pybind11_source binder_executable extra_source_directories
  end.

End Bindings.

(* ================================================================== *)
(** * Stub external commands and sample inputs

    A small stand-in for git and the other tools, used to run the scripts
    on concrete inputs. *)
(* ================================================================== *)

Module Harness.

Definition add_dirs (fs : FS) (base : string) (names : list string) : FS :=
  fold_left
    (fun acc n => Fs.add_dir acc (Path.joinpath (Path.of_string base) n))
    names fs.

(** [git clone] fails with status 128 when the destination exists, and
    otherwise creates it with the layout of the repository; [git
    checkout] makes the [include] directory appear; every other command
    succeeds and leaves the files alone. *)
Definition exec_stub (n : nat) (argv : list string) (cwd : option string)
    (fs : FS) : FS * (PyExc + Z) :=
  match argv with
  | ["git"; "clone"; _; _; _; _; remote; dst] =>
      if Fs.exists_ fs (Path.of_string dst) then (fs, inr 128%Z)
      else
        match Fs.mkdir_p (Path.of_string dst) fs with
        | inr fs1 =>
            (add_dirs fs1 dst
               (if PyStr.contains "llvm" remote
                then ["llvm"; "clang-tools-extra"] else ["source"]),
             inr 0%Z)
        | inl _ => (fs, inr 128%Z)
        end
  | ["git"; "checkout"; "FETCH_HEAD"] =>
      match cwd with
      | Some d => (add_dirs fs d ["include"], inr 0%Z)
      | None => (fs, inr 1%Z)
      end
  | _ => (fs, inr 0%Z)
  end.

(** Every command exits with status 1 and changes nothing. *)
Definition exec_failing (n : nat) (argv : list string) (cwd : option string)
    (fs : FS) : FS * (PyExc + Z) := (fs, inr 1%Z).

Definition env_with
    (exec : nat -> list string -> option string -> FS -> FS * (PyExc + Z))
    (set_order : list string -> list string) : Env :=
  {| exec := exec;
     importable := fun _ _ _ => true;
     which := fun _ => None;
     resolve := Path.norm;
     python_inc := "/usr/include/python3";
     set_order := set_order;
     sys_argv := ["make_bindings_via_cmake.py"];
     getcwd := "/work";
     islink := fun _ => false;
     deletable := fun _ => true |}.

Definition env_stub : Env := env_with exec_stub (nodup string_dec).
Definition env_failing : Env := env_with exec_failing (nodup string_dec).

Definition world_of (fs : FS) : World :=
  {| fs := fs; trace := []; sys_path := [] |}.

Definition dir (p : string) : Path.t * Node := (Path.of_string p, Dir).
Definition file (p content : string) : Path.t * Node :=
  (Path.of_string p, File content).

(** A machine on which nothing has been installed yet. *)
Definition fresh : World := world_of [dir "/tmp"].

(** [build.py --build-path /tmp/build --binder-branch master]. *)
Definition build_args : BuildMain.Args :=
  {| BuildMain.jobs := 1;
     BuildMain.build_mode := "Release";
     BuildMain.compiler := "clang";
     BuildMain.prepare_only := false;
     BuildMain.build_path := "/tmp/build";
     BuildMain.pybind11_sha := Some SUPPORTED_PYBIND11_SHA;
     BuildMain.pybind11_source := None;
     BuildMain.llvm_source := Some EmptyString;
     BuildMain.llvm_version := Some SUGGESTED_LLVM_RELEASE;
     BuildMain.binder_source := Some EmptyString;
     BuildMain.binder_branch := Some "master";
     BuildMain.pybind11_git_url := None;
     BuildMain.binder_git_url := None;
     BuildMain.llvm_git_url := None |}.

Definition pinned (v : string) : VersionOrSourceLocation.t :=
  {| VersionOrSourceLocation.version := Some v;
     VersionOrSourceLocation.source_location := Some EmptyString |}.

Definition local (p : string) : VersionOrSourceLocation.t :=
  {| VersionOrSourceLocation.version := Some EmptyString;
     VersionOrSourceLocation.source_location := Some p |}.

Definition gcc_release : CompileOptions.t :=
  {| CompileOptions.build_mode := "Release";
     CompileOptions.compiler := "gcc";
     CompileOptions.cc := "gcc";
     CompileOptions.cpp := "g++";
     CompileOptions.cmake_extra_commands :=
       CompileOptions.cmake_extra_commands_from_known_compiler_paths
         "gcc" "g++" "Release" |}.

(** The toolchain installer of [build_args], with gcc as system
    compiler. *)
Definition llvm : LLVMInstall.t :=
  LLVMInstall.init LLVMInstall.default_git_remote
    (pinned SUGGESTED_LLVM_RELEASE) gcc_release
    "/tmp/build/binder/source" "/tmp/build/llvm-project" "build" 1.

(** The orchestrator for a pinned binder branch, when its construction
    succeeds. *)
Definition master_pinned : PyExc + MasterBinderInstaller.t :=
  MasterBinderInstaller.init MasterBinderInstaller.default_remotes
    (pinned "master") (pinned SUGGESTED_LLVM_RELEASE)
    (pinned SUPPORTED_PYBIND11_SHA) "/tmp/build" "clang" "Release" 1.

(** Two calls of [prepare()] on the orchestrator, one after the other. *)
Definition prepare_twice : M unit :=
  m <- lift master_pinned ;;
  prepare m ;;
  prepare m.

Definition prepare_once : M unit :=
  m <- lift master_pinned ;;
  prepare m.

(** The clone command of the binder repository in these runs. *)
Definition binder_clone_argv : list string :=
  ["git"; "clone"; "--depth"; "1"; "--branch"; "master";
   "https://github.com/RosettaCommons/binder.git"; "/tmp/build/binder"].

(** A generation run whose output directory is [/work/out]. *)
Definition gen_common : Bindings.Common :=
  {| Bindings.output_directory := "/work/out";
     Bindings.module_name := "mymod";
     Bindings.project_sources := ["/work/src"];
     Bindings.source_directories_to_include := [];
     Bindings.config_file := "/work/binder.cfg";
     Bindings.extra_binder_flags := EmptyString;
     Bindings.include_line_ignore_words := ["boost"];
     Bindings.preinstall_script := EmptyString;
     Bindings.custom_all_includes_file := EmptyString |}.

Definition gen_args : Bindings.Args :=
  Bindings.lbuild gen_common "/build/pybind11" "binder".

Definition compile_sample : M unit :=
  Bindings.compile_sources ["mymod.cpp"] "/work/out" "mymod" ["/work/src"]
    "/build/pybind11" ["/work/src/a.hpp"; "/work/src/b.cpp"].

(** A machine on which the toolchain tree and pybind11 are already in
    place, and binder is a local checkout. *)
Definition half_installed : World :=
  world_of
    [ dir "/tmp"; dir "/tmp/build"; dir "/tmp/build/llvm-project";
      dir "/tmp/build/pybind11"; dir "/tmp/build/pybind11/include";
      dir "/src"; dir "/src/binder"; dir "/src/binder/source" ].

(** The orchestrator for a local binder checkout. *)
Definition master_local : PyExc + MasterBinderInstaller.t :=
  MasterBinderInstaller.init MasterBinderInstaller.default_remotes
    (local "/src/binder") (pinned SUGGESTED_LLVM_RELEASE)
    (pinned SUPPORTED_PYBIND11_SHA) "/tmp/build" "clang" "Release" 1.

(** A set iteration order different from that of [env_stub]. *)
Definition env_rev : Env :=
  env_with exec_stub (fun l => rev (nodup string_dec l)).

(** A project with two source files; the second has CR LF line ends. *)
Definition a_hpp : string :=
  "#include <vector>" ++ PyStr.nl
  ++ "#include <boost/x.hpp>" ++ PyStr.nl
  ++ "  #include <indented.h>" ++ PyStr.nl
  ++ "int x;" ++ PyStr.nl
  ++ "#include <a.h>  " ++ PyStr.nl.

Definition b_cpp : string :=
  "#include <a.h>" ++ PyStr.chr 13 ++ PyStr.nl
  ++ "#include " ++ PyStr.dquote ++ "b.h" ++ PyStr.dquote.

Definition project : World :=
  world_of
    [ dir "/work"; dir "/work/src";
      file "/work/src/b.cpp" b_cpp; file "/work/src/a.hpp" a_hpp;
      file "/work/src/notes.txt" "#include <notes>";
      dir "/work/out" ].

Definition all_includes_fn : string := "/work/out/all_includes.hpp".

(** A manifest that names [mymod.cpp] twice, and a generator that
    leaves it in the output directory. *)
Definition duplicated_manifest : string :=
  "mymod.cpp" ++ PyStr.nl ++ "mymod/a.cpp" ++ PyStr.nl ++ "mymod.cpp" ++ PyStr.nl.

Definition exec_binder (n : nat) (argv : list string) (cwd : option string)
    (fs : FS) : FS * (PyExc + Z) :=
  match argv with
  | "binder" :: _ =>
      (Fs.set (Path.of_string "/work/out/mymod.sources")
         (File duplicated_manifest) fs,
       inr 0%Z)
  | _ => (fs, inr 0%Z)
  end.

Definition env_binder : Env := env_with exec_binder (nodup string_dec).


(** [build.py --build-path /tmp/build --binder-branch master
    --pybind11-source /src/pybind11]: the sha keeps its default. *)
Definition build_args_with_pybind11_source : BuildMain.Args :=
  {| BuildMain.jobs := 1;
     BuildMain.build_mode := "Release";
     BuildMain.compiler := "clang";
     BuildMain.prepare_only := false;
     BuildMain.build_path := "/tmp/build";
     BuildMain.pybind11_sha := Some SUPPORTED_PYBIND11_SHA;
     BuildMain.pybind11_source := Some "/src/pybind11";
     BuildMain.llvm_source := Some EmptyString;
     BuildMain.llvm_version := Some SUGGESTED_LLVM_RELEASE;
     BuildMain.binder_source := Some EmptyString;
     BuildMain.binder_branch := Some "master";
     BuildMain.pybind11_git_url := None;
     BuildMain.binder_git_url := None;
     BuildMain.llvm_git_url := None |}.

(** Like [exec_stub], except that ninja exits with status 2. *)
Definition exec_ninja_fails (n : nat) (argv : list string) (cwd : option string)
    (fs : FS) : FS * (PyExc + Z) :=
  match argv with
  | "ninja" :: _ => (fs, inr 2%Z)
  | _ => exec_stub n argv cwd fs
  end.

Definition env_ninja_fails : Env := env_with exec_ninja_fails (nodup string_dec).

(** [build.py --build-path /tmp/build --binder-branch master
    --prepare-only]. *)
Definition prepare_only_args : BuildMain.Args :=
  {| BuildMain.jobs := 1;
     BuildMain.build_mode := "Release";
     BuildMain.compiler := "clang";
     BuildMain.prepare_only := true;
     BuildMain.build_path := "/tmp/build";
     BuildMain.pybind11_sha := Some SUPPORTED_PYBIND11_SHA;
     BuildMain.pybind11_source := None;
     BuildMain.llvm_source := Some EmptyString;
     BuildMain.llvm_version := Some SUGGESTED_LLVM_RELEASE;
     BuildMain.binder_source := Some EmptyString;
     BuildMain.binder_branch := Some "master";
     BuildMain.pybind11_git_url := None;
     BuildMain.binder_git_url := None;
     BuildMain.llvm_git_url := None |}.

(** A manifest without repetition, and a generator that leaves it in the
    output directory. *)
Definition plain_manifest : string :=
  "mymod.cpp" ++ PyStr.nl ++ "  mymod/a.cpp " ++ PyStr.nl.

Definition exec_binder_plain (n : nat) (argv : list string) (cwd : option string)
    (fs : FS) : FS * (PyExc + Z) :=
  match argv with
  | "binder" :: _ =>
      (Fs.set (Path.of_string "/work/out/mymod.sources")
         (File plain_manifest) fs,
       inr 0%Z)
  | _ => (fs, inr 0%Z)
  end.

Definition env_binder_plain : Env := env_with exec_binder_plain (nodup string_dec).

(** [make_bindings_via_cmake.py dbuild --docker-image binder:latest
    --module-name mymod ...], started in [/work]. *)
Definition env_docker : Env :=
  {| exec := exec_stub;
     importable := fun _ _ _ => true;
     which := fun _ => None;
     resolve := Path.norm;
     python_inc := "/usr/include/python3";
     set_order := nodup string_dec;
     sys_argv := [ "make_bindings_via_cmake.py"; "dbuild";
                   "--docker-image"; "binder:latest";
                   "--module-name"; "mymod" ];
     getcwd := "/work";
     islink := fun _ => false;
     deletable := fun _ => true |}.

(** The sample run with an include file of the caller's own. *)
Definition gen_common_custom : Bindings.Common :=
  {| Bindings.output_directory := "/work/out";
     Bindings.module_name := "mymod";
     Bindings.project_sources := ["/work/src"];
     Bindings.source_directories_to_include := [];
     Bindings.config_file := "/work/binder.cfg";
     Bindings.extra_binder_flags := EmptyString;
     Bindings.include_line_ignore_words := ["boost"];
     Bindings.preinstall_script := EmptyString;
     Bindings.custom_all_includes_file := "/work/my_includes.hpp" |}.

(** A preinstall script that ends with status 3. *)
Definition exec_sh_fails (n : nat) (argv : list string) (cwd : option string)
    (fs : FS) : FS * (PyExc + Z) :=
  match argv with
  | "sh" :: _ => (fs, inr 3%Z)
  | _ => exec_binder_plain n argv cwd fs
  end.

Definition env_sh_fails : Env := env_with exec_sh_fails (nodup string_dec).

Definition gen_common_preinstall : Bindings.Common :=
  {| Bindings.output_directory := "/work/out";
     Bindings.module_name := "mymod";
     Bindings.project_sources := ["/work/src"];
     Bindings.source_directories_to_include := [];
     Bindings.config_file := "/work/binder.cfg";
     Bindings.extra_binder_flags := EmptyString;
     Bindings.include_line_ignore_words := ["boost"];
     Bindings.preinstall_script := "setup.sh";
     Bindings.custom_all_includes_file := EmptyString |}.






Definition clang_release : CompileOptions.t :=
  {| CompileOptions.build_mode := "Release";
     CompileOptions.compiler := "clang";
     CompileOptions.cc := "clang";
     CompileOptions.cpp := "clang++";
     CompileOptions.cmake_extra_commands :=
       CompileOptions.cmake_extra_commands_from_known_compiler_paths
         "clang" "clang++" "Release" |}.

(** A machine on which an earlier build with gcc has left its second
    build directory, with the cache of that configuration. *)
Definition second_build_dir_present : World :=
  world_of
    [ dir "/tmp"; dir "/tmp/build"; dir "/tmp/build/llvm-project";
      dir "/tmp/build/llvm-project/build2";
      file "/tmp/build/llvm-project/build2/CMakeCache.txt"
        "CMAKE_C_COMPILER:FILEPATH=/usr/bin/gcc" ].

End Harness.

(* ================================================================== *)
(** * Vocabulary of the statements *)
(* ================================================================== *)

(** The events of a successful [_install], in order. *)
Definition two_pass_events (self : LLVMInstall.t) : list Event :=
  let pass2 := LLVMInstall.set_build_dir self (LLVMInstall.build_dir self ++ "2") in
  [ EvRun (PyStr.split
             (LLVMInstall.cmake_base_command self
                (CompileOptions.cmake_extra_commands (LLVMInstall.compiler self))))
      (Some (LLVMInstall.base_source_directory self)) (inr 0%Z);
    EvRun (PyStr.split (LLVMInstall.ninja_build_command self))
      (Some (LLVMInstall.build_dir self)) (inr 0%Z);
    EvRun (PyStr.split (LLVMInstall.ninja_install_command self))
      (Some (LLVMInstall.build_dir self)) (inr 0%Z);
    EvMkdir "/etc/ld.so.conf.d" true;
    EvWrite "/etc/ld.so.conf.d/libc2.conf"
      "/usr/local/lib/x86_64-unknown-linux-gnu" true;
    EvRun ["ldconfig"] (Some (LLVMInstall.build_dir self)) (inr 0%Z);
    EvRun (PyStr.split
             (LLVMInstall.cmake_base_command pass2
                (CompileOptions.cmake_extra_commands_from_known_compiler_paths
                   "clang" "clang++"
                   (CompileOptions.build_mode (LLVMInstall.compiler self)))))
      (Some (LLVMInstall.base_source_directory self)) (inr 0%Z);
    EvRun (PyStr.split (LLVMInstall.ninja_build_command self))
      (Some (LLVMInstall.build_dir self ++ "2")) (inr 0%Z);
    EvRun (PyStr.split (LLVMInstall.ninja_install_command self))
      (Some (LLVMInstall.build_dir self ++ "2")) (inr 0%Z) ].

(** An event that is not the start of a cmake process. *)
Definition not_configure (e : Event) : Prop :=
  match e with
  | EvRun ("cmake" :: _) _ _ => False
  | _ => True
  end.

(** An event that starts a cmake process. *)
Definition is_configure (e : Event) : Prop :=
  match e with
  | EvRun ("cmake" :: _) _ _ => True
  | _ => False
  end.

(** Staging before configuring, as a property of the events of one run: wherever cmake is started, the binder sources
    have been copied into the tooling tree and the manifest of that tree
    has been extended, earlier in the same run. *)
Definition staged_before_configure (l : LLVMInstall.t) (events : list Event)
  : Prop :=
  forall t1 e t2,
    events = t1 +++ e :: t2 -> is_configure e ->
    exists a b c text,
      t1 = a +++ EvCopyTree (LLVMInstall.binder_source_directory l)
                   (LLVMInstall.binder_clang_tools_extra_subdir l) true
             :: b +++ EvAppend (LLVMInstall.clang_tools_extra_subdir_cmakelists l)
                        text true :: c.

(** A valid iteration order of sets: the elements of the list, each
    once. *)
Definition set_order_ok (order : list string -> list string) : Prop :=
  forall l, NoDup (order l) /\ (forall x, In x (order l) <-> In x l).

(** Whether a computation ended without raising. *)
Definition succeeded {A} (r : PyExc + A) : bool :=
  match r with inr _ => true | inl _ => false end.

(** Ascending order on strings. *)
Definition ascending (l : list string) : Prop :=
  StronglySorted (fun a b => (a <=? b) = true) l.

(** [f] is one of the files [get_all_project_source_files] looks for: an
    entry strictly below one of the source directories whose name ends in
    one of the six extensions. *)
Definition matched_source (fs : FS) (project_sources : list string) (f : string)
  : Prop :=
  exists src p node ext,
    In src project_sources
    /\ Fs.is_dir fs (Path.of_string src) = true
    /\ In (p, node) fs
    /\ Path.is_below (Path.of_string src) p = true
    /\ In ext [".hpp"; ".cpp"; ".h"; ".hh"; ".cc"; ".c"]
    /\ PyStr.endswith ext (Path.name p) = true
    /\ f = Path.to_string p.

(** [s] is the stripped form of a line of file [f] that starts with the
    include directive and contains none of the ignore words. *)
Definition include_of_file (fs : FS) (ignore : list string) (f s : string)
  : Prop :=
  exists content line,
    Fs.read (Path.of_string f) fs = inr content
    /\ In line (PyStr.readlines content)
    /\ PyStr.startswith "#include" line = true
    /\ (forall x, In x ignore -> PyStr.contains x line = false)
    /\ s = PyStr.strip line.

(** The includes one readable file contributes; nothing for a file that
    cannot be read. *)
Definition lines_of_file (fs : FS) (ignore : list string) (f : string)
  : list string :=
  match Fs.read (Path.of_string f) fs with
  | inr content => Bindings.includes_of_lines ignore (PyStr.readlines content)
  | inl _ => []
  end.

Definition readable (fs : FS) (f : string) : bool :=
  succeeded (Fs.read (Path.of_string f) fs).

(** No newline, except possibly as last character. *)
Fixpoint nl_last (s : string) : bool :=
  match s with
  | EmptyString => true
  | String c s' =>
      if PyStr.is_empty s' then true
      else negb (Ascii.eqb c "010"%char) && nl_last s'
  end.

(** The files found below one source directory. *)
Definition found_below (fs : FS) (project_source : string) : list string :=
  flat_map
    (fun pattern =>
       map Path.to_string (Fs.rglob (Path.of_string project_source) pattern fs))
    Bindings.source_patterns.


(** The last character of a string. *)
Fixpoint last_char (s : string) : option ascii :=
  match s with
  | EmptyString => None
  | String c s' =>
      match last_char s' with
      | Some d => Some d
      | None => Some c
      end
  end.

(** An event other than the reading of a file whose path ends in the
    letter s, as the path of the manifest does. *)
Definition not_manifest_read (e : Event) : Prop :=
  match e with
  | EvRead p _ => last_char p <> Some "s"%char
  | _ => True
  end.

(* ================================================================== *)
(** * Remaining functions of build.py *)
(* ================================================================== *)

(** [get_platform], as a function of [sys.platform]. *)
Definition get_platform (sys_platform : string) : string :=
  if PyStr.startswith "linux" sys_platform then "linux"
  else
    match dict_get [("darwin", "macos"); ("cygwin", "cygwin"); ("win32", "windows")]
            sys_platform with
    | Some platform => platform
    | None => "unknown"
    end.

(** Arguments of build.py that cannot be turned into an orchestrator: one
    of the three version-or-source pairs has both parts or neither, or the
    build mode or the compiler is not supported. *)
Definition invalid_build_args (args : BuildMain.Args) : Prop :=
  PyVal.truthy (BuildMain.pybind11_sha args)
    = PyVal.truthy (BuildMain.pybind11_source args)
  \/ PyVal.truthy (BuildMain.llvm_version args)
       = PyVal.truthy (BuildMain.llvm_source args)
  \/ PyVal.truthy (BuildMain.binder_branch args)
       = PyVal.truthy (BuildMain.binder_source args)
  \/ ~ In (BuildMain.build_mode args) ALLOWED_BUILD_MODES
  \/ (BuildMain.compiler args <> "clang" /\ BuildMain.compiler args <> "gcc").

(** An event other than a process that ended with a non-zero status or
    could not be started. *)
Definition command_ok (e : Event) : Prop :=
  match e with
  | EvRun _ _ outcome => outcome = inr 0%Z
  | _ => True
  end.

(** A computation that stops at the first command that fails: among the
    events of a run only the last can be a failed command, and not even
    the last when the run ends without an exception. *)
Definition fail_fast {A} (m : M A) : Prop :=
  forall env w w' r,
    m env w = (w', r) ->
    exists evs,
      trace w' = trace w +++ evs
      /\ Forall command_ok (removelast evs)
      /\ (succeeded r = true -> Forall command_ok evs).

(** The events of fetching and staging: questions to the file system,
    git, copies, new directories and the extension of a manifest.  No
    build tool is started and no file is written anew. *)
Definition fetch_only (e : Event) : Prop :=
  match e with
  | EvRun ("git" :: _) _ _ => True
  | EvIsDir _ _ | EvExists _ _ | EvCopyTree _ _ _ | EvMkdir _ _
  | EvAppend _ _ _ => True
  | _ => False
  end.

(** The event of opening [p] for reading in the file system [fs]. *)
Definition read_event (fs : FS) (p : string) : Event :=
  EvRead p (match Fs.read (Path.of_string p) fs with
            | inr content => Some content
            | inl _ => None
            end).

(** The only file written is CMakeLists.txt and the only file read is
    the manifest of the generator. *)
Definition generated_files_only (c : Bindings.Common) (e : Event) : Prop :=
  match e with
  | EvWrite p _ _ => p = "CMakeLists.txt"
  | EvRead p _ =>
      p = Bindings.manifest_path (Bindings.output_directory c)
            (Bindings.module_name c)
  | _ => True
  end.

(** The text of a file whose lines are the elements of [L], in order:
    each element is followed by one line feed and nothing else is in the
    file. *)
Fixpoint one_per_line (L : list string) : string :=
  match L with
  | [] => EmptyString
  | s :: L' => s ++ String "010"%char (one_per_line L')
  end.

(* ================================================================== *)
(** * The two-pass bootstrap and the staging, spelled out *)
(* ================================================================== *)

(** [str(Path(dir) / name)]. *)
Definition child (dir name : string) : string :=
  Path.to_string (Path.joinpath (Path.of_string dir) name).

(** The options every configure command of the toolchain ends with. *)
Definition llvm_options : list string :=
  [ "-DLLVM_ENABLE_LIBCXX=ON"; "-DLLVM_INCLUDE_TESTS=OFF";
    "-DLLVM_ENABLE_RUNTIMES='libc;libcxx;libcxxabi'";
    "-DLLVM_ENABLE_PROJECTS='clang-tools-extra;clang'";
    "-DLLVM_ENABLE_EH=1"; "-DLLVM_ENABLE_RTTI=ON" ].

(** The argument vector of a configure command: cmake on the llvm
    directory, the build directory, the generator, the compiler pair and
    the build type, and the fixed options. *)
Definition configure_argv (build_dir cc cpp build_mode : string) : list string :=
  ["cmake"; "llvm"; "-B"] +++ PyStr.split build_dir
  +++ [ "-G"; "Ninja"; "-DCMAKE_C_COMPILER=" ++ cc;
        "-DCMAKE_CXX_COMPILER=" ++ cpp; "-DCMAKE_BUILD_TYPE=" ++ build_mode ]
  +++ llvm_options.

(** The targets of the install step. *)
Definition curated_targets : list string :=
  [ "install-clang-resource-headers"; "install-cxx"; "install-cxxabi";
    "install-clang"; "tools/clang/tools/extra/binder/install";
    "install-clang-headers" ].

(** The compiler pair of the caller's choice. *)
Definition system_pair (compiler : string) : string * string :=
  if compiler =? "gcc" then ("gcc", "g++") else ("clang", "clang++").

(** The interactions of the two-pass bootstrap, every command ending
    with status 0: configure with the caller's pair, build, install of
    the curated targets, registration of the runtime library path,
    configure for the build directory with a 2 appended and the pair
    clang and clang++, build and install there. *)
Definition bootstrap_events (base build_dir compiler build_mode : string)
    (cpus : Z) : list Event :=
  let jobs := str_of_int cpus in
  [ EvRun (configure_argv build_dir (fst (system_pair compiler))
             (snd (system_pair compiler)) build_mode)
      (Some base) (inr 0%Z);
    EvRun ["ninja"; "-j"; jobs] (Some build_dir) (inr 0%Z);
    EvRun ("ninja" :: curated_targets +++ ["-j"; jobs]) (Some build_dir) (inr 0%Z);
    EvMkdir "/etc/ld.so.conf.d" true;
    EvWrite "/etc/ld.so.conf.d/libc2.conf"
      "/usr/local/lib/x86_64-unknown-linux-gnu" true;
    EvRun ["ldconfig"] (Some build_dir) (inr 0%Z);
    EvRun (configure_argv (build_dir ++ "2") "clang" "clang++" build_mode)
      (Some base) (inr 0%Z);
    EvRun ["ninja"; "-j"; jobs] (Some (build_dir ++ "2")) (inr 0%Z);
    EvRun ("ninja" :: curated_targets +++ ["-j"; jobs])
      (Some (build_dir ++ "2")) (inr 0%Z) ].

(** The command that fetches a branch of a repository into a
    directory. *)
Definition clone_argv (version remote target : string) : list string :=
  ["git"; "clone"; "--depth"; "1"; "--branch"]
  +++ PyStr.split version +++ PyStr.split remote +++ PyStr.split target.

(** The toolchain preparation that finds the tree in place: two
    questions and nothing else. *)
Definition toolchain_found (binder_source base : string) : list Event :=
  [ EvIsDir binder_source true; EvIsDir base true ].

(** The toolchain preparation that stages: the tree is missing, it is
    fetched, the binder sources are copied into the directory [binder]
    of its clang-tools-extra tree, and the line that adds this directory
    is appended to the manifest of that tree. *)
Definition toolchain_staged (binder_source base : string) (fetch : Event)
  : list Event :=
  [ EvIsDir binder_source true; EvIsDir base false; fetch;
    EvCopyTree binder_source (child (child base "clang-tools-extra") "binder")
      true;
    EvAppend (child (child base "clang-tools-extra") "CMakeLists.txt")
      (String "010"%char
         ("add_subdirectory(binder)" ++ String "010"%char EmptyString))
      true ].

(** What happens before the toolchain is prepared, the fetching of binder
    and of pybind11: questions, git, a copy, a new directory. *)
Definition before_toolchain (e : Event) : Prop :=
  match e with
  | EvRun ("git" :: _) _ _ => True
  | EvIsDir _ _ | EvExists _ _ | EvCopyTree _ _ _ | EvMkdir _ _ => True
  | _ => False
  end.

(** A step of the installation proper: a command other than git, the
    creation of a directory, the writing of a file.  Nothing is copied
    and no file is extended. *)
Definition build_step (e : Event) : Prop :=
  match e with
  | EvRun ("git" :: _) _ _ => False
  | EvRun _ _ _ => True
  | EvMkdir _ _ | EvWrite _ _ _ => True
  | _ => False
  end.

(** The events of a run of the orchestrator's [install], for an
    orchestrator built from the given arguments.  Either cmake is never
    started and the run ends with an exception, or the events are those
    of the fetching of binder and pybind11, then the toolchain
    preparation, complete, then the steps of the installation proper;
    every start of cmake is among the latter. *)
Definition prepared_before_configure
    (rem : MasterBinderInstaller.remotes)
    (binder llvm : VersionOrSourceLocation.t) (build_dir : string)
    (events : list Event) (r : PyExc + MasterBinderInstaller.t) : Prop :=
  let base := child build_dir "llvm-project" in
  let binder_source :=
    if PyVal.truthy (VersionOrSourceLocation.version binder)
    then child (child build_dir "binder") "source"
    else child (PyVal.fmt (VersionOrSourceLocation.source_location binder))
           "source" in
  (Forall not_configure events /\ succeeded r = false)
  \/ exists t0 prep inst,
       events = t0 +++ prep +++ inst
       /\ Forall before_toolchain t0
       /\ Forall build_step inst
       /\ (prep = toolchain_found binder_source base
           \/ (exists src,
                 PyVal.as_truthy (VersionOrSourceLocation.source_location llvm)
                 = Some src
                 /\ prep = toolchain_staged binder_source base
                             (EvCopyTree src base true))
           \/ (PyVal.truthy (VersionOrSourceLocation.source_location llvm) = false
               /\ prep = toolchain_staged binder_source base
                           (EvRun (clone_argv
                                     (PyVal.fmt
                                        (VersionOrSourceLocation.version llvm))
                                     (MasterBinderInstaller.llvm_remote rem) base)
                              None (inr 0%Z))))
       /\ (forall t1 e t2,
             events = t1 +++ e :: t2 -> is_configure e ->
             exists rest, t1 = t0 +++ prep +++ rest).

(* ================================================================== *)
(** * The text of CMakeLists.txt *)
(* ================================================================== *)

(** The suffix of the file is that of a C or C++ source. *)
Definition has_source_suffix (source_fn : string) : bool :=
  existsb (String.eqb (Path.suffix (Path.of_string source_fn)))
    [".cpp"; ".cc"; ".c"].

(** The path with an underscore for every slash and every dot. *)
Fixpoint underscored (s : string) : string :=
  match s with
  | EmptyString => EmptyString
  | String c s' =>
      String (if Ascii.eqb c "/"%char || Ascii.eqb c "."%char
              then "_"%char else c)
        (underscored s')
  end.

(** The three lines that declare the static library of a source. *)
Definition library_block (directories_to_include : list string)
    (source_fn : string) : list string :=
  [ "add_library(" ++ underscored source_fn ++ " STATIC ${CMAKE_SOURCE_DIR}/"
      ++ source_fn ++ ")";
    "set_target_properties(" ++ underscored source_fn
      ++ " PROPERTIES POSITION_INDEPENDENT_CODE ON)";
    "target_include_directories(" ++ underscored source_fn ++ " PRIVATE "
      ++ String.concat " " directories_to_include ++ ")" ].

(** The text of CMakeLists.txt: the head, the library of every source
    with the suffix of a C or C++ source, in the order of the sources,
    and the module, which is linked with these libraries. *)
Definition cmakelists_text
    (sources_to_compile : list string) (module_name : string)
    (directories_to_include : list string) (pybind11_source : string)
    (all_project_source_files : list string) : string :=
  let quote := String "034"%char EmptyString in
  one_per_line
    ([ "cmake_minimum_required(VERSION 3.4...3.18)";
       "project(" ++ module_name ++ ")";
       "add_subdirectory(" ++ quote ++ pybind11_source ++ quote ++ " " ++ quote
         ++ "${CMAKE_CURRENT_BINARY_DIR}/pybind11_build" ++ quote ++ ")";
       EmptyString ]
     +++ flat_map
           (fun f => if has_source_suffix f
                     then library_block directories_to_include f else [])
           all_project_source_files
     +++ [ "pybind11_add_module(" ++ module_name ++ " MODULE "
             ++ String.concat " "
                  (map (fun x => "${CMAKE_CURRENT_BINARY_DIR}/" ++ x)
                     sources_to_compile)
             ++ ")";
           "target_include_directories(" ++ module_name ++ " PRIVATE "
             ++ String.concat " " directories_to_include ++ ")";
           "set_target_properties(" ++ module_name
             ++ " PROPERTIES POSITION_INDEPENDENT_CODE ON)";
           "target_link_libraries(" ++ module_name ++ " PRIVATE "
             ++ String.concat " "
                  (map underscored
                     (filter has_source_suffix all_project_source_files))
             ++ ")" ]).

(* ================================================================== *)
(** * Checks of the built-ins on small inputs *)
(* ================================================================== *)

Example strip_ex :
  PyStr.strip ("  #include <a.h> " ++ PyStr.nl) = "#include <a.h>".
Proof. reflexivity. Qed.

Example split_ex :
  PyStr.split "git  clone --depth 1" = ["git"; "clone"; "--depth"; "1"].
Proof. reflexivity. Qed.

Example contains_ex :
  PyStr.contains "boost" "#include <boost/x.hpp>" = true
  /\ PyStr.contains "boost" "#include <vector>" = false.
Proof. split; reflexivity. Qed.

Example readlines_ex :
  PyStr.readlines ("a" ++ PyStr.chr 13 ++ PyStr.nl ++ "b" ++ PyStr.chr 13 ++ "c")
  = ["a" ++ PyStr.nl; "b" ++ PyStr.nl; "c"].
Proof. reflexivity. Qed.

Example path_ex1 :
  Path.to_string (Path.joinpath (Path.of_string "/tmp//build/./x/") "ENVFILE")
  = "/tmp/build/x/ENVFILE".
Proof. reflexivity. Qed.

Example path_ex2 :
  Path.suffix (Path.of_string "src/a.b.cpp") = ".cpp"
  /\ Path.suffix (Path.of_string "src/.bashrc") = EmptyString
  /\ Path.suffix (Path.of_string "src/x.") = EmptyString
  /\ Path.to_string (Path.of_string EmptyString) = ".".
Proof. repeat split; reflexivity. Qed.

Example path_ex3 :
  map Path.to_string (Path.chain (Path.of_string "/a/b/c")) = ["/a"; "/a/b"; "/a/b/c"].
Proof. reflexivity. Qed.

Example str_of_int_ex : str_of_int 8 = "8" /\ str_of_int 0 = "0" /\ str_of_int (-3) = "-3".
Proof. repeat split; reflexivity. Qed.

Example endswith_ex :
  PyStr.endswith ".hpp" "a.hpp" = true
  /\ PyStr.endswith ".h" "a.hpp" = false
  /\ PyStr.endswith ".hpp" "hpp" = false
  /\ PyStr.endswith EmptyString "x" = true
  /\ Path.os_path_join "/work/out" "m.sources" = "/work/out/m.sources"
  /\ Path.os_path_join "/work/out/" "m.sources" = "/work/out/m.sources".
Proof. repeat split; reflexivity. Qed.

(* ================================================================== *)
(** * Reasoning about computations *)
(* ================================================================== *)

Lemma bind_ok_inv {A B} (m : M A) (f : A -> M B) env w w' b :
  bind m f env w = (w', inr b) ->
  exists w1 a, m env w = (w1, inr a) /\ f a env w1 = (w', inr b).
Proof.
  unfold bind. destruct (m env w) as [w1 [e | a]]; intros H.
  - discriminate.
  - exists w1, a. split; [reflexivity | assumption].
Qed.

Lemma bind_inv {A B} (m : M A) (f : A -> M B) env w w' r :
  bind m f env w = (w', r) ->
  (exists e, m env w = (w', inl e) /\ r = inl e)
  \/ (exists w1 a, m env w = (w1, inr a) /\ f a env w1 = (w', r)).
Proof.
  unfold bind. destruct (m env w) as [w1 [e | a]]; intros H.
  - left. inversion H; subst. exists e. split; reflexivity.
  - right. exists w1, a. split; [reflexivity | assumption].
Qed.

Lemma bind_err {A B} (m : M A) (f : A -> M B) env w w' e :
  m env w = (w', inl e) -> bind m f env w = (w', inl e).
Proof. intros H. unfold bind. rewrite H. reflexivity. Qed.

Lemma bind_ok {A B} (m : M A) (f : A -> M B) env w w1 a :
  m env w = (w1, inr a) -> bind m f env w = f a env w1.
Proof. intros H. unfold bind. rewrite H. reflexivity. Qed.

Lemma trace_log e w : trace (log e w) = (trace w ++ [e])%list.
Proof. reflexivity. Qed.

Lemma trace_with_fs f w : trace (with_fs f w) = trace w.
Proof. reflexivity. Qed.

Lemma fs_log e w : fs (log e w) = fs w.
Proof. reflexivity. Qed.

Lemma fs_with_fs f w : fs (with_fs f w) = f.
Proof. reflexivity. Qed.

(** [emits P m]: whatever [m] does, it only adds events to the trace, and
    each of them satisfies [P]. *)
Definition emits {A} (P : Event -> Prop) (m : M A) : Prop :=
  forall env w w' r, m env w = (w', r) ->
    exists evs, trace w' = (trace w ++ evs)%list /\ Forall P evs.

Lemma emits_ret {A} P (a : A) : emits P (ret a).
Proof.
  intros env w w' r H. inversion H; subst. exists []. rewrite app_nil_r. auto.
Qed.

Lemma emits_raise {A} P e : emits P (@raise A e).
Proof.
  intros env w w' r H. inversion H; subst. exists []. rewrite app_nil_r. auto.
Qed.

Lemma emits_ask P : emits P ask.
Proof.
  intros env w w' r H. inversion H; subst. exists []. rewrite app_nil_r. auto.
Qed.

Lemma emits_lift {A} P (x : PyExc + A) : emits P (lift x).
Proof. destruct x; [apply emits_raise | apply emits_ret]. Qed.

Lemma emits_bind {A B} P (m : M A) (f : A -> M B) :
  emits P m -> (forall a, emits P (f a)) -> emits P (bind m f).
Proof.
  intros Hm Hf env w w' r H.
  apply bind_inv in H. destruct H as [[e [H ->]] | [w1 [a [H1 H2]]]].
  - apply Hm in H. exact H.
  - apply Hm in H1. destruct H1 as [evs1 [E1 F1]].
    apply Hf in H2. destruct H2 as [evs2 [E2 F2]].
    exists (evs1 ++ evs2)%list. split.
    + rewrite E2, E1, app_assoc. reflexivity.
    + apply Forall_app. split; assumption.
Qed.

Lemma emits_for_each {A} P (l : list A) (body : A -> M unit) :
  (forall a, emits P (body a)) -> emits P (for_each l body).
Proof.
  intros Hb. induction l as [| a l IH]; simpl.
  - apply emits_ret.
  - apply emits_bind; [apply Hb | intros _; exact IH].
Qed.

Lemma emits_for_each_in {A} P (l : list A) (body : A -> M unit) :
  (forall a, In a l -> emits P (body a)) -> emits P (for_each l body).
Proof.
  induction l as [| a l IH]; intros Hb; simpl.
  - apply emits_ret.
  - apply emits_bind.
    + apply Hb. left. reflexivity.
    + intros _. apply IH. intros b Hin. apply Hb. right. exact Hin.
Qed.

Lemma emits_fold_m {A S} P (body : S -> A -> M S) (l : list A) :
  (forall s a, emits P (body s a)) -> forall s, emits P (fold_m body l s).
Proof.
  intros Hb. induction l as [| a l IH]; intros s; simpl.
  - apply emits_ret.
  - apply emits_bind; [apply Hb | intros s'; apply IH].
Qed.

Lemma emits_weaken {A} (P Q : Event -> Prop) (m : M A) :
  (forall e, P e -> Q e) -> emits P m -> emits Q m.
Proof.
  intros HPQ Hm env w w' r H. apply Hm in H. destruct H as [evs [E F]].
  exists evs. split; [exact E |].
  eapply Forall_impl; [exact HPQ | exact F].
Qed.

Lemma emits_one {A} (P : Event -> Prop) (m : M A) :
  (forall env w w' r, m env w = (w', r) ->
     exists e, trace w' = (trace w ++ [e])%list /\ P e) ->
  emits P m.
Proof.
  intros Hm env w w' r H. apply Hm in H. destruct H as [e [E Pe]].
  exists [e]. split; [exact E | constructor; [exact Pe | constructor]].
Qed.

Lemma emits_subprocess_run P argv cwd :
  (forall out, P (EvRun argv cwd out)) -> emits P (Os.subprocess_run argv cwd).
Proof.
  intros HP. apply emits_one. intros env w w' r H. unfold Os.subprocess_run in H.
  destruct (exec env (List.length (trace w)) argv cwd (fs w)) as [fs' out].
  inversion H; subst. exists (EvRun argv cwd r). split; [reflexivity | apply HP].
Qed.

Lemma emits_is_dir P p :
  (forall b, P (EvIsDir p b)) -> emits P (Os.is_dir p).
Proof.
  intros HP. apply emits_one. intros env w w' r H. unfold Os.is_dir in H.
  inversion H; subst. eexists. split; [reflexivity | apply HP].
Qed.

Lemma emits_exists P p :
  (forall b, P (EvExists p b)) -> emits P (Os.exists_ p).
Proof.
  intros HP. apply emits_one. intros env w w' r H. unfold Os.exists_ in H.
  inversion H; subst. eexists. split; [reflexivity | apply HP].
Qed.

Lemma emits_fs_step P ev r :
  (forall b, P (ev b)) -> emits P (Os.fs_step ev r).
Proof.
  intros HP. apply emits_one. intros env w w' r' H. unfold Os.fs_step in H.
  destruct r; inversion H; subst; eexists; (split; [reflexivity | apply HP]).
Qed.

Lemma emits_copytree P src dst :
  (forall b, P (EvCopyTree src dst b)) -> emits P (Os.copytree src dst).
Proof.
  intros HP env w w' r H. unfold Os.copytree in H.
  eapply emits_fs_step in H; [exact H | exact HP].
Qed.

Lemma emits_write_file P p text :
  (forall b, P (EvWrite p text b)) -> emits P (Os.write_file p text).
Proof.
  intros HP env w w' r H. unfold Os.write_file in H.
  eapply emits_fs_step in H; [exact H | exact HP].
Qed.

Lemma emits_append_file P p text :
  (forall b, P (EvAppend p text b)) -> emits P (Os.append_file p text).
Proof.
  intros HP env w w' r H. unfold Os.append_file in H.
  eapply emits_fs_step in H; [exact H | exact HP].
Qed.

Lemma emits_mkdir P p :
  (forall b, P (EvMkdir p b)) -> emits P (Os.mkdir p).
Proof.
  intros HP env w w' r H. unfold Os.mkdir in H.
  eapply emits_fs_step in H; [exact H | exact HP].
Qed.

Lemma emits_read_file P p :
  (forall c, P (EvRead p c)) -> emits P (Os.read_file p).
Proof.
  intros HP. apply emits_one. intros env w w' r H. unfold Os.read_file in H.
  destruct (Fs.read (Path.of_string p) (fs w));
    inversion H; subst; eexists; (split; [reflexivity | apply HP]).
Qed.

Lemma emits_rmtree P p : P (EvRmTree p) -> emits P (Os.rmtree p).
Proof.
  intros HP. apply emits_one. intros env w w' r H. unfold Os.rmtree in H.
  inversion H; subst. eexists. split; [| exact HP].
  destruct (PyStr.is_empty p || islink env p); reflexivity.
Qed.

Lemma emits_rglob P d pat :
  (forall l, P (EvGlob d pat l)) -> emits P (Os.rglob d pat).
Proof.
  intros HP. apply emits_one. intros env w w' r H. unfold Os.rglob in H.
  inversion H; subst. eexists. split; [reflexivity | apply HP].
Qed.

Lemma emits_import_module P name :
  (forall b, P (EvImport name b)) -> emits P (Os.import_module name).
Proof.
  intros HP. apply emits_one. intros env w w' r H. unfold Os.import_module in H.
  inversion H; subst. eexists. split; [reflexivity | apply HP].
Qed.

Lemma emits_sys_path_add P d : emits P (Os.sys_path_add d).
Proof.
  intros env w w' r H. unfold Os.sys_path_add in H. inversion H; subst.
  exists []. rewrite app_nil_r. split; [| constructor].
  destruct (existsb (String.eqb d) (sys_path w)); reflexivity.
Qed.

Lemma emits_run_checked P command cwd msg :
  (forall out, P (EvRun (PyStr.split command) cwd out)) ->
  emits P (run_checked command cwd msg).
Proof.
  intros HP. unfold run_checked. apply emits_bind.
  - apply emits_subprocess_run. exact HP.
  - intros rc. destruct (negb (rc =? 0)%Z); [apply emits_raise | apply emits_ret].
Qed.

(** ** Successful steps and the one event each of them adds *)

Lemma subprocess_run_ok argv cwd env w w' rc :
  Os.subprocess_run argv cwd env w = (w', inr rc) ->
  trace w' = (trace w ++ [EvRun argv cwd (inr rc)])%list.
Proof.
  unfold Os.subprocess_run.
  destruct (exec env (List.length (trace w)) argv cwd (fs w)) as [fs' out].
  intros H. inversion H; subst. reflexivity.
Qed.

Lemma run_checked_ok command cwd msg env w w' u :
  run_checked command cwd msg env w = (w', inr u) ->
  trace w' = (trace w ++ [EvRun (PyStr.split command) cwd (inr 0%Z)])%list.
Proof.
  unfold run_checked. intros H.
  apply bind_ok_inv in H. destruct H as [w1 [rc [H1 H2]]].
  apply subprocess_run_ok in H1.
  destruct (Z.eqb_spec rc 0) as [-> | Hne]; simpl in H2.
  - inversion H2; subst. exact H1.
  - discriminate.
Qed.

Lemma fs_step_ok ev r env w w' u :
  Os.fs_step ev r env w = (w', inr u) ->
  exists fs', r = inr fs' /\ w' = log (ev true) (with_fs fs' w).
Proof.
  unfold Os.fs_step. destruct r as [e | fs']; intros H; inversion H; subst.
  exists fs'. split; reflexivity.
Qed.

Lemma mkdir_ok p env w w' u :
  Os.mkdir p env w = (w', inr u) ->
  trace w' = (trace w ++ [EvMkdir p true])%list.
Proof.
  intros H. apply fs_step_ok with (env := env) in H. destruct H as [fs' [_ ->]]. reflexivity.
Qed.

Lemma write_file_ok p text env w w' u :
  Os.write_file p text env w = (w', inr u) ->
  trace w' = (trace w ++ [EvWrite p text true])%list
  /\ Fs.write (Path.of_string p) text (fs w) = inr (fs w').
Proof.
  intros H. apply fs_step_ok with (env := env) in H. destruct H as [fs' [E ->]].
  split; [reflexivity | exact E].
Qed.

Lemma append_file_ok p text env w w' u :
  Os.append_file p text env w = (w', inr u) ->
  trace w' = (trace w ++ [EvAppend p text true])%list.
Proof.
  intros H. apply fs_step_ok with (env := env) in H. destruct H as [fs' [_ ->]]. reflexivity.
Qed.

Lemma copytree_ok src dst env w w' u :
  Os.copytree src dst env w = (w', inr u) ->
  trace w' = (trace w ++ [EvCopyTree src dst true])%list.
Proof.
  intros H. apply fs_step_ok with (env := env) in H. destruct H as [fs' [_ ->]]. reflexivity.
Qed.

Lemma is_dir_run p env w w' r :
  Os.is_dir p env w = (w', r) ->
  exists b, r = inr b /\ trace w' = (trace w ++ [EvIsDir p b])%list
            /\ fs w' = fs w /\ b = Fs.is_dir (fs w) (Path.of_string p).
Proof.
  unfold Os.is_dir. intros H. inversion H; subst. eexists. repeat split.
Qed.

Lemma exists_run p env w w' r :
  Os.exists_ p env w = (w', r) ->
  exists b, r = inr b /\ trace w' = (trace w ++ [EvExists p b])%list
            /\ fs w' = fs w.
Proof.
  unfold Os.exists_. intros H. inversion H; subst. eexists. repeat split.
Qed.

Lemma subprocess_run_run argv cwd env w w' r :
  Os.subprocess_run argv cwd env w = (w', r) ->
  trace w' = (trace w ++ [EvRun argv cwd r])%list.
Proof.
  unfold Os.subprocess_run.
  destruct (exec env (List.length (trace w)) argv cwd (fs w)) as [fs' out].
  intros H. inversion H; subst. reflexivity.
Qed.

Lemma fs_step_run ev x env w w' r :
  Os.fs_step ev x env w = (w', r) ->
  (exists e, x = inl e /\ r = inl e /\ w' = log (ev false) w)
  \/ (exists fs', x = inr fs' /\ r = inr tt /\ w' = log (ev true) (with_fs fs' w)).
Proof.
  unfold Os.fs_step. destruct x as [e | fs']; intros H; inversion H; subst.
  - left. exists e. repeat split.
  - right. exists fs'. repeat split.
Qed.

Lemma write_file_run p text env w w' r :
  Os.write_file p text env w = (w', r) ->
  exists ok, trace w' = (trace w ++ [EvWrite p text ok])%list
             /\ (ok = true -> r = inr tt) /\ (ok = false -> exists e, r = inl e).
Proof.
  intros H. apply fs_step_run with (env := env) in H.
  destruct H as [[e [_ [-> ->]]] | [fs' [_ [-> ->]]]].
  - exists false. repeat split; [discriminate | intros _; exists e; reflexivity].
  - exists true. repeat split. discriminate.
Qed.

Lemma sys_path_add_run d env w w' r :
  Os.sys_path_add d env w = (w', r) ->
  r = inr tt /\ trace w' = trace w /\ fs w' = fs w.
Proof.
  unfold Os.sys_path_add. intros H. inversion H; subst.
  destruct (existsb (String.eqb d) (sys_path w)); repeat split.
Qed.

Lemma import_module_run name env w w' r :
  Os.import_module name env w = (w', r) ->
  exists ok, trace w' = (trace w ++ [EvImport name ok])%list
             /\ r = (if ok then inr tt else inl (ModuleNotFoundError name)).
Proof.
  unfold Os.import_module. intros H. inversion H; subst.
  eexists. split; reflexivity.
Qed.

(* ================================================================== *)
(** * The value type [VersionOrSourceLocation] *)
(* ================================================================== *)

(** C6. Constructing a [VersionOrSourceLocation] succeeds exactly when
    one of version and source location is non-empty and the other is
    empty or absent; the object then holds the two arguments.  When both
    are set, or neither, the constructor raises a [RuntimeError]. *)
Theorem VersionOrSourceLocation_init_exactly_one :
  forall version source_location : option string,
    ((exists o, VersionOrSourceLocation.init version source_location = inr o)
     <-> xorb (PyVal.truthy version) (PyVal.truthy source_location) = true)
    /\ (forall o, VersionOrSourceLocation.init version source_location = inr o ->
          VersionOrSourceLocation.version o = version
          /\ VersionOrSourceLocation.source_location o = source_location)
    /\ ((exists msg, VersionOrSourceLocation.init version source_location
                     = inl (RuntimeError msg))
        <-> PyVal.truthy version = PyVal.truthy source_location).
Proof.
  intros version source_location. unfold VersionOrSourceLocation.init.
  destruct (PyVal.truthy version), (PyVal.truthy source_location); simpl;
    (split; [split | split; [| split]]);
    try (intros [? H]; discriminate H);
    try (intros H; discriminate H);
    try (intros _; eexists; reflexivity);
    try (intros ? H; inversion H; split; reflexivity);
    try (intros ? H; discriminate H).
Qed.

(* ================================================================== *)
(** * The two-pass bootstrap of [LLVMInstall._install] *)
(* ================================================================== *)

Lemma ninja_build_and_install_ok self env w w' u :
  LLVMInstall._run_ninja_build_and_install_command self env w = (w', inr u) ->
  trace w' =
    (trace w ++
     [ EvRun (PyStr.split (LLVMInstall.ninja_build_command self))
         (Some (LLVMInstall.build_dir self)) (inr 0%Z);
       EvRun (PyStr.split (LLVMInstall.ninja_install_command self))
         (Some (LLVMInstall.build_dir self)) (inr 0%Z) ])%list.
Proof.
  unfold LLVMInstall._run_ninja_build_and_install_command. simpl. intros H.
  apply bind_ok_inv in H. destruct H as [w1 [[] [H1 H]]].
  apply bind_ok_inv in H. destruct H as [w2 [[] [H2 H]]].
  inversion H; subst.
  apply run_checked_ok in H1. apply run_checked_ok in H2.
  rewrite H2, H1, <- app_assoc. reflexivity.
Qed.

Lemma setup_ldconfig_path_ok self env w w' u :
  LLVMInstall._setup_ldconfig_path self env w = (w', inr u) ->
  trace w' =
    (trace w ++
     [ EvMkdir "/etc/ld.so.conf.d" true;
       EvWrite "/etc/ld.so.conf.d/libc2.conf"
         "/usr/local/lib/x86_64-unknown-linux-gnu" true;
       EvRun ["ldconfig"] (Some (LLVMInstall.build_dir self)) (inr 0%Z) ])%list.
Proof.
  unfold LLVMInstall._setup_ldconfig_path. intros H.
  apply bind_ok_inv in H. destruct H as [w1 [[] [H1 H]]].
  apply bind_ok_inv in H. destruct H as [w2 [[] [H2 H]]].
  apply bind_ok_inv in H. destruct H as [w3 [rc [H3 H]]].
  apply mkdir_ok in H1. apply write_file_ok in H2. destruct H2 as [H2 _].
  apply subprocess_run_ok in H3.
  destruct (Z.eqb_spec rc 0) as [-> | Hne]; simpl in H; [| discriminate].
  inversion H; subst.
  rewrite H3, H2, H1, <- !app_assoc. reflexivity.
Qed.

Lemma append_2_neq (s : string) : s ++ "2" <> s.
Proof.
  induction s as [| c s IH]; simpl.
  - discriminate.
  - intros H. inversion H. apply IH. assumption.
Qed.

(** The interactions of a successful [LLVMInstall._install], in order,
    as the commands the installer builds. *)
Lemma LLVMInstall_install_events :
  forall env self w w' r,
    LLVMInstall._install self env w = (w', inr r) ->
    trace w' = (trace w ++ two_pass_events self)%list
    /\ snd r = LLVMInstall.set_build_dir self (LLVMInstall.build_dir self ++ "2")
    /\ LLVMInstall.build_dir (snd r) <> LLVMInstall.build_dir self.
Proof.
  intros env self w w' r H. unfold LLVMInstall._install in H.
  apply bind_ok_inv in H. destruct H as [w1 [[] [H1 H]]].
  apply bind_ok_inv in H. destruct H as [w2 [[] [H2 H]]].
  apply bind_ok_inv in H. destruct H as [w3 [[] [H3 H]]].
  apply bind_ok_inv in H. destruct H as [w4 [[] [H4 H]]].
  apply bind_ok_inv in H. destruct H as [w5 [[] [H5 H]]].
  inversion H; subst; clear H.
  apply run_checked_ok in H1. apply ninja_build_and_install_ok in H2.
  apply setup_ldconfig_path_ok in H3. apply run_checked_ok in H4.
  apply ninja_build_and_install_ok in H5.
  split; [| split].
  - rewrite H5, H4, H3, H2, H1. rewrite <- !app_assoc. reflexivity.
  - reflexivity.
  - simpl. apply append_2_neq.
Qed.

(* ================================================================== *)
(** * Preparation never starts cmake *)
(* ================================================================== *)

Lemma split_git (s : string) :
  exists rest, PyStr.split ("git " ++ s) = "git" :: rest.
Proof. eexists. unfold PyStr.split. simpl. reflexivity. Qed.

Lemma not_configure_git s cwd out :
  not_configure (EvRun (PyStr.split ("git " ++ s)) cwd out).
Proof. destruct (split_git s) as [rest ->]. exact I. Qed.

Lemma emits_Pybind11Installer_prepare self :
  emits not_configure (Pybind11Installer._prepare self).
Proof.
  unfold Pybind11Installer._prepare.
  apply emits_bind; [apply emits_is_dir; intros; exact I |].
  intros d. destruct (negb d); [| apply emits_ret].
  apply emits_bind.
  - destruct (PyVal.as_truthy
                (VersionOrSourceLocation.source_location
                   (Pybind11Installer.github_sha_or_source_location self))).
    + apply emits_copytree. intros; exact I.
    + apply emits_bind; [apply emits_mkdir; intros; exact I |].
      intros _. unfold Pybind11Installer.download_commands.
      apply emits_for_each_in. intros c Hc.
      apply emits_run_checked. intros out.
      simpl in Hc. destruct Hc as [<- | [<- | [<- | [<- | []]]]];
        apply (not_configure_git _ _ out).
  - intros _. apply emits_bind; [apply emits_exists; intros; exact I |].
    intros e. destruct (negb e); [apply emits_raise | apply emits_ret].
Qed.

Lemma emits_LLVMInstall_prepare self :
  emits not_configure (LLVMInstall._prepare self).
Proof.
  unfold LLVMInstall._prepare.
  apply emits_bind; [apply emits_is_dir; intros; exact I |].
  intros b. destruct (negb b); [apply emits_raise |].
  apply emits_bind; [apply emits_is_dir; intros; exact I |].
  intros d. destruct (negb d); [| apply emits_ret].
  apply emits_bind.
  - destruct (PyVal.as_truthy
                (VersionOrSourceLocation.source_location
                   (LLVMInstall.version_or_source_location self))).
    + apply emits_copytree. intros; exact I.
    + apply emits_run_checked. intros out. apply (not_configure_git _ _ out).
  - intros _. apply emits_bind; [apply emits_copytree; intros; exact I |].
    intros _. apply emits_append_file. intros; exact I.
Qed.

Lemma emits_MasterBinderInstaller_prepare self :
  emits not_configure (MasterBinderInstaller._prepare self).
Proof.
  unfold MasterBinderInstaller._prepare.
  apply emits_bind.
  - destruct (PyVal.as_truthy
                (VersionOrSourceLocation.version
                   (MasterBinderInstaller.binder_branch_or_source_location self))).
    + apply emits_run_checked. intros out. apply (not_configure_git _ _ out).
    + apply emits_ret.
  - intros _. apply emits_bind.
    + apply emits_Pybind11Installer_prepare.
    + intros _. apply emits_LLVMInstall_prepare.
Qed.

(** ** Computations only add events *)

Ltac emits_step :=
  first
    [ apply emits_ret | apply emits_raise | apply emits_ask | apply emits_lift
    | apply emits_run_checked | apply emits_subprocess_run
    | apply emits_is_dir | apply emits_exists | apply emits_copytree
    | apply emits_write_file | apply emits_append_file | apply emits_mkdir
    | apply emits_read_file | apply emits_rmtree | apply emits_rglob
    | apply emits_import_module | apply emits_sys_path_add
    | apply emits_for_each | apply emits_fold_m | apply emits_bind
    | exact I
    | match goal with
      | |- emits _ (if ?b then _ else _) => destruct b
      | |- emits _ (match ?x with _ => _ end) => destruct x
      | |- forall _, _ => intro
      end ].

Ltac emits_any := repeat emits_step.

Lemma emits_LLVMInstall_install self :
  emits (fun _ => True) (LLVMInstall._install self).
Proof.
  unfold LLVMInstall._install, LLVMInstall._run_llvm_cmake_base_command,
    LLVMInstall._run_ninja_build_and_install_command,
    LLVMInstall._setup_ldconfig_path.
  emits_any.
Qed.

Lemma emits_MasterBinderInstaller_install self :
  emits (fun _ => True) (MasterBinderInstaller._install self).
Proof.
  unfold MasterBinderInstaller._install.
  apply emits_bind; [simpl; unfold Pybind11Installer._install; apply emits_ret |].
  intros r1. apply emits_bind; [apply emits_LLVMInstall_install |].
  intros r2. emits_any.
Qed.


(* ================================================================== *)
(** * The environment file written by the orchestrator *)
(* ================================================================== *)

(** Whatever the inputs, a successful [MasterBinderInstaller._install]
    writes these four lines: the last two are the literal texts returned by
    [LLVMInstall._install], not the binary directory or a version. *)
Lemma MasterBinderInstaller_install_envfile_text :
  forall env self w w' r,
    MasterBinderInstaller._install self env w = (w', inr r) ->
    exists evs,
      trace w' =
        trace w +++ evs +++
         [EvWrite (MasterBinderInstaller.envfile self)
            (PyStr.join PyStr.nl
               [ "PYBIND11_INCLUDE_DIR="
                   ++ Pybind11Installer.include_dir
                        (MasterBinderInstaller.pybind11_installer self);
                 "PYBIND11_SHA="
                   ++ VersionOrSourceLocation.get_id
                        (Pybind11Installer.github_sha_or_source_location
                           (MasterBinderInstaller.pybind11_installer self));
                 "LLVM_BIN_DIR={self.build_bin_dir}";
                 "LLVM_VERSION={self.version}" ])
            true].
Proof.
  intros env self w w' r H. unfold MasterBinderInstaller._install in H.
  apply bind_ok_inv in H. destruct H as [w1 [r1 [H1 H]]].
  apply bind_ok_inv in H. destruct H as [w2 [r2 [H2 H]]].
  apply bind_ok_inv in H. destruct H as [w3 [[] [H3 H]]].
  inversion H; subst; clear H.
  simpl in H1. unfold Pybind11Installer._install, ret in H1.
  inversion H1; subst; clear H1.
  simpl in H2.
  pose proof H2 as G2. apply emits_LLVMInstall_install in G2.
  destruct G2 as [evs2 [T2 _]].
  unfold LLVMInstall._install in H2.
  repeat (apply bind_ok_inv in H2; destruct H2 as [? [[] [_ H2]]]).
  inversion H2; subst; clear H2.
  apply write_file_ok in H3. destruct H3 as [T3 _].
  eexists. rewrite T3, T2, <- app_assoc. reflexivity.
Qed.

(** C1, evaluated.  The sample build succeeds with the stub commands, and
    the file [/tmp/build/ENVFILE] it leaves holds the two pybind11 values
    followed by the lines [LLVM_BIN_DIR={self.build_bin_dir}] and
    [LLVM_VERSION={self.version}]: neither the binary directory of the
    toolchain nor its version occurs in the file. *)
Theorem envfile_of_sample_build :
  let run := BuildMain.main Harness.build_args Harness.env_stub Harness.fresh in
  let text :=
    PyStr.join PyStr.nl
      [ "PYBIND11_INCLUDE_DIR=/tmp/build/pybind11/include";
        "PYBIND11_SHA=32c4d7e17f267e10e71138a78d559b1eef17c909";
        "LLVM_BIN_DIR={self.build_bin_dir}";
        "LLVM_VERSION={self.version}" ] in
  snd run = inr tt
  /\ Fs.read (Path.of_string "/tmp/build/ENVFILE") (fs (fst run)) = inr text
  /\ PyStr.contains "/tmp/build/llvm-project/build" text = false
  /\ PyStr.contains SUGGESTED_LLVM_RELEASE text = false.
Proof. vm_compute. repeat split; reflexivity. Qed.

(* ================================================================== *)
(** * [compile_sources] and the exit status of cmake and ninja *)
(* ================================================================== *)

(** Every run of [compile_sources]: unless the build description cannot
    be written or a process cannot be started, the import of the module is
    attempted, whatever the exit statuses of cmake and ninja are. *)
Lemma compile_sources_events :
  forall stc bd m dirs pyb files env w w' r,
    Bindings.compile_sources stc bd m dirs pyb files env w = (w', r) ->
    exists text,
      (trace w' = (trace w ++ [EvWrite "CMakeLists.txt" text false])%list)
      \/ (exists e,
            trace w' =
              (trace w ++ [EvWrite "CMakeLists.txt" text true;
                           EvRun Bindings.cmake_configure_argv (Some bd) (inl e)])%list)
      \/ (exists rc1 e,
            trace w' =
              (trace w ++ [EvWrite "CMakeLists.txt" text true;
                           EvRun Bindings.cmake_configure_argv (Some bd) (inr rc1);
                           EvRun Bindings.ninja_argv (Some bd) (inl e)])%list)
      \/ (exists rc1 rc2 ok,
            trace w' =
              (trace w ++ [EvWrite "CMakeLists.txt" text true;
                           EvRun Bindings.cmake_configure_argv (Some bd) (inr rc1);
                           EvRun Bindings.ninja_argv (Some bd) (inr rc2);
                           EvImport m ok])%list
            /\ r = if ok then inr tt else inl (ModuleNotFoundError m)).
Proof.
  intros stc bd m dirs pyb files env w w' r H.
  unfold Bindings.compile_sources in H. eexists.
  apply bind_inv in H. destruct H as [[e [H ->]] | [w1 [[] [H1 H]]]].
  { apply write_file_run in H. destruct H as [[|] [T [Hok Herr]]].
    - specialize (Hok eq_refl). discriminate.
    - left. exact T. }
  apply write_file_run in H1. destruct H1 as [ok1 [T1 [Hok1 Herr1]]].
  destruct ok1; [| destruct (Herr1 eq_refl); discriminate].
  right.
  apply bind_inv in H. destruct H as [[e [H ->]] | [w2 [rc1 [H2 H]]]].
  { apply subprocess_run_run in H. left. exists e.
    rewrite H, T1, <- app_assoc. reflexivity. }
  apply subprocess_run_run in H2. right.
  apply bind_inv in H. destruct H as [[e [H ->]] | [w3 [rc2 [H3 H]]]].
  { apply subprocess_run_run in H. left. exists rc1, e.
    rewrite H, H2, T1, <- !app_assoc. reflexivity. }
  apply subprocess_run_run in H3. right.
  apply bind_inv in H. destruct H as [[e [H ->]] | [w4 [[] [H4 H]]]].
  { apply sys_path_add_run in H. destruct H as [H _]. discriminate. }
  apply sys_path_add_run in H4. destruct H4 as [_ [T4 _]].
  apply import_module_run in H. destruct H as [ok [T5 ->]].
  exists rc1, rc2, ok. split; [| reflexivity].
  rewrite T5, T4, H3, H2, T1, <- !app_assoc. reflexivity.
Qed.

(** C3, evaluated.  With cmake and ninja both ending with status 1,
    [compile_sources] raises nothing: it runs ninja after the failed
    configure step, imports the module after the failed build, and
    returns normally. *)
Theorem compile_sources_continues_after_failed_build :
  let run := Harness.compile_sample Harness.env_failing (Harness.world_of []) in
  snd run = inr tt
  /\ exists text,
       trace (fst run) =
         [ EvWrite "CMakeLists.txt" text true;
           EvRun ["cmake"; "-G"; "Ninja"; "-DCMAKE_CXX_COMPILER=clang++";
                  "-DCMAKE_C_COMPILER=clang"; ".."] (Some "/work/out") (inr 1%Z);
           EvRun ["ninja"; "-v"] (Some "/work/out") (inr 1%Z);
           EvImport "mymod" true ].
Proof. vm_compute. split; [reflexivity | eexists; reflexivity]. Qed.

(* ================================================================== *)
(** * Calling [prepare()] twice on the orchestrator *)
(* ================================================================== *)

(** With a pinned binder branch, [MasterBinderInstaller._prepare] starts
    by running the clone command, in every state of the file system. *)
Lemma MasterBinderInstaller_prepare_always_clones :
  forall env self version w w' r,
    PyVal.as_truthy
      (VersionOrSourceLocation.version
         (MasterBinderInstaller.binder_branch_or_source_location self))
    = Some version ->
    MasterBinderInstaller._prepare self env w = (w', r) ->
    exists out rest,
      trace w' =
        (trace w ++
         EvRun (PyStr.split (MasterBinderInstaller.download_command self version))
           None out :: rest)%list.
Proof.
  intros env self version w w' r Hv H.
  unfold MasterBinderInstaller._prepare in H. rewrite Hv in H.
  apply bind_inv in H. destruct H as [[e [H ->]] | [w1 [[] [H1 H]]]].
  - unfold run_checked in H.
    apply bind_inv in H. destruct H as [[e' [H _]] | [w1 [rc [H1 H]]]].
    + apply subprocess_run_run in H. exists (inl e'), []. exact H.
    + apply subprocess_run_run in H1. exists (inr rc), [].
      destruct (negb (rc =? 0)%Z); inversion H; subst; exact H1.
  - apply run_checked_ok in H1.
    assert (E : emits not_configure
                  (prepare (MasterBinderInstaller.pybind11_installer self) ;;
                   prepare (MasterBinderInstaller.llvm_installer self))).
    { apply emits_bind.
      - apply emits_Pybind11Installer_prepare.
      - intros _. apply emits_LLVMInstall_prepare. }
    apply E in H. destruct H as [rest [H _]].
    exists (inr 0%Z), rest. rewrite H, H1, <- app_assoc. reflexivity.
Qed.

(** C4, evaluated.  On a fresh machine the first [prepare()] of the
    orchestrator succeeds.  The second one runs the clone of the binder
    repository again; git refuses the existing directory, and the call
    raises. *)
Theorem MasterBinderInstaller_prepare_twice_raises :
  let once := Harness.prepare_once Harness.env_stub Harness.fresh in
  let twice := Harness.prepare_twice Harness.env_stub Harness.fresh in
  snd once = inr tt
  /\ snd twice = inl (RuntimeError "Error downloading binder version master")
  /\ trace (fst twice) =
       (trace (fst once)
        ++ [EvRun Harness.binder_clone_argv None (inr 128%Z)])%list
  /\ In (EvRun Harness.binder_clone_argv None (inr 0%Z)) (trace (fst once)).
Proof.
  vm_compute. repeat split; try reflexivity. left. reflexivity.
Qed.

(* ================================================================== *)
(** * Staging the binder sources before the toolchain is configured *)
(* ================================================================== *)

Lemma configure_not_both e : is_configure e -> not_configure e -> False.
Proof.
  destruct e as [argv cwd out | | | | | | | | | |]; simpl; auto.
  destruct argv as [| a argv]; simpl; auto.
  destruct (string_dec a "cmake") as [-> | Hne]; [tauto |].
  intros H _. revert H.
  destruct a as [| c a]; [tauto |].
  repeat (match goal with
          | |- match ?s with _ => _ end -> _ => destruct s
          | |- (let (_, _, _, _, _, _, _, _) := ?c in _) -> _ => destruct c
          | |- (if ?b then _ else _) -> _ => destruct b
          end; try tauto; try (intros _; apply Hne; reflexivity)).
Qed.

Lemma split_before_first {A} (Q : A -> Prop) (l1 l2 a b : list A) (e : A) :
  l1 +++ e :: l2 = a +++ b -> Forall Q a -> ~ Q e ->
  exists t, l1 = a +++ t.
Proof.
  revert l1. induction a as [| x a IH]; intros l1 H Ha Hq.
  - exists l1. reflexivity.
  - inversion Ha as [| ? ? Qx Qa]; subst.
    destruct l1 as [| y l1]; simpl in H.
    + inversion H; subst. contradiction.
    + inversion H; subst.
      destruct (IH l1 H2 Qa Hq) as [t ->]. exists t. reflexivity.
Qed.

Lemma staged_needs_copytree l events :
  staged_before_configure l events ->
  (exists e, In e events /\ is_configure e) ->
  In (EvCopyTree (LLVMInstall.binder_source_directory l)
        (LLVMInstall.binder_clang_tools_extra_subdir l) true) events.
Proof.
  intros S [e [Hin C]]. apply in_split in Hin. destruct Hin as [t1 [t2 ->]].
  destruct (S t1 e t2 eq_refl C) as [a [b [c [text ->]]]].
  apply in_or_app. left. apply in_or_app. right. left. reflexivity.
Qed.

(** C9 as stated fails.  The toolchain tree [/tmp/build/llvm-project]
    exists before the run and holds no binder sources.  The orchestrator
    installs successfully: it starts cmake without having copied the
    binder sources, and the tooling directory still has no [binder] entry
    at the end. *)
Lemma configure_reached_without_staging :
  exists m,
    Harness.master_local = inr m
    /\ let run := install m Harness.env_stub Harness.half_installed in
       (exists m', snd run = inr m')
       /\ Fs.exists_ (fs (fst run))
            (Path.of_string "/tmp/build/llvm-project/clang-tools-extra/binder")
          = false
       /\ ~ staged_before_configure (MasterBinderInstaller.llvm_installer m)
              (trace (fst run)).
Proof.
  eexists. split; [vm_compute; reflexivity |].
  intros run. split; [| split].
  - vm_compute. eexists. reflexivity.
  - vm_compute. reflexivity.
  - intros S. apply staged_needs_copytree in S.
    + vm_compute in S.
      repeat (destruct S as [S | S]; [discriminate S |]). exact S.
    + exists (nth 3 (trace (fst run)) (EvRmTree EmptyString)). split.
      * vm_compute. right. right. right. left. reflexivity.
      * vm_compute. exact I.
Qed.

(* ================================================================== *)
(** * Strings: order, sorting, stripping *)
(* ================================================================== *)

Lemma ascii_compare_refl c : Ascii.compare c c = Eq.
Proof. unfold Ascii.compare. apply N.compare_refl. Qed.

Lemma ascii_compare_trans c1 c2 c3 o :
  Ascii.compare c1 c2 = o -> Ascii.compare c2 c3 = o -> Ascii.compare c1 c3 = o.
Proof.
  unfold Ascii.compare. intros H1 H2. destruct o.
  - apply N.compare_eq_iff in H1, H2. apply N.compare_eq_iff. congruence.
  - rewrite N.compare_lt_iff in *. lia.
  - rewrite N.compare_gt_iff in *. lia.
Qed.

Lemma string_compare_refl s : String.compare s s = Eq.
Proof.
  induction s as [| c s IH]; simpl; [reflexivity |].
  rewrite ascii_compare_refl. exact IH.
Qed.

Lemma string_compare_lt_trans s1 :
  forall s2 s3, String.compare s1 s2 = Lt -> String.compare s2 s3 = Lt ->
                String.compare s1 s3 = Lt.
Proof.
  induction s1 as [| c1 s1 IH]; intros [| c2 s2] [| c3 s3]; simpl;
    try discriminate; try reflexivity.
  destruct (Ascii.compare c1 c2) eqn:E12; try discriminate;
    destruct (Ascii.compare c2 c3) eqn:E23; try discriminate; intros H1 H2.
  - apply Ascii.compare_eq_iff in E12, E23. subst.
    rewrite ascii_compare_refl. eapply IH; eassumption.
  - apply Ascii.compare_eq_iff in E12. subst. rewrite E23. reflexivity.
  - apply Ascii.compare_eq_iff in E23. subst. rewrite E12. reflexivity.
  - rewrite (ascii_compare_trans _ _ _ E12 E23). reflexivity.
Qed.

Lemma string_leb_trans s1 s2 s3 :
  (s1 <=? s2) = true -> (s2 <=? s3) = true -> (s1 <=? s3) = true.
Proof.
  unfold String.leb.
  destruct (String.compare s1 s2) eqn:E12; try discriminate;
    destruct (String.compare s2 s3) eqn:E23; try discriminate; intros _ _.
  - apply String.compare_eq_iff in E12, E23. subst.
    rewrite string_compare_refl. reflexivity.
  - apply String.compare_eq_iff in E12. subst. rewrite E23. reflexivity.
  - apply String.compare_eq_iff in E23. subst. rewrite E12. reflexivity.
  - rewrite (string_compare_lt_trans _ _ _ E12 E23). reflexivity.
Qed.

Lemma insert_sorted_perm x l : Permutation (insert_sorted x l) (x :: l).
Proof.
  induction l as [| y l IH]; simpl.
  - apply Permutation_refl.
  - destruct (x <=? y).
    + apply Permutation_refl.
    + eapply Permutation_trans; [apply perm_skip; exact IH | apply perm_swap].
Qed.

Lemma sort_perm l : Permutation (sort l) l.
Proof.
  induction l as [| x l IH]; simpl.
  - apply Permutation_refl.
  - eapply Permutation_trans; [apply insert_sorted_perm |].
    apply perm_skip. exact IH.
Qed.

Lemma insert_sorted_ascending x l : ascending l -> ascending (insert_sorted x l).
Proof.
  unfold ascending. induction l as [| y l IH]; intros S; simpl.
  - constructor; constructor.
  - inversion S as [| ? ? Sl Hy]; subst.
    destruct (x <=? y) eqn:E.
    + constructor; [exact S |]. constructor; [exact E |].
      eapply Forall_impl; [| exact Hy].
      intros z Hz. eapply string_leb_trans; eassumption.
    + constructor; [apply IH; exact Sl |].
      assert (Hyx : (y <=? x) = true).
      { destruct (String.leb_total x y) as [H | H]; [congruence | exact H]. }
      eapply Permutation_Forall.
      * apply Permutation_sym. apply insert_sorted_perm.
      * constructor; assumption.
Qed.

Lemma sort_ascending l : ascending (sort l).
Proof.
  induction l as [| x l IH]; simpl.
  - constructor.
  - apply insert_sorted_ascending. exact IH.
Qed.

(** Two ascending arrangements of the same strings are the same list. *)
Lemma ascending_unique l1 :
  forall l2, ascending l1 -> ascending l2 -> Permutation l1 l2 -> l1 = l2.
Proof.
  unfold ascending. induction l1 as [| x l1 IH]; intros l2 S1 S2 P.
  - apply Permutation_nil in P. subst. reflexivity.
  - destruct l2 as [| y l2].
    + apply Permutation_sym, Permutation_nil in P. discriminate.
    + inversion S1 as [| ? ? S1' F1]; subst.
      inversion S2 as [| ? ? S2' F2]; subst.
      assert (x = y).
      { assert (Hx : In x (y :: l2))
          by (eapply Permutation_in; [exact P | left; reflexivity]).
        assert (Hy : In y (x :: l1))
          by (eapply Permutation_in;
              [apply Permutation_sym; exact P | left; reflexivity]).
        destruct Hx as [-> | Hx]; [reflexivity |].
        destruct Hy as [-> | Hy]; [reflexivity |].
        rewrite Forall_forall in F1, F2.
        apply String.leb_antisym; auto. }
      subst y. f_equal. apply IH; try assumption.
      eapply Permutation_cons_inv. exact P.
Qed.

Lemma sort_unique l1 l2 : Permutation l1 l2 -> sort l1 = sort l2.
Proof.
  intros P. apply ascending_unique; try apply sort_ascending.
  eapply Permutation_trans; [apply sort_perm |].
  eapply Permutation_trans; [exact P |].
  apply Permutation_sym. apply sort_perm.
Qed.

Lemma set_order_same order1 order2 l1 l2 :
  set_order_ok order1 -> set_order_ok order2 ->
  (forall x, In x l1 <-> In x l2) ->
  sort (order1 l1) = sort (order2 l2).
Proof.
  intros O1 O2 E. apply sort_unique.
  destruct (O1 l1) as [N1 I1]. destruct (O2 l2) as [N2 I2].
  apply NoDup_Permutation; try assumption.
  intros x. rewrite I1, I2. apply E.
Qed.

(* ================================================================== *)
(** * The include closure *)
(* ================================================================== *)

Lemma read_file_run p env w w' r :
  Os.read_file p env w = (w', r) ->
  fs w' = fs w /\ r = Fs.read (Path.of_string p) (fs w)
  /\ exists c, trace w' = (trace w ++ [EvRead p c])%list.
Proof.
  unfold Os.read_file. destruct (Fs.read (Path.of_string p) (fs w));
    intros H; inversion H; subst; repeat split; eexists; reflexivity.
Qed.

Lemma read_fold ignore files :
  forall acc env w w' r,
    fold_m
      (fun acc filename =>
         content <- Os.read_file filename ;;
         ret (acc +++ Bindings.includes_of_lines ignore (PyStr.readlines content)))
      files acc env w = (w', r) ->
    fs w' = fs w
    /\ (forallb (readable (fs w)) files = true ->
        r = inr (acc +++ flat_map (lines_of_file (fs w) ignore) files))
    /\ (forallb (readable (fs w)) files = false -> exists e, r = inl e).
Proof.
  induction files as [| f files IH]; intros acc env w w' r H; simpl in H.
  - inversion H; subst. simpl. rewrite app_nil_r.
    split; [reflexivity | split; [intros _; reflexivity | discriminate]].
  - apply bind_inv in H. destruct H as [[e [H ->]] | [w1 [s' [H1 H]]]].
    + apply bind_inv in H. destruct H as [[e' [H E]] | [w1 [c [H1 H]]]].
      * apply read_file_run in H. destruct H as [F [R _]].
        simpl. unfold readable at 1. rewrite <- R. simpl.
        split; [exact F | split; [discriminate | intros _; eexists; reflexivity]].
      * inversion H.
    + apply bind_inv in H1. destruct H1 as [[e' [H1 E]] | [w0 [c [H0 H1]]]];
        [discriminate |].
      inversion H1; subst; clear H1.
      apply read_file_run in H0. destruct H0 as [F [R _]].
      apply IH in H. destruct H as [F' [Hok Herr]]. rewrite F in *.
      simpl. unfold readable at 1 3. unfold lines_of_file at 1.
      rewrite <- R. simpl.
      split; [exact F' | split].
      * intros A. rewrite (Hok A), <- app_assoc. reflexivity.
      * exact Herr.
Qed.

Lemma make_and_write_all_includes_run files out ignore env w w' r :
  Bindings.make_and_write_all_includes files out ignore env w = (w', r) ->
  if forallb (readable (fs w)) files then
    let text :=
      Bindings.render
        (sort (set_order env (flat_map (lines_of_file (fs w) ignore) files))) in
    match Fs.write (Path.of_string out) text (fs w) with
    | inl e => fs w' = fs w /\ r = inl e
    | inr fs' => fs w' = fs' /\ r = inr tt
    end
  else fs w' = fs w /\ exists e, r = inl e.
Proof.
  unfold Bindings.make_and_write_all_includes. intros H.
  apply bind_inv in H. destruct H as [[e [H ->]] | [w1 [l [H1 H]]]].
  - apply read_fold in H. destruct H as [F [Hok Herr]].
    destruct (forallb (readable (fs w)) files).
    + specialize (Hok eq_refl). discriminate.
    + split; [exact F | exists e; reflexivity].
  - apply read_fold in H1. destruct H1 as [F [Hok Herr]].
    destruct (forallb (readable (fs w)) files).
    + specialize (Hok eq_refl). inversion Hok; subst l; clear Hok. simpl in H.
      unfold bind, ask in H.
      apply fs_step_run with (env := env) in H. rewrite F in H.
      destruct H as [[e [E [-> ->]]] | [fs' [E [-> ->]]]]; simpl; rewrite E.
      * split; [exact F | reflexivity].
      * split; reflexivity.
    + destruct (Herr eq_refl). discriminate.
Qed.

Lemma forallb_same_members {A} (p : A -> bool) (l1 l2 : list A) :
  (forall x, In x l1 <-> In x l2) -> forallb p l1 = forallb p l2.
Proof.
  intros E.
  destruct (forallb p l1) eqn:E1; destruct (forallb p l2) eqn:E2; try reflexivity.
  - rewrite forallb_forall in E1.
    assert (forallb p l2 = true)
      by (apply forallb_forall; intros x Hx; apply E1, E; exact Hx).
    congruence.
  - rewrite forallb_forall in E2.
    assert (forallb p l1 = true)
      by (apply forallb_forall; intros x Hx; apply E2, E; exact Hx).
    congruence.
Qed.

Lemma flat_map_same_members {A B} (g : A -> list B) (l1 l2 : list A) :
  (forall x, In x l1 <-> In x l2) ->
  forall y, In y (flat_map g l1) <-> In y (flat_map g l2).
Proof.
  intros E y. rewrite !in_flat_map.
  split; intros [x [Hx Hy]]; exists x; (split; [apply E; exact Hx | exact Hy]).
Qed.

(** C7. Two runs of [make_and_write_all_includes] on the same files of
    the same file system leave the same file system behind, and so the
    same output file, byte for byte: the order in which the files are
    listed (and whether one is listed twice), the order in which include
    lines are met, and the order in which each run iterates its set do
    not matter; the two runs also end alike, both normally or both with
    an exception. *)
Theorem include_closure_deterministic :
  forall env1 env2 files1 files2 out ignore w1 w2,
    set_order_ok (set_order env1) ->
    set_order_ok (set_order env2) ->
    (forall f, In f files1 <-> In f files2) ->
    fs w1 = fs w2 ->
    let run1 := Bindings.make_and_write_all_includes files1 out ignore env1 w1 in
    let run2 := Bindings.make_and_write_all_includes files2 out ignore env2 w2 in
    fs (fst run1) = fs (fst run2)
    /\ Fs.lookup (Path.of_string out) (fs (fst run1))
       = Fs.lookup (Path.of_string out) (fs (fst run2))
    /\ succeeded (snd run1) = succeeded (snd run2).
Proof.
  intros env1 env2 files1 files2 out ignore w1 w2 O1 O2 E F run1 run2.
  assert (G : fs (fst run1) = fs (fst run2)
              /\ succeeded (snd run1) = succeeded (snd run2)).
  { pose proof (make_and_write_all_includes_run
                  files1 out ignore env1 w1 (surjective_pairing run1)) as R1.
    pose proof (make_and_write_all_includes_run
                  files2 out ignore env2 w2 (surjective_pairing run2)) as R2.
    rewrite <- F in R2.
    rewrite <- (@forallb_same_members _ (readable (fs w1)) _ _ E) in R2.
    destruct (forallb (readable (fs w1)) files1).
    - simpl in R1, R2.
      rewrite <- (@set_order_same _ _ _ _ O1 O2
                    (@flat_map_same_members _ _
                       (lines_of_file (fs w1) ignore) _ _ E))
        in R2.
      destruct (Fs.write _ _ (fs w1)) as [e | fs'];
        destruct R1 as [A1 B1]; destruct R2 as [A2 B2];
        rewrite A1, A2, B1, B2; split; reflexivity.
    - destruct R1 as [A1 [e1 B1]]. destruct R2 as [A2 [e2 B2]].
      rewrite A1, A2, B1, B2. split; reflexivity. }
  destruct G as [G1 G2]. repeat split; [exact G1 | rewrite G1; reflexivity | exact G2].
Qed.

Lemma set_order_ok_nodup : set_order_ok (nodup string_dec).
Proof.
  intros l. split; [apply NoDup_nodup | intros x; apply nodup_In].
Qed.

Lemma set_order_ok_rev_nodup : set_order_ok (fun l => rev (nodup string_dec l)).
Proof.
  intros l. split.
  - apply NoDup_rev. apply NoDup_nodup.
  - intros x. rewrite <- in_rev. apply nodup_In.
Qed.

(** The statement above for the sample project, read once in one order
    and once in the other order with a file listed twice, by two runs that
    iterate their sets differently. *)
Lemma include_closure_deterministic_witness :
  let run1 :=
    Bindings.make_and_write_all_includes
      ["/work/src/a.hpp"; "/work/src/b.cpp"] Harness.all_includes_fn ["boost"]
      Harness.env_stub Harness.project in
  let run2 :=
    Bindings.make_and_write_all_includes
      ["/work/src/b.cpp"; "/work/src/a.hpp"; "/work/src/b.cpp"]
      Harness.all_includes_fn ["boost"] Harness.env_rev Harness.project in
  fs (fst run1) = fs (fst run2)
  /\ Fs.lookup (Path.of_string Harness.all_includes_fn) (fs (fst run1))
     = Fs.lookup (Path.of_string Harness.all_includes_fn) (fs (fst run2))
  /\ succeeded (snd run1) = succeeded (snd run2).
Proof.
  apply include_closure_deterministic.
  - exact set_order_ok_nodup.
  - exact set_order_ok_rev_nodup.
  - intros f. simpl. tauto.
  - reflexivity.
Defined.

Example include_closure_of_sample_project :
  Fs.read (Path.of_string Harness.all_includes_fn)
    (fs (fst (Bindings.make_and_write_all_includes
                ["/work/src/a.hpp"; "/work/src/b.cpp"] Harness.all_includes_fn
                ["boost"] Harness.env_rev Harness.project)))
  = inr ("#include " ++ PyStr.dquote ++ "b.h" ++ PyStr.dquote ++ PyStr.nl
         ++ "#include <a.h>" ++ PyStr.nl
         ++ "#include <vector>" ++ PyStr.nl).
Proof. vm_compute. reflexivity. Qed.

(** ** Substrings, stripping and newlines *)

Lemma prefix_empty s : prefix EmptyString s = true.
Proof. destruct s; reflexivity. Qed.

Lemma prefix_app x : forall p t, prefix x p = true -> prefix x (p ++ t) = true.
Proof.
  induction x as [| a x IH]; intros p t H.
  - apply prefix_empty.
  - destruct p as [| b p]; simpl in *; [discriminate |].
    destruct (ascii_dec a b); [apply IH; exact H | discriminate].
Qed.

Lemma contains_unfold x c s :
  PyStr.contains x (String c s) = prefix x (String c s) || PyStr.contains x s.
Proof. reflexivity. Qed.

Lemma contains_cons x c s :
  PyStr.contains x s = true -> PyStr.contains x (String c s) = true.
Proof. intros H. rewrite contains_unfold, H. apply orb_true_r. Qed.

Lemma contains_app_l x p : forall t,
  PyStr.contains x p = true -> PyStr.contains x (p ++ t) = true.
Proof.
  induction p as [| c p IH]; intros t H.
  - simpl in H. rewrite orb_false_r in H.
    destruct x; [| discriminate].
    destruct t; reflexivity.
  - rewrite contains_unfold in H. apply orb_true_iff in H. destruct H as [H | H].
    + pose proof (prefix_app _ _ t H) as H'.
      change (String c p ++ t) with (String c (p ++ t)) in *.
      rewrite contains_unfold, H'. reflexivity.
    + change (String c p ++ t) with (String c (p ++ t)).
      apply contains_cons. apply IH. exact H.
Qed.

Lemma contains_lstrip x s :
  PyStr.contains x (PyStr.lstrip s) = true -> PyStr.contains x s = true.
Proof.
  induction s as [| c s IH]; simpl PyStr.lstrip; [trivial |].
  destruct (PyStr.isspace c); [| trivial].
  intros H. apply contains_cons. apply IH. exact H.
Qed.

Lemma rstrip_prefix s : exists t, s = PyStr.rstrip s ++ t.
Proof.
  induction s as [| c s [t IH]]; simpl.
  - exists EmptyString. reflexivity.
  - destruct (PyStr.is_empty (PyStr.rstrip s) && PyStr.isspace c).
    + exists (String c s). reflexivity.
    + exists t. simpl. rewrite <- IH. reflexivity.
Qed.

Lemma contains_rstrip x s :
  PyStr.contains x (PyStr.rstrip s) = true -> PyStr.contains x s = true.
Proof.
  intros H. destruct (rstrip_prefix s) as [t E]. rewrite E.
  apply contains_app_l. exact H.
Qed.

Lemma contains_strip x s :
  PyStr.contains x (PyStr.strip s) = true -> PyStr.contains x s = true.
Proof.
  unfold PyStr.strip. intros H. apply contains_lstrip, contains_rstrip. exact H.
Qed.

Lemma prefix_single a c s :
  prefix (String a EmptyString) (String c s)
  = if ascii_dec a c then true else false.
Proof.
  cbn [prefix]. destruct (ascii_dec a c); [apply prefix_empty | reflexivity].
Qed.

Lemma contains_nl_cons c s :
  PyStr.contains PyStr.nl (String c s)
  = Ascii.eqb c "010"%char || PyStr.contains PyStr.nl s.
Proof.
  rewrite contains_unfold. f_equal.
  change PyStr.nl with (String "010"%char EmptyString).
  rewrite prefix_single.
  destruct (ascii_dec "010" c) as [<- | Hne].
  - reflexivity.
  - symmetry. apply Ascii.eqb_neq. congruence.
Qed.

Lemma contains_nl_empty : PyStr.contains PyStr.nl EmptyString = false.
Proof. reflexivity. Qed.

Lemma nl_last_tail c s : nl_last (String c s) = true -> nl_last s = true.
Proof.
  simpl. destruct s as [| d s]; [reflexivity |]. simpl.
  intros H. apply andb_true_iff in H. apply H.
Qed.

Lemma nl_last_lstrip s : nl_last s = true -> nl_last (PyStr.lstrip s) = true.
Proof.
  induction s as [| c s IH]; intros H; simpl PyStr.lstrip; [reflexivity |].
  destruct (PyStr.isspace c); [| exact H].
  apply IH. eapply nl_last_tail. exact H.
Qed.

Lemma isspace_nl c : Ascii.eqb c "010"%char = true -> PyStr.isspace c = true.
Proof. intros H. apply Ascii.eqb_eq in H. subst. reflexivity. Qed.

Lemma nl_last_rstrip s :
  nl_last s = true -> PyStr.contains PyStr.nl (PyStr.rstrip s) = false.
Proof.
  induction s as [| c s IH]; intros H.
  - reflexivity.
  - simpl PyStr.rstrip.
    destruct (PyStr.is_empty (PyStr.rstrip s) && PyStr.isspace c) eqn:E;
      [reflexivity |].
    rewrite contains_nl_cons.
    destruct s as [| d s].
    + simpl in E. simpl. rewrite orb_false_r.
      destruct (Ascii.eqb c "010") eqn:Ec; [| reflexivity].
      apply isspace_nl in Ec. congruence.
    + change (nl_last (String c (String d s)))
        with (negb (Ascii.eqb c "010") && nl_last (String d s)) in H.
      apply andb_true_iff in H. destruct H as [Hc Hs].
      apply negb_true_iff in Hc. rewrite Hc. simpl. apply IH. exact Hs.
Qed.

Lemma no_nl_nl_last s :
  PyStr.contains PyStr.nl s = false -> nl_last s = true.
Proof.
  induction s as [| c s IH]; intros H; [reflexivity |].
  rewrite contains_nl_cons in H. apply orb_false_iff in H. destruct H as [Hc Hs].
  simpl. destruct (PyStr.is_empty s); [reflexivity |].
  rewrite Hc. simpl. apply IH. exact Hs.
Qed.

Lemma contains_nl_snoc cur c :
  PyStr.contains PyStr.nl (cur ++ String c EmptyString)
  = PyStr.contains PyStr.nl cur || Ascii.eqb c "010"%char.
Proof.
  induction cur as [| d cur IH].
  - simpl append. rewrite contains_nl_cons. rewrite contains_nl_empty.
    rewrite orb_false_r. reflexivity.
  - change (String d cur ++ String c EmptyString)
      with (String d (cur ++ String c EmptyString)).
    rewrite !contains_nl_cons, IH, orb_assoc. reflexivity.
Qed.

Lemma nl_last_snoc cur c :
  PyStr.contains PyStr.nl cur = false ->
  nl_last (cur ++ String c EmptyString) = true.
Proof.
  induction cur as [| d cur IH]; intros H; [reflexivity |].
  rewrite contains_nl_cons in H. apply orb_false_iff in H. destruct H as [Hd Hs].
  change (String d cur ++ String c EmptyString)
    with (String d (cur ++ String c EmptyString)).
  simpl. destruct cur as [| e cur]; simpl.
  - rewrite Hd. reflexivity.
  - rewrite Hd. simpl. apply (IH Hs).
Qed.

Lemma lines_from_nl_last s :
  forall cur line,
    PyStr.contains PyStr.nl cur = false ->
    In line (PyStr.lines_from cur s) -> nl_last line = true.
Proof.
  induction s as [| c s IH]; intros cur line Hc Hin; simpl in Hin.
  - destruct (PyStr.is_empty cur); [contradiction |].
    destruct Hin as [<- | []]. apply no_nl_nl_last. exact Hc.
  - destruct (Ascii.eqb c "010") eqn:Ec.
    + destruct Hin as [<- | Hin].
      * apply nl_last_snoc. exact Hc.
      * eapply IH; [| exact Hin]. apply contains_nl_empty.
    + eapply IH; [| exact Hin].
      rewrite contains_nl_snoc, Hc, Ec. reflexivity.
Qed.

(** A stripped line of a text file holds no newline. *)
Lemma strip_line_no_nl content line :
  In line (PyStr.readlines content) ->
  PyStr.contains PyStr.nl (PyStr.strip line) = false.
Proof.
  unfold PyStr.readlines, PyStr.strip. intros H.
  apply nl_last_rstrip, nl_last_lstrip.
  eapply lines_from_nl_last; [| exact H]. apply contains_nl_empty.
Qed.

(** ** What the include closure holds *)

Lemma keep_line_spec ignore line :
  Bindings.keep_line ignore line = true <->
  PyStr.startswith "#include" line = true
  /\ (forall x, In x ignore -> PyStr.contains x line = false).
Proof.
  unfold Bindings.keep_line. rewrite andb_true_iff, negb_true_iff.
  split; intros [H1 H2]; (split; [exact H1 |]).
  - intros x Hx. destruct (PyStr.contains x line) eqn:E; [| reflexivity].
    assert (existsb (fun x => PyStr.contains x line) ignore = true)
      by (apply existsb_exists; exists x; split; assumption).
    congruence.
  - destruct (existsb (fun x => PyStr.contains x line) ignore) eqn:E;
      [| reflexivity].
    apply existsb_exists in E. destruct E as [x [Hx Hc]].
    rewrite (H2 x Hx) in Hc. discriminate.
Qed.

Lemma lines_of_file_spec fs ignore f s :
  In s (lines_of_file fs ignore f) <-> include_of_file fs ignore f s.
Proof.
  unfold lines_of_file, include_of_file, Bindings.includes_of_lines.
  destruct (Fs.read (Path.of_string f) fs) as [e | content].
  - split; [contradiction |]. intros [c [l [H _]]]. discriminate.
  - rewrite in_map_iff. split.
    + intros [line [E Hin]]. apply filter_In in Hin. destruct Hin as [Hin K].
      apply keep_line_spec in K. destruct K as [K1 K2].
      exists content, line. repeat split; auto.
    + intros [c [line [E [Hin [K1 [K2 ->]]]]]]. inversion E; subst c.
      exists line. split; [reflexivity |]. apply filter_In. split; [exact Hin |].
      apply keep_line_spec. split; assumption.
Qed.

Lemma fold_collect {A B} (step : A -> M (list B)) (g : FS -> A -> list B) :
  (forall a env w w' r,
     step a env w = (w', r) -> r = inr (g (fs w) a) /\ fs w' = fs w) ->
  forall l acc env w w' r,
    fold_m (fun acc a => x <- step a ;; ret (acc +++ x)) l acc env w = (w', r) ->
    r = inr (acc +++ flat_map (g (fs w)) l) /\ fs w' = fs w.
Proof.
  intros Hstep. induction l as [| a l IH]; intros acc env w w' r H; simpl in H.
  - inversion H; subst. simpl. rewrite app_nil_r. split; reflexivity.
  - apply bind_inv in H. destruct H as [[e [H ->]] | [w1 [s1 [H1 H]]]].
    + apply bind_inv in H. destruct H as [[e' [H _]] | [w1 [x [H1 H]]]].
      * apply Hstep in H. destruct H as [H _]. discriminate.
      * inversion H.
    + apply bind_inv in H1. destruct H1 as [[e' [H1 E]] | [w0 [x [H0 H1]]]];
        [discriminate |].
      inversion H1; subst; clear H1.
      apply Hstep in H0. destruct H0 as [Ex F]. inversion Ex; subst x.
      apply IH in H. destruct H as [-> F']. rewrite F in *.
      simpl. rewrite <- app_assoc. split; [reflexivity | exact F'].
Qed.

Lemma rglob_run dir pattern env w w' r :
  Os.rglob dir pattern env w = (w', r) ->
  r = inr (map Path.to_string (Fs.rglob (Path.of_string dir) pattern (fs w)))
  /\ fs w' = fs w.
Proof. unfold Os.rglob. intros H. inversion H; subst. split; reflexivity. Qed.

Lemma get_all_project_source_files_run project_sources env w w' r :
  Bindings.get_all_project_source_files project_sources env w = (w', r) ->
  r = inr (flat_map (found_below (fs w)) project_sources) /\ fs w' = fs w.
Proof.
  unfold Bindings.get_all_project_source_files. intros H.
  apply (fold_collect
           (fun project_source =>
              fold_m (fun acc pattern =>
                        r <- Os.rglob project_source pattern ;; ret (acc +++ r))
                Bindings.source_patterns [])
           found_below) in H.
  - exact H.
  - intros src env0 w0 w0' r0 H0.
    apply (fold_collect (Os.rglob src)
             (fun fs pattern =>
                map Path.to_string (Fs.rglob (Path.of_string src) pattern fs)))
      in H0.
    + exact H0.
    + intros pat env1 w1 w1' r1 H1. apply rglob_run in H1. exact H1.
Qed.

Lemma pattern_of_extension name pattern :
  In pattern Bindings.source_patterns ->
  exists ext,
    In ext [".hpp"; ".cpp"; ".h"; ".hh"; ".cc"; ".c"]
    /\ Fs.fnmatch name pattern = PyStr.endswith ext name.
Proof.
  unfold Bindings.source_patterns. simpl.
  intros [<- | [<- | [<- | [<- | [<- | [<- | []]]]]]];
    eexists; (split; [| reflexivity]); simpl; tauto.
Qed.

Lemma extension_of_pattern name ext :
  In ext [".hpp"; ".cpp"; ".h"; ".hh"; ".cc"; ".c"] ->
  exists pattern,
    In pattern Bindings.source_patterns
    /\ Fs.fnmatch name pattern = PyStr.endswith ext name.
Proof.
  unfold Bindings.source_patterns. intros H. exists ("*" ++ ext).
  simpl in H.
  destruct H as [<- | [<- | [<- | [<- | [<- | [<- | []]]]]]];
    (split; [simpl; tauto | reflexivity]).
Qed.

Lemma found_below_spec fs project_sources f :
  In f (flat_map (found_below fs) project_sources)
  <-> matched_source fs project_sources f.
Proof.
  unfold matched_source, found_below. rewrite in_flat_map. split.
  - intros [src [Hsrc H]]. apply in_flat_map in H. destruct H as [pat [Hpat H]].
    apply in_map_iff in H. destruct H as [p [<- H]].
    unfold Fs.rglob in H.
    destruct (Fs.is_dir fs (Path.of_string src)) eqn:D; [| contradiction].
    apply in_map_iff in H. destruct H as [[q node] [E H]]. simpl in E. subst q.
    apply filter_In in H. destruct H as [Hin H]. simpl in H.
    apply andb_true_iff in H. destruct H as [B M].
    destruct (pattern_of_extension (Path.name p) Hpat) as [ext [Hext Ef]].
    exists src, p, node, ext. rewrite <- Ef. repeat split; auto.
  - intros [src [p [node [ext [Hsrc [D [Hin [B [Hext [M ->]]]]]]]]]].
    exists src. split; [exact Hsrc |].
    destruct (extension_of_pattern (Path.name p) Hext) as [pat [Hpat Ef]].
    apply in_flat_map. exists pat. split; [exact Hpat |].
    apply in_map. unfold Fs.rglob. rewrite D.
    apply in_map_iff. exists (p, node). split; [reflexivity |].
    apply filter_In. split; [exact Hin |]. simpl. rewrite B, Ef, M. reflexivity.
Qed.

Lemma path_eqb_refl p : Path.eqb p p = true.
Proof.
  unfold Path.eqb. rewrite String.eqb_refl. simpl.
  induction (Path.parts p) as [| a l IH]; simpl; [reflexivity |].
  rewrite String.eqb_refl. exact IH.
Qed.

Lemma assoc_set_same p n fs : Fs.assoc p (Fs.set p n fs) = Some n.
Proof.
  induction fs as [| [q m] fs IH]; simpl.
  - rewrite path_eqb_refl. reflexivity.
  - destruct (Path.eqb q p) eqn:E; simpl; rewrite E; [reflexivity | exact IH].
Qed.

Lemma read_after_write p text fs fs' :
  Fs.write p text fs = inr fs' -> Fs.read p fs' = inr text.
Proof.
  unfold Fs.write, Fs.open_for_writing, Fs.read, Fs.lookup.
  destruct (Path.parts p) eqn:P; [discriminate |].
  intros H.
  assert (E : fs' = Fs.set p (File text) fs).
  { destruct (Fs.assoc p fs) as [[| old] |]; try discriminate.
    - inversion H; reflexivity.
    - destruct (Fs.is_dir fs (Path.parent p));
        [inversion H; reflexivity |].
      destruct (Fs.exists_ fs (Path.parent p)); discriminate. }
  subst fs'. rewrite assoc_set_same. reflexivity.
Qed.

Lemma append_assoc_char s c t :
  (s ++ String c EmptyString) ++ t = s ++ String c t.
Proof. induction s as [| d s IH]; [reflexivity |]. simpl. rewrite IH. reflexivity. Qed.

(** The text written by the last loop of [make_and_write_all_includes]. *)
Lemma render_one_per_line L : Bindings.render L = one_per_line L.
Proof.
  unfold Bindings.render. induction L as [| s L IH]; [reflexivity |].
  destruct L as [| t L].
  - reflexivity.
  - change (String.concat EmptyString
              (map (fun include => include ++ PyStr.nl) (s :: t :: L)))
      with ((s ++ PyStr.nl) ++ EmptyString
            ++ String.concat EmptyString
                 (map (fun include => include ++ PyStr.nl) (t :: L))).
    rewrite IH.
    change PyStr.nl with (String "010"%char EmptyString).
    change (EmptyString ++ one_per_line (t :: L)) with (one_per_line (t :: L)).
    apply append_assoc_char.
Qed.

(** C8. When the project sources have been enumerated and the include
    closure written, the text of the output file is a list [L] of
    strings, each followed by one line feed and nothing else, where [L]
    is in ascending order without
    repetition and consists exactly of the stripped forms of those lines
    of the matched files (entries below a source directory whose name
    ends in .hpp, .cpp, .h, .hh, .cc or .c) that start with the include
    directive and contain no ignore word.  No element of [L] contains an
    ignore word, and none contains a newline, so each takes one line. *)
Theorem include_closure_contents :
  forall env project_sources out ignore w w1 w' files,
    set_order_ok (set_order env) ->
    Bindings.get_all_project_source_files project_sources env w
      = (w1, inr files) ->
    Bindings.make_and_write_all_includes files out ignore env w1
      = (w', inr tt) ->
    exists L,
      Fs.read (Path.of_string out) (fs w') = inr (one_per_line L)
      /\ ascending L
      /\ NoDup L
      /\ (forall s,
            In s L <->
            exists f, matched_source (fs w) project_sources f
                      /\ include_of_file (fs w) ignore f s)
      /\ (forall s x, In s L -> In x ignore -> PyStr.contains x s = false)
      /\ (forall s, In s L -> PyStr.contains PyStr.nl s = false).
Proof.
  intros env project_sources out ignore w w1 w' files O H1 H2.
  apply get_all_project_source_files_run in H1. destruct H1 as [E F].
  inversion E; subst files; clear E.
  apply make_and_write_all_includes_run in H2. rewrite F in H2.
  destruct (forallb (readable (fs w)) (flat_map (found_below (fs w)) project_sources));
    [| destruct H2 as [_ [e H2]]; discriminate].
  simpl in H2.
  set (X := flat_map (lines_of_file (fs w) ignore)
              (flat_map (found_below (fs w)) project_sources)) in *.
  destruct (Fs.write (Path.of_string out)
              (Bindings.render (sort (set_order env X))) (fs w)) as [e | fs'] eqn:W;
    [destruct H2; discriminate |].
  destruct H2 as [F' _].
  assert (M : forall s,
            In s (sort (set_order env X)) <->
            exists f, matched_source (fs w) project_sources f
                      /\ include_of_file (fs w) ignore f s).
  { intros s. destruct (O X) as [_ I].
    split.
    - intros Hs. apply (Permutation_in _ (sort_perm _)) in Hs.
      apply I in Hs. unfold X in Hs. apply in_flat_map in Hs.
      destruct Hs as [f [Hf Hs]]. exists f. split.
      + apply found_below_spec. exact Hf.
      + apply lines_of_file_spec. exact Hs.
    - intros [f [Hf Hs]].
      apply (Permutation_in _ (Permutation_sym (sort_perm _))).
      apply I. unfold X. apply in_flat_map. exists f. split.
      + apply found_below_spec. exact Hf.
      + apply lines_of_file_spec. exact Hs. }
  exists (sort (set_order env X)). repeat split.
  - rewrite F', <- render_one_per_line. eapply read_after_write. exact W.
  - apply sort_ascending.
  - eapply Permutation_NoDup.
    + apply Permutation_sym. apply sort_perm.
    + apply (O X).
  - apply M.
  - apply M.
  - intros s x Hs Hx. apply M in Hs.
    destruct Hs as [f [_ [content [line [_ [_ [_ [K ->]]]]]]]].
    destruct (PyStr.contains x (PyStr.strip line)) eqn:C; [| reflexivity].
    apply contains_strip in C. rewrite (K x Hx) in C. discriminate.
  - intros s Hs. apply M in Hs.
    destruct Hs as [f [_ [content [line [_ [Hin [_ [_ ->]]]]]]]].
    eapply strip_line_no_nl. exact Hin.
Qed.

(** The statement above for the sample project. *)
Lemma include_closure_contents_witness :
  let found :=
    Bindings.get_all_project_source_files ["/work/src"]
      Harness.env_stub Harness.project in
  let written :=
    Bindings.make_and_write_all_includes
      ["/work/src/a.hpp"; "/work/src/b.cpp"] Harness.all_includes_fn ["boost"]
      Harness.env_stub (fst found) in
  exists L,
    Fs.read (Path.of_string Harness.all_includes_fn) (fs (fst written))
      = inr (one_per_line L)
    /\ ascending L
    /\ NoDup L
    /\ (forall s,
          In s L <->
          exists f, matched_source (fs Harness.project) ["/work/src"] f
                    /\ include_of_file (fs Harness.project) ["boost"] f s)
    /\ (forall s x, In s L -> In x ["boost"] -> PyStr.contains x s = false)
    /\ (forall s, In s L -> PyStr.contains PyStr.nl s = false).
Proof.
  intros found written.
  apply (@include_closure_contents Harness.env_stub ["/work/src"]
           Harness.all_includes_fn ["boost"] Harness.project
           (fst found) (fst written) ["/work/src/a.hpp"; "/work/src/b.cpp"]).
  - exact set_order_ok_nodup.
  - vm_compute. reflexivity.
  - vm_compute. reflexivity.
Defined.

(* ================================================================== *)
(** * The manifest of generated sources *)
(* ================================================================== *)

Lemma existsb_eqb_in x l : existsb (String.eqb x) l = true <-> In x l.
Proof.
  rewrite existsb_exists. split.
  - intros [y [Hy E]]. apply String.eqb_eq in E. subst. exact Hy.
  - intros H. exists x. split; [exact H | apply String.eqb_refl].
Qed.

(** Without a repetition the loop returns every stripped line, in
    order. *)
Lemma scan_sources_nodup lines :
  forall acc,
    NoDup (acc +++ map PyStr.strip lines) ->
    Bindings.scan_sources lines acc = inr (acc +++ map PyStr.strip lines).
Proof.
  induction lines as [| line lines IH]; intros acc N; simpl.
  - rewrite app_nil_r. reflexivity.
  - destruct (existsb (String.eqb (PyStr.strip line)) acc) eqn:E.
    + apply existsb_eqb_in in E. simpl in N.
      apply NoDup_remove_2 in N. exfalso. apply N.
      apply in_or_app. left. exact E.
    + rewrite IH; rewrite <- app_assoc; [reflexivity | exact N].
Qed.

(** With a repetition the loop raises, whatever follows the first
    repeated line. *)
Lemma scan_sources_dup lines :
  forall acc,
    NoDup acc ->
    ~ NoDup (acc +++ map PyStr.strip lines) ->
    Bindings.scan_sources lines acc
    = inl (RuntimeError Bindings.DUPLICATED_SOURCE).
Proof.
  induction lines as [| line lines IH]; intros acc Na N; simpl.
  - exfalso. apply N. rewrite app_nil_r. exact Na.
  - destruct (existsb (String.eqb (PyStr.strip line)) acc) eqn:E;
      [reflexivity |].
    apply IH.
    + assert (Hn : ~ In (PyStr.strip line) acc).
      { intros Hin. apply existsb_eqb_in in Hin. congruence. }
      apply Permutation_NoDup with (l := PyStr.strip line :: acc).
      * apply Permutation_cons_append.
      * constructor; assumption.
    + rewrite <- app_assoc. exact N.
Qed.

Lemma scan_sources_first_duplicate before line after :
  NoDup (map PyStr.strip before) ->
  In (PyStr.strip line) (map PyStr.strip before) ->
  Bindings.scan_sources (before +++ line :: after) []
  = inl (RuntimeError Bindings.DUPLICATED_SOURCE).
Proof.
  intros N Hin. apply scan_sources_dup; [constructor |].
  simpl. rewrite map_app. simpl. intros N'.
  apply NoDup_remove_2 in N'. apply N'. apply in_or_app. left. exact Hin.
Qed.

(** ** Paths that end in the letter s *)

Lemma last_char_app s t :
  t <> EmptyString -> last_char (s ++ t) = last_char t.
Proof.
  intros Ht. induction s as [| c s IH]; simpl; [reflexivity |].
  rewrite IH. destruct t as [| d t]; [contradiction |].
  simpl. destruct (last_char t); reflexivity.
Qed.

Lemma last_char_none s : last_char s = None -> s = EmptyString.
Proof.
  destruct s as [| c s]; [reflexivity |]. simpl.
  destruct (last_char s); discriminate.
Qed.

Lemma last_char_manifest bindings_dir python_module_name :
  last_char (Bindings.manifest_path bindings_dir python_module_name)
  = Some "s"%char.
Proof.
  unfold Bindings.manifest_path, Path.os_path_join.
  assert (L : last_char (python_module_name ++ ".sources") = Some "s"%char).
  { rewrite last_char_app; [reflexivity | discriminate]. }
  assert (Ne : python_module_name ++ ".sources" <> EmptyString).
  { intros E. rewrite E in L. discriminate. }
  destruct (PyStr.startswith "/" (python_module_name ++ ".sources"));
    [exact L |].
  destruct (PyStr.is_empty bindings_dir || PyStr.endswith "/" bindings_dir).
  - rewrite last_char_app; assumption.
  - rewrite last_char_app; [rewrite last_char_app; assumption |].
    discriminate.
Qed.

Lemma endswith_suffix p s :
  PyStr.endswith p s = true -> exists pre, s = pre ++ p.
Proof.
  induction s as [| c s IH]; simpl; intros H.
  - rewrite orb_false_r in H. apply String.eqb_eq in H. subst.
    exists EmptyString. reflexivity.
  - apply orb_true_iff in H. destruct H as [H | H].
    + apply String.eqb_eq in H. subst. exists EmptyString. reflexivity.
    + destruct (IH H) as [pre ->]. exists (String c pre). reflexivity.
Qed.

Lemma last_char_extension ext name :
  In ext [".hpp"; ".cpp"; ".h"; ".hh"; ".cc"; ".c"] ->
  PyStr.endswith ext name = true ->
  last_char name <> Some "s"%char /\ name <> EmptyString.
Proof.
  intros Hext H. apply endswith_suffix in H. destruct H as [pre ->].
  assert (Ne : ext <> EmptyString).
  { simpl in Hext.
    destruct Hext as [<- | [<- | [<- | [<- | [<- | [<- | []]]]]]]; discriminate. }
  split.
  - rewrite last_char_app by exact Ne. simpl in Hext.
    destruct Hext as [<- | [<- | [<- | [<- | [<- | [<- | []]]]]]]; discriminate.
  - intros E. apply Ne. destruct pre; [exact E | discriminate].
Qed.

Lemma last_char_join parts :
  last parts EmptyString <> EmptyString ->
  last_char (PyStr.join "/" parts) = last_char (last parts EmptyString).
Proof.
  unfold PyStr.join.
  induction parts as [| x parts IH]; intros H; [reflexivity |].
  destruct parts as [| y parts]; [reflexivity |].
  change (String.concat "/" (x :: y :: parts))
    with (x ++ "/" ++ String.concat "/" (y :: parts)).
  change (last (x :: y :: parts) EmptyString) with (last (y :: parts) EmptyString)
    in *.
  specialize (IH H).
  assert (Ne : String.concat "/" (y :: parts) <> EmptyString).
  { intros E. rewrite E in IH. simpl in IH. symmetry in IH.
    apply last_char_none in IH. contradiction. }
  rewrite last_char_app.
  - rewrite last_char_app; assumption.
  - discriminate.
Qed.

Lemma last_char_to_string p :
  Path.name p <> EmptyString ->
  last_char (Path.to_string p) = last_char (Path.name p).
Proof.
  unfold Path.name, Path.to_string. intros H.
  destruct (Path.parts p) as [| x l] eqn:E; [contradiction H; reflexivity |].
  assert (Ne : PyStr.join "/" (x :: l) <> EmptyString).
  { intros E'. pose proof (last_char_join (x :: l) H) as L.
    rewrite E' in L. simpl in L. symmetry in L.
    apply last_char_none in L. contradiction. }
  rewrite last_char_app by exact Ne. apply last_char_join. exact H.
Qed.

(** No project source file has a path that ends in the letter s. *)
Lemma matched_source_last_char fs project_sources f :
  matched_source fs project_sources f -> last_char f <> Some "s"%char.
Proof.
  intros [src [p [node [ext [_ [_ [_ [_ [Hext [M ->]]]]]]]]]].
  destruct (last_char_extension _ Hext M) as [L Ne].
  rewrite last_char_to_string by exact Ne. exact L.
Qed.

(** ** The manifest read is the only read of a path ending in s *)

Lemma emits_fold_m_in {A S} P (body : S -> A -> M S) (l : list A) :
  (forall s a, In a l -> emits P (body s a)) ->
  forall s, emits P (fold_m body l s).
Proof.
  induction l as [| a l IH]; intros Hb s; simpl.
  - apply emits_ret.
  - apply emits_bind.
    + apply Hb. left. reflexivity.
    + intros s'. apply IH. intros s0 b Hin. apply Hb. right. exact Hin.
Qed.

Lemma emits_make_and_write_all_includes files out ignore :
  (forall f, In f files -> last_char f <> Some "s"%char) ->
  emits not_manifest_read
    (Bindings.make_and_write_all_includes files out ignore).
Proof.
  intros Hf. unfold Bindings.make_and_write_all_includes.
  apply emits_bind.
  - apply emits_fold_m_in. intros acc f Hin.
    apply emits_bind; [| intros c; apply emits_ret].
    apply emits_read_file. intros c. simpl. apply Hf. exact Hin.
  - intros l. emits_any.
Qed.

Lemma emits_get_all_project_source_files project_sources :
  emits not_manifest_read
    (Bindings.get_all_project_source_files project_sources).
Proof. unfold Bindings.get_all_project_source_files. emits_any. Qed.

Lemma emits_compile_sources stc bd m dirs pyb files :
  emits not_manifest_read (Bindings.compile_sources stc bd m dirs pyb files).
Proof. unfold Bindings.compile_sources. emits_any. Qed.

Lemma read_file_event p env w w' r :
  Os.read_file p env w = (w', r) ->
  r = Fs.read (Path.of_string p) (fs w)
  /\ trace w' =
       trace w +++ [EvRead p (match r with inr c => Some c | inl _ => None end)].
Proof.
  unfold Os.read_file. destruct (Fs.read (Path.of_string p) (fs w));
    intros H; inversion H; subst; split; reflexivity.
Qed.

Lemma only_one_exception {A} (P : A -> Prop) (a rest t1 t2 : list A) (e : A) :
  a +++ rest = t1 +++ e :: t2 -> Forall P a -> ~ P e ->
  rest <> []
  /\ (forall x tail, rest = x :: tail -> Forall P tail -> e = x /\ t2 = tail).
Proof.
  intros E Fa Ne. symmetry in E.
  destruct (@split_before_first _ P _ _ _ _ _ E Fa Ne) as [t ->].
  rewrite <- app_assoc in E. apply app_inv_head in E. subst rest.
  split.
  - destruct t; discriminate.
  - intros x tail E Ft. destruct t as [| y t]; simpl in E.
    + inversion E; subst. split; reflexivity.
    + inversion E; subst. apply Forall_app in Ft. destruct Ft as [_ Ft].
      inversion Ft; subst. contradiction.
Qed.

Lemma make_bindings_code_events be fn bd m dirs flags cfg env w w' r :
  Bindings.make_bindings_code be fn bd m dirs flags cfg env w = (w', r) ->
  exists a rest,
    trace w' = trace w +++ a +++ rest
    /\ Forall not_manifest_read a
    /\ ((rest = [] /\ exists e, r = inl e)
        \/ exists x,
             rest = [EvRead (Bindings.manifest_path bd m) x]
             /\ (forall content, x = Some content ->
                   r = Bindings.scan_sources (PyStr.readlines content) [])
             /\ (x = None -> exists e, r = inl e)).
Proof.
  unfold Bindings.make_bindings_code. intros H.
  apply bind_inv in H. destruct H as [[e [H ->]] | [w1 [[] [H1 H]]]].
  - assert (E : emits not_manifest_read
                  (run_checked
                     (Bindings.binder_command be fn bd m dirs flags cfg) None
                     ("Bad command return "
                      ++ Bindings.binder_command be fn bd m dirs flags cfg)))
      by (apply emits_run_checked; intros; exact I).
    apply E in H. destruct H as [evs [T F]].
    exists evs, []. rewrite app_nil_r. split; [exact T |]. split; [exact F |].
    left. split; [reflexivity | exists e; reflexivity].
  - apply run_checked_ok in H1.
    exists [EvRun (PyStr.split (Bindings.binder_command be fn bd m dirs flags cfg))
              None (inr 0%Z)].
    apply bind_inv in H. destruct H as [[e [H ->]] | [w2 [content [H2 H]]]].
    + apply read_file_event in H. destruct H as [_ T]. simpl in T.
      eexists. split; [rewrite T, H1, <- app_assoc; reflexivity |].
      split; [constructor; [exact I | constructor] |].
      right. exists None. split; [reflexivity |]. split.
      * intros c Hc. discriminate.
      * intros _. exists e. reflexivity.
    + apply read_file_event in H2. destruct H2 as [_ T]. simpl in T.
      eexists. split; [| split; [constructor; [exact I | constructor] |]].
      * assert (T' : trace w' = trace w2).
        { unfold lift in H.
          destruct (Bindings.scan_sources (PyStr.readlines content) []);
            inversion H; reflexivity. }
        rewrite T', T, H1, <- app_assoc. reflexivity.
      * right. exists (Some content). split; [reflexivity |]. split.
        -- intros c Hc. inversion Hc; subst c. unfold lift in H.
           destruct (Bindings.scan_sources (PyStr.readlines content) []);
             inversion H; reflexivity.
        -- discriminate.
Qed.

Lemma main_pipeline_events c pyb be dirs env w w' r :
  Bindings.main_pipeline c pyb be dirs env w = (w', r) ->
  exists a rest,
    trace w' = trace w +++ a +++ rest
    /\ Forall not_manifest_read a
    /\ (rest = []
        \/ exists x tail,
             rest = EvRead (Bindings.manifest_path
                              (Bindings.output_directory c)
                              (Bindings.module_name c)) x :: tail
             /\ Forall not_manifest_read tail
             /\ forall content,
                  x = Some content ->
                  ~ NoDup (map PyStr.strip (PyStr.readlines content)) ->
                  r = inl (RuntimeError Bindings.DUPLICATED_SOURCE)
                  /\ tail = []).
Proof.
  unfold Bindings.main_pipeline. intros H.
  apply bind_inv in H. destruct H as [[e [H ->]] | [w1 [files [H1 H]]]].
  { apply emits_get_all_project_source_files in H. destruct H as [evs [T F]].
    exists evs, []. rewrite app_nil_r. auto. }
  pose proof H1 as G1. apply emits_get_all_project_source_files in G1.
  destruct G1 as [evs1 [T1 F1]].
  apply get_all_project_source_files_run in H1. destruct H1 as [Ef _].
  inversion Ef; subst files; clear Ef.
  apply bind_inv in H. destruct H as [[e [H _]] | [w1' [env' [H1 H]]]];
    [discriminate |].
  inversion H1; subst w1' env'; clear H1.
  assert (Hfiles : forall f,
            In f (flat_map (found_below (fs w)) (Bindings.project_sources c)) ->
            last_char f <> Some "s"%char).
  { intros f Hf. apply found_below_spec in Hf.
    eapply matched_source_last_char. exact Hf. }
  apply bind_inv in H. destruct H as [[e [H ->]] | [w2 [fn [H2 H]]]].
  { assert (E : exists evs, trace w' = trace w1 +++ evs
                            /\ Forall not_manifest_read evs).
    { destruct (PyStr.truthy (Bindings.custom_all_includes_file c)).
      - inversion H.
      - apply bind_inv in H. destruct H as [[e' [H _]] | [w2 [[] [_ H]]]];
          [| inversion H].
        eapply emits_make_and_write_all_includes in H; [exact H | exact Hfiles]. }
    destruct E as [evs [T F]].
    exists (evs1 +++ evs), []. rewrite app_nil_r. split.
    - rewrite T, T1, <- app_assoc. reflexivity.
    - split; [apply Forall_app; split; assumption | left; reflexivity]. }
  assert (E2 : exists evs2, trace w2 = trace w1 +++ evs2
                            /\ Forall not_manifest_read evs2).
  { destruct (PyStr.truthy (Bindings.custom_all_includes_file c)).
    - inversion H2; subst. exists []. rewrite app_nil_r. auto.
    - apply bind_inv in H2. destruct H2 as [[e' [H2 E]] | [w3 [[] [H3 H2]]]];
        [discriminate |].
      inversion H2; subst.
      eapply emits_make_and_write_all_includes in H3; [exact H3 | exact Hfiles]. }
  destruct E2 as [evs2 [T2 F2]].
  apply bind_inv in H. destruct H as [[e [H ->]] | [w3 [srcs [H3 H]]]].
  - apply make_bindings_code_events in H.
    destruct H as [a [rest [T [Fa R]]]].
    exists (evs1 +++ evs2 +++ a), rest. split.
    + rewrite T, T2, T1, <- !app_assoc. reflexivity.
    + split; [repeat (apply Forall_app; split); assumption |].
      destruct R as [[-> _] | [x [-> [Rs Rn]]]]; [left; reflexivity |].
      right. exists x, []. split; [reflexivity |]. split; [constructor |].
      intros content -> N. split; [| reflexivity].
      specialize (Rs content eq_refl).
      rewrite scan_sources_dup in Rs; [| constructor | exact N].
      inversion Rs. reflexivity.
  - apply make_bindings_code_events in H3.
    destruct H3 as [a [rest [T [Fa R]]]].
    apply emits_compile_sources in H. destruct H as [evs4 [T4 F4]].
    destruct R as [[_ [e E]] | [x [-> [Rs Rn]]]]; [discriminate |].
    exists (evs1 +++ evs2 +++ a),
      (EvRead (Bindings.manifest_path (Bindings.output_directory c)
                 (Bindings.module_name c)) x :: evs4).
    split.
    + rewrite T4, T, T2, T1, <- !app_assoc. reflexivity.
    + split; [repeat (apply Forall_app; split); assumption |].
      right. exists x, evs4. split; [reflexivity |]. split; [exact F4 |].
      intros content -> N. exfalso.
      specialize (Rs content eq_refl).
      rewrite scan_sources_dup in Rs; [discriminate | constructor | exact N].
Qed.

(** C5. Take any non-containerized run of [main].  If the run reads the
    manifest [<module>.sources] and the text it reads has two lines
    with the same stripped form, then the run ends with the
    [RuntimeError] on duplicated sources, and reading the manifest is the
    last thing it does: no build description is written, cmake and ninja
    are not started, nothing is imported. *)
Theorem duplicate_manifest_aborts_before_compile :
  forall env c pybind11_source binder_executable w w' r t1 content t2,
    Bindings.main (Bindings.lbuild c pybind11_source binder_executable) env w
      = (w', r) ->
    trace w' =
      trace w +++ t1
      +++ EvRead (Bindings.manifest_path (Bindings.output_directory c)
                    (Bindings.module_name c)) (Some content) :: t2 ->
    ~ NoDup (map PyStr.strip (PyStr.readlines content)) ->
    r = inl (RuntimeError Bindings.DUPLICATED_SOURCE) /\ t2 = [].
Proof.
  intros env c pyb be w w' r t1 content t2 H T N.
  assert (Bad : ~ not_manifest_read
                    (EvRead (Bindings.manifest_path (Bindings.output_directory c)
                               (Bindings.module_name c)) (Some content))).
  { simpl. intros B. apply B. apply last_char_manifest. }
  unfold Bindings.main in H.
  apply bind_inv in H. destruct H as [[e [H _]] | [w0 [[] [H0 H]]]];
    [discriminate H |].
  inversion H0; subst w0; clear H0.
  apply bind_inv in H. destruct H as [[e [H ->]] | [w1 [[] [H1 H]]]].
  { assert (E : emits not_manifest_read
                  (Bindings.run_preinstall_script (Bindings.preinstall_script c)))
      by (unfold Bindings.run_preinstall_script; emits_any).
    apply E in H. destruct H as [evs [T' F]]. rewrite T' in T.
    apply app_inv_head in T. exfalso.
    rewrite <- (app_nil_r evs) in T.
    destruct (only_one_exception _ _ _ _ T F Bad) as [C _]. apply C. reflexivity. }
  assert (E1 : emits not_manifest_read
                 (Bindings.run_preinstall_script (Bindings.preinstall_script c)))
    by (unfold Bindings.run_preinstall_script; emits_any).
  apply E1 in H1. destruct H1 as [evs1 [T1 F1]].
  apply bind_inv in H. destruct H as [[e [H _]] | [w1' [env' [H1 H]]]];
    [discriminate |].
  inversion H1; subst w1' env'; clear H1.
  apply bind_inv in H. destruct H as [[e [H _]] | [w2 [[] [H2 H]]]].
  { unfold Os.rmtree in H. inversion H. }
  assert (E2 : emits not_manifest_read (Os.rmtree (Bindings.output_directory c)))
    by emits_any.
  apply E2 in H2. destruct H2 as [evs2 [T2 F2]].
  assert (E3 : emits not_manifest_read (Os.mkdir (Bindings.output_directory c)))
    by emits_any.
  apply bind_inv in H. destruct H as [[e [H ->]] | [w3 [[] [H3 H]]]].
  { apply E3 in H. destruct H as [evs3 [T3 F3]].
    rewrite T3, T2, T1, <- !app_assoc in T. apply app_inv_head in T. exfalso.
    rewrite !app_assoc in T. rewrite <- (app_nil_r ((evs1 +++ evs2) +++ evs3)) in T.
    assert (F : Forall not_manifest_read ((evs1 +++ evs2) +++ evs3))
      by (repeat (apply Forall_app; split); assumption).
    destruct (only_one_exception _ _ _ _ T F Bad) as [C _]. apply C. reflexivity. }
  apply E3 in H3. destruct H3 as [evs3 [T3 F3]].
  apply main_pipeline_events in H. destruct H as [a [rest [T4 [Fa R]]]].
  rewrite T4, T3, T2, T1, <- !app_assoc in T. apply app_inv_head in T.
  rewrite !app_assoc in T.
  assert (F : Forall not_manifest_read (((evs1 +++ evs2) +++ evs3) +++ a))
    by (repeat (apply Forall_app; split); assumption).
  destruct (only_one_exception _ _ _ _ T F Bad) as [C U].
  destruct R as [-> | [x [tail [-> [Ft D]]]]]; [exfalso; apply C; reflexivity |].
  destruct (U _ _ eq_refl Ft) as [Ex ->]. inversion Ex; subst x.
  apply (D content eq_refl N).
Qed.

(** The statement above for the sample project, with a generator that
    writes [mymod.cpp] twice into the manifest: the thirteenth event of
    the run is the reading of the manifest, and it is the last. *)
Lemma duplicate_manifest_aborts_before_compile_witness :
  let run := Bindings.main Harness.gen_args Harness.env_binder Harness.project in
  nth_error (trace (fst run)) 12
    = Some (EvRead "/work/out/mymod.sources" (Some Harness.duplicated_manifest))
  /\ snd run = inl (RuntimeError Bindings.DUPLICATED_SOURCE)
  /\ skipn 13 (trace (fst run)) = [].
Proof.
  intros run. split; [vm_compute; reflexivity |].
  apply (@duplicate_manifest_aborts_before_compile
           Harness.env_binder Harness.gen_common "/build/pybind11" "binder"
           Harness.project (fst run) (snd run)
           (firstn 12 (trace (fst run))) Harness.duplicated_manifest
           (skipn 13 (trace (fst run)))).
  - exact (surjective_pairing run).
  - vm_compute. reflexivity.
  - intros N. vm_compute in N. inversion N as [| x l Hnin _]. apply Hnin.
    right. left. reflexivity.
Defined.

(* ================================================================== *)
(** * The output directory at the start of a generation run *)
(* ================================================================== *)


























(* ================================================================== *)
(** * Further facts about the installers *)
(* ================================================================== *)

(** The flags of the second configure step name clang and clang++,
    whatever compiler the caller chose for the first. *)
Lemma second_pass_compiler_flags build_mode :
  CompileOptions.cmake_extra_commands_from_known_compiler_paths
    "clang" "clang++" build_mode
  = "-DCMAKE_C_COMPILER=clang -DCMAKE_CXX_COMPILER=clang++"
    ++ (if PyStr.truthy build_mode
        then " -DCMAKE_BUILD_TYPE=" ++ build_mode else EmptyString).
Proof. destruct build_mode; reflexivity. Qed.

(** [Pybind11Installer._prepare] is guarded: when the include directory
    is there, the call asks for it and does nothing else. *)
Lemma Pybind11Installer_prepare_guarded self env w :
  Fs.is_dir (fs w) (Path.of_string (Pybind11Installer.include_dir self)) = true ->
  Pybind11Installer._prepare self env w
  = (log (EvIsDir (Pybind11Installer.include_dir self) true) w, inr tt).
Proof.
  intros D. unfold Pybind11Installer._prepare, bind, Os.is_dir.
  rewrite D. reflexivity.
Qed.

(** [LLVMInstall._prepare] is guarded: when the binder sources and the
    toolchain tree are there, the call asks for both and does nothing
    else. *)
Lemma LLVMInstall_prepare_guarded self env w :
  Fs.is_dir (fs w) (Path.of_string (LLVMInstall.binder_source_directory self))
    = true ->
  Fs.is_dir (fs w) (Path.of_string (LLVMInstall.base_source_directory self))
    = true ->
  LLVMInstall._prepare self env w
  = (log (EvIsDir (LLVMInstall.base_source_directory self) true)
       (log (EvIsDir (LLVMInstall.binder_source_directory self) true) w),
     inr tt).
Proof.
  intros B D. unfold LLVMInstall._prepare, bind, Os.is_dir.
  rewrite B. simpl. rewrite D. reflexivity.
Qed.

(** Without the binder sources the toolchain preparation raises and
    fetches nothing. *)
Lemma LLVMInstall_prepare_without_binder self env w :
  Fs.is_dir (fs w) (Path.of_string (LLVMInstall.binder_source_directory self))
    = false ->
  exists msg,
    LLVMInstall._prepare self env w
    = (log (EvIsDir (LLVMInstall.binder_source_directory self) false) w,
       inl (RuntimeError msg)).
Proof.
  intros B. unfold LLVMInstall._prepare, bind, Os.is_dir.
  rewrite B. simpl. eexists. reflexivity.
Qed.

(* ================================================================== *)
(** * The words of a command text *)
(* ================================================================== *)

Lemma split_from_app_space a :
  forall cur b,
    PyStr.split_from cur (a ++ " " ++ b)
    = PyStr.split_from cur a +++ PyStr.split b.
Proof.
  induction a as [| c a IH]; intros cur b.
  - destruct cur; reflexivity.
  - change (PyStr.split_from cur (String c (a ++ " " ++ b))
            = PyStr.split_from cur (String c a) +++ PyStr.split b).
    cbn [PyStr.split_from].
    destruct (PyStr.isspace c).
    + destruct (PyStr.is_empty cur); rewrite IH; reflexivity.
    + apply IH.
Qed.

Lemma split_app_space a b :
  PyStr.split (a ++ " " ++ b) = PyStr.split a +++ PyStr.split b.
Proof. apply split_from_app_space. Qed.

Lemma split_join_space l :
  PyStr.split (PyStr.join " " l) = flat_map PyStr.split l.
Proof.
  unfold PyStr.join. induction l as [| x l IH]; [reflexivity |].
  destruct l as [| y l].
  - simpl. rewrite app_nil_r. reflexivity.
  - change (String.concat " " (x :: y :: l))
      with (x ++ " " ++ String.concat " " (y :: l)).
    rewrite split_app_space, IH. reflexivity.
Qed.

(* ================================================================== *)
(** * Configuration values of build.py *)
(* ================================================================== *)

(** X1. [CompileOptions] is built exactly for an allowed build mode
    together with one of the compilers clang and gcc.  The build mode is
    tested first: an unknown build mode is the reported error even when
    the compiler is unknown too.  A built object keeps the two arguments,
    has the compiler pair of its family, and carries the three cmake
    flags in the order C compiler, C++ compiler, build type. *)
Theorem CompileOptions_init_spec :
  forall compiler build_mode,
    ((exists o, CompileOptions.init compiler build_mode = inr o)
     <-> In build_mode ALLOWED_BUILD_MODES
         /\ (compiler = "clang" \/ compiler = "gcc"))
    /\ (~ In build_mode ALLOWED_BUILD_MODES ->
        CompileOptions.init compiler build_mode
        = inl (RuntimeError
                 ("Build mode " ++ build_mode
                  ++ " not supported, we support ('Release', 'Debug', 'MinSizeRel', 'RelWithDebInfo')")))
    /\ (forall o,
          CompileOptions.init compiler build_mode = inr o ->
          CompileOptions.build_mode o = build_mode
          /\ CompileOptions.compiler o = compiler
          /\ ((compiler = "clang" /\ CompileOptions.cc o = "clang"
               /\ CompileOptions.cpp o = "clang++")
              \/ (compiler = "gcc" /\ CompileOptions.cc o = "gcc"
                  /\ CompileOptions.cpp o = "g++"))
          /\ CompileOptions.cmake_extra_commands o
             = "-DCMAKE_C_COMPILER=" ++ CompileOptions.cc o
               ++ " -DCMAKE_CXX_COMPILER=" ++ CompileOptions.cpp o
               ++ " -DCMAKE_BUILD_TYPE=" ++ build_mode).
Proof.
  intros compiler build_mode. unfold CompileOptions.init.
  destruct (existsb (String.eqb build_mode) ALLOWED_BUILD_MODES) eqn:B.
  - pose proof (proj1 (existsb_eqb_in build_mode ALLOWED_BUILD_MODES) B) as Hin.
    simpl negb. cbv iota.
    unfold KNOWN_COMPILERS, dict_get.
    destruct (String.eqb_spec "clang" compiler) as [<- | N1].
    + split; [| split].
      * split; [intros _; split; [exact Hin | left; reflexivity] |].
        intros _. eexists. reflexivity.
      * intros N. contradiction.
      * intros o H. inversion H; subst o; clear H. simpl.
        repeat split; [left; repeat split |].
        simpl in Hin.
        destruct Hin as [<- | [<- | [<- | [<- | []]]]]; reflexivity.
    + destruct (String.eqb_spec "gcc" compiler) as [<- | N2].
      * split; [| split].
        -- split; [intros _; split; [exact Hin | right; reflexivity] |].
           intros _. eexists. reflexivity.
        -- intros N. contradiction.
        -- intros o H. inversion H; subst o; clear H. simpl.
           repeat split; [right; repeat split |].
           simpl in Hin.
           destruct Hin as [<- | [<- | [<- | [<- | []]]]]; reflexivity.
      * split; [| split].
        -- split; [intros [o H]; discriminate H |].
           intros [_ [E | E]]; subst compiler; contradiction.
        -- intros N. contradiction.
        -- intros o H. discriminate H.
  - assert (N : ~ In build_mode ALLOWED_BUILD_MODES).
    { intros Hin. apply existsb_eqb_in in Hin. congruence. }
    simpl negb. cbv iota. split; [| split].
    + split; [intros [o H]; discriminate H | intros [Hin _]; contradiction].
    + intros _. reflexivity.
    + intros o H. discriminate H.
Qed.

Lemma as_truthy_nonempty x s : PyVal.as_truthy x = Some s -> s <> EmptyString /\ x = Some s.
Proof.
  unfold PyVal.as_truthy. destruct x as [t |]; [| discriminate].
  destruct t as [| c t]; simpl; [discriminate |].
  intros H. inversion H; subst. split; [discriminate | reflexivity].
Qed.

Lemma truthy_as_truthy x :
  PyVal.truthy x = true <-> exists s, PyVal.as_truthy x = Some s.
Proof.
  unfold PyVal.truthy. destruct (PyVal.as_truthy x) as [s |].
  - split; [intros _; exists s; reflexivity | reflexivity].
  - split; [discriminate | intros [s H]; discriminate H].
Qed.

(** X2. For every [VersionOrSourceLocation] that its constructor has
    built, [get_id] is not empty: it is the version when a version is
    set, and otherwise the text FROM_SOURCE_ followed by the source
    location, which is then a non-empty string. *)
Theorem get_id_of_constructed :
  forall version source_location o,
    VersionOrSourceLocation.init version source_location = inr o ->
    VersionOrSourceLocation.get_id o <> EmptyString
    /\ ((exists v, version = Some v /\ v <> EmptyString
                   /\ VersionOrSourceLocation.get_id o = v
                   /\ PyVal.truthy source_location = false)
        \/ (exists p, source_location = Some p /\ p <> EmptyString
                      /\ VersionOrSourceLocation.get_id o = "FROM_SOURCE_" ++ p
                      /\ PyVal.truthy version = false)).
Proof.
  intros version source_location o H.
  unfold VersionOrSourceLocation.init in H.
  destruct (PyVal.truthy version) eqn:V;
    destruct (PyVal.truthy source_location) eqn:S; simpl in H;
    try discriminate; inversion H; subst o; clear H;
    unfold VersionOrSourceLocation.get_id; simpl.
  - apply truthy_as_truthy in V. destruct V as [v V]. rewrite V.
    destruct (as_truthy_nonempty _ V) as [Nv Ev].
    split; [exact Nv |]. left. exists v. repeat split; assumption.
  - assert (A : PyVal.as_truthy version = None).
    { unfold PyVal.truthy in V. destruct (PyVal.as_truthy version);
        [discriminate | reflexivity]. }
    rewrite A. apply truthy_as_truthy in S. destruct S as [p S].
    destruct (as_truthy_nonempty _ S) as [Np Ep]. subst source_location.
    split; [discriminate |]. right. exists p. repeat split; assumption.
Qed.

(** The statement above for the pinned pybind11 revision. *)
Lemma get_id_of_constructed_witness :
  VersionOrSourceLocation.get_id (Harness.pinned SUPPORTED_PYBIND11_SHA)
    <> EmptyString
  /\ ((exists v, Some SUPPORTED_PYBIND11_SHA = Some v /\ v <> EmptyString
                 /\ VersionOrSourceLocation.get_id
                      (Harness.pinned SUPPORTED_PYBIND11_SHA) = v
                 /\ PyVal.truthy (Some EmptyString) = false)
      \/ (exists p, Some EmptyString = Some p /\ p <> EmptyString
                    /\ VersionOrSourceLocation.get_id
                         (Harness.pinned SUPPORTED_PYBIND11_SHA)
                       = "FROM_SOURCE_" ++ p
                    /\ PyVal.truthy (Some SUPPORTED_PYBIND11_SHA) = false)).
Proof.
  apply (@get_id_of_constructed (Some SUPPORTED_PYBIND11_SHA) (Some EmptyString)).
  reflexivity.
Defined.

Lemma init_invalid version source_location :
  PyVal.truthy version = PyVal.truthy source_location ->
  exists msg, VersionOrSourceLocation.init version source_location
              = inl (RuntimeError msg).
Proof.
  unfold VersionOrSourceLocation.init. intros <-.
  destruct (PyVal.truthy version); simpl; eexists; reflexivity.
Qed.

Lemma init_valid version source_location :
  PyVal.truthy version <> PyVal.truthy source_location ->
  VersionOrSourceLocation.init version source_location
  = inr {| VersionOrSourceLocation.version := version;
           VersionOrSourceLocation.source_location := source_location |}.
Proof.
  unfold VersionOrSourceLocation.init. intros N.
  destruct (PyVal.truthy version), (PyVal.truthy source_location); simpl;
    try reflexivity; exfalso; apply N; reflexivity.
Qed.

Lemma CompileOptions_init_invalid compiler build_mode :
  ~ In build_mode ALLOWED_BUILD_MODES
  \/ (compiler <> "clang" /\ compiler <> "gcc") ->
  exists msg, CompileOptions.init compiler build_mode = inl (RuntimeError msg).
Proof.
  intros H. unfold CompileOptions.init.
  destruct (existsb (String.eqb build_mode) ALLOWED_BUILD_MODES) eqn:B;
    simpl negb; cbv iota; [| eexists; reflexivity].
  destruct H as [H | [N1 N2]].
  - exfalso. apply H. apply existsb_eqb_in. exact B.
  - unfold KNOWN_COMPILERS, dict_get.
    destruct (String.eqb_spec "clang" compiler) as [E | _];
      [exfalso; apply N1; symmetry; exact E |].
    destruct (String.eqb_spec "gcc" compiler) as [E | _];
      [exfalso; apply N2; symmetry; exact E |].
    eexists. reflexivity.
Qed.

(** The orchestrator's constructor fails only where [CompileOptions]
    fails, when the binder pair holds exactly one part. *)
Lemma MasterBinderInstaller_init_error rem binder llvm pyb build_dir comp mode cpus e :
  PyVal.truthy (VersionOrSourceLocation.version binder)
    <> PyVal.truthy (VersionOrSourceLocation.source_location binder) ->
  MasterBinderInstaller.init rem binder llvm pyb build_dir comp mode cpus = inl e ->
  CompileOptions.init comp mode = inl e.
Proof.
  intros V H. unfold MasterBinderInstaller.init in H.
  destruct (CompileOptions.init comp mode) as [e' | o];
    [inversion H; reflexivity |].
  destruct (PyVal.truthy (VersionOrSourceLocation.version binder)) eqn:T;
    [discriminate H |].
  destruct (VersionOrSourceLocation.source_location binder) as [p |] eqn:S.
  - simpl in H. discriminate H.
  - exfalso. apply V. reflexivity.
Qed.

(** X3. With invalid arguments (a version-or-source pair with both parts
    or with neither, an unsupported build mode, or an unknown compiler)
    [main] of build.py raises a [RuntimeError] before it touches
    anything: no command is run and the file system and the trace are as
    before. *)
Theorem build_main_rejects_invalid_arguments :
  forall args env w,
    invalid_build_args args ->
    exists msg, BuildMain.main args env w = (w, inl (RuntimeError msg)).
Proof.
  intros args env w Bad. unfold BuildMain.main.
  destruct (Bool.bool_dec (PyVal.truthy (BuildMain.pybind11_sha args))
              (PyVal.truthy (BuildMain.pybind11_source args))) as [E1 | N1].
  { destruct (init_invalid _ _ E1) as [msg I]. exists msg.
    unfold bind, lift. rewrite I. reflexivity. }
  rewrite (init_valid _ _ N1).
  destruct (Bool.bool_dec (PyVal.truthy (BuildMain.llvm_version args))
              (PyVal.truthy (BuildMain.llvm_source args))) as [E2 | N2].
  { destruct (init_invalid _ _ E2) as [msg I]. exists msg.
    unfold bind, lift. simpl. rewrite I. reflexivity. }
  rewrite (init_valid _ _ N2).
  destruct (Bool.bool_dec (PyVal.truthy (BuildMain.binder_branch args))
              (PyVal.truthy (BuildMain.binder_source args))) as [E3 | N3].
  { destruct (init_invalid _ _ E3) as [msg I]. exists msg.
    unfold bind, lift. simpl. rewrite I. reflexivity. }
  rewrite (init_valid _ _ N3).
  assert (C : ~ In (BuildMain.build_mode args) ALLOWED_BUILD_MODES
              \/ (BuildMain.compiler args <> "clang"
                  /\ BuildMain.compiler args <> "gcc")).
  { destruct Bad as [B | [B | [B | B]]]; try contradiction. exact B. }
  destruct (@CompileOptions_init_invalid _ _ C) as [msg I].
  exists msg. unfold bind, lift. simpl.
  unfold MasterBinderInstaller.init. rewrite I. reflexivity.
Qed.

(** The statement above when a pybind11 source tree is given and the
    sha keeps its default value. *)
Lemma build_main_rejects_invalid_arguments_witness :
  exists msg,
    BuildMain.main Harness.build_args_with_pybind11_source
      Harness.env_stub Harness.fresh
    = (Harness.fresh, inl (RuntimeError msg)).
Proof.
  apply build_main_rejects_invalid_arguments.
  left. reflexivity.
Defined.

(* ================================================================== *)
(** * The installers stop at the first failed command *)
(* ================================================================== *)

Lemma Forall_removelast {A} (P : A -> Prop) (l : list A) :
  Forall P l -> Forall P (removelast l).
Proof.
  induction l as [| a l IH]; intros H; [constructor |].
  inversion H; subst. simpl. destruct l as [| b l]; [constructor |].
  constructor; [assumption | apply IH; assumption].
Qed.

Lemma fail_fast_of_emits {A} (m : M A) : emits command_ok m -> fail_fast m.
Proof.
  intros Hm env w w' r H. apply Hm in H. destruct H as [evs [E F]].
  exists evs. split; [exact E |]. split; [apply Forall_removelast; exact F |].
  intros _. exact F.
Qed.

Lemma fail_fast_bind {A B} (m : M A) (f : A -> M B) :
  fail_fast m -> (forall a, fail_fast (f a)) -> fail_fast (bind m f).
Proof.
  intros Hm Hf env w w' r H.
  apply bind_inv in H. destruct H as [[e [H ->]] | [w1 [a [H1 H2]]]].
  - apply Hm in H. destruct H as [evs [E [F _]]].
    exists evs. split; [exact E |]. split; [exact F | discriminate].
  - apply Hm in H1. destruct H1 as [evs1 [E1 [_ S1]]].
    specialize (S1 eq_refl).
    apply Hf in H2. destruct H2 as [evs2 [E2 [F2 S2]]].
    exists (evs1 +++ evs2). split; [rewrite E2, E1, app_assoc; reflexivity |].
    split.
    + destruct evs2 as [| e2 evs2'].
      * rewrite app_nil_r. apply Forall_removelast. exact S1.
      * rewrite removelast_app by discriminate.
        apply Forall_app. split; [exact S1 | exact F2].
    + intros S. apply Forall_app. split; [exact S1 | apply S2; exact S].
Qed.

Lemma fail_fast_for_each {A} (l : list A) (body : A -> M unit) :
  (forall a, fail_fast (body a)) -> fail_fast (for_each l body).
Proof.
  intros Hb. induction l as [| a l IH]; simpl.
  - apply fail_fast_of_emits. apply emits_ret.
  - apply fail_fast_bind; [apply Hb | intros _; exact IH].
Qed.

(** A command whose exit status is tested right after it has run. *)
Lemma fail_fast_checked_run argv cwd e :
  fail_fast (rc <- Os.subprocess_run argv cwd ;;
             if negb (rc =? 0)%Z then raise e else ret tt).
Proof.
  intros env w w' r H.
  apply bind_inv in H. destruct H as [[x [H ->]] | [w1 [rc [H1 H2]]]].
  - apply subprocess_run_run in H. eexists. split; [exact H |].
    split; [constructor | discriminate].
  - apply subprocess_run_run in H1.
    exists [EvRun argv cwd (inr rc)]. split.
    + destruct (negb (rc =? 0)%Z); inversion H2; subst; exact H1.
    + split; [constructor |]. intros S.
      destruct (Z.eqb_spec rc 0) as [-> | N]; simpl in H2.
      * constructor; [reflexivity | constructor].
      * inversion H2; subst. discriminate S.
Qed.

Lemma fail_fast_run_checked command cwd msg :
  fail_fast (run_checked command cwd msg).
Proof. unfold run_checked. apply fail_fast_checked_run. Qed.

Ltac fail_fast_step :=
  first
    [ apply fail_fast_run_checked
    | apply fail_fast_checked_run
    | solve [apply fail_fast_of_emits; emits_any]
    | apply fail_fast_for_each
    | apply fail_fast_bind
    | match goal with
      | |- fail_fast (if ?b then _ else _) => destruct b
      | |- fail_fast (match ?x with _ => _ end) => destruct x
      | |- forall _, _ => intro
      end ].

Ltac fail_fast_all := repeat fail_fast_step.

Lemma fail_fast_Pybind11Installer_prepare self :
  fail_fast (Pybind11Installer._prepare self).
Proof. unfold Pybind11Installer._prepare. fail_fast_all. Qed.

Lemma fail_fast_LLVMInstall_prepare self :
  fail_fast (LLVMInstall._prepare self).
Proof. unfold LLVMInstall._prepare. fail_fast_all. Qed.

Lemma fail_fast_LLVMInstall_install self :
  fail_fast (LLVMInstall._install self).
Proof.
  unfold LLVMInstall._install, LLVMInstall._run_llvm_cmake_base_command,
    LLVMInstall._run_ninja_build_and_install_command,
    LLVMInstall._setup_ldconfig_path.
  fail_fast_all.
Qed.

Lemma fail_fast_MasterBinderInstaller_prepare self :
  fail_fast (MasterBinderInstaller._prepare self).
Proof.
  unfold MasterBinderInstaller._prepare, prepare. simpl.
  apply fail_fast_bind; [fail_fast_all |].
  intros _. apply fail_fast_bind; [apply fail_fast_Pybind11Installer_prepare |].
  intros _. apply fail_fast_LLVMInstall_prepare.
Qed.

Lemma fail_fast_MasterBinderInstaller_install self :
  fail_fast (MasterBinderInstaller._install self).
Proof.
  unfold MasterBinderInstaller._install. simpl.
  apply fail_fast_bind;
    [unfold Pybind11Installer._install; fail_fast_all |].
  intros r1. apply fail_fast_bind; [apply fail_fast_LLVMInstall_install |].
  intros r2. fail_fast_all.
Qed.

(** X4. build.py stops at the first command that fails.  In every run of
    [main], whatever the external commands do, only the last interaction
    can be a command that exited with a non-zero status or could not be
    started; when [main] returns without an exception every command of
    the run has exited with status 0. *)
Theorem build_main_stops_at_first_failed_command :
  forall args env w w' r,
    BuildMain.main args env w = (w', r) ->
    exists evs,
      trace w' = trace w +++ evs
      /\ Forall command_ok (removelast evs)
      /\ (succeeded r = true -> Forall command_ok evs).
Proof.
  intros args env w w' r H.
  assert (FF : fail_fast (BuildMain.main args)); [| exact (FF env w w' r H)].
  unfold BuildMain.main.
  apply fail_fast_bind; [apply fail_fast_of_emits; apply emits_lift |].
  intros p. apply fail_fast_bind; [apply fail_fast_of_emits; apply emits_lift |].
  intros l. apply fail_fast_bind; [apply fail_fast_of_emits; apply emits_lift |].
  intros b. apply fail_fast_bind; [apply fail_fast_of_emits; apply emits_lift |].
  intros mbi. destruct (BuildMain.prepare_only args).
  - unfold prepare. simpl. apply fail_fast_MasterBinderInstaller_prepare.
  - unfold install. simpl.
    apply fail_fast_bind;
      [apply fail_fast_bind;
         [apply fail_fast_MasterBinderInstaller_prepare |] |].
    + intros _. apply fail_fast_bind;
        [apply fail_fast_MasterBinderInstaller_install |].
      intros r2. apply fail_fast_of_emits. apply emits_ret.
    + intros _. apply fail_fast_of_emits. apply emits_ret.
Qed.

(** The statement above for a build in which every call of ninja exits
    with status 2. *)
Lemma build_main_stops_at_first_failed_command_witness :
  let run :=
    BuildMain.main Harness.build_args Harness.env_ninja_fails Harness.fresh in
  exists evs,
    trace (fst run) = trace Harness.fresh +++ evs
    /\ Forall command_ok (removelast evs)
    /\ (succeeded (snd run) = true -> Forall command_ok evs).
Proof.
  intros run.
  apply (@build_main_stops_at_first_failed_command
           Harness.build_args Harness.env_ninja_fails Harness.fresh).
  exact (surjective_pairing run).
Defined.

(* ================================================================== *)
(** * Preparation only fetches *)
(* ================================================================== *)

Lemma fetch_only_git s cwd out :
  fetch_only (EvRun (PyStr.split ("git " ++ s)) cwd out).
Proof. destruct (split_git s) as [rest ->]. exact I. Qed.

Lemma fetch_only_Pybind11Installer_prepare self :
  emits fetch_only (Pybind11Installer._prepare self).
Proof.
  unfold Pybind11Installer._prepare.
  apply emits_bind; [apply emits_is_dir; intros; exact I |].
  intros d. destruct (negb d); [| apply emits_ret].
  apply emits_bind.
  - destruct (PyVal.as_truthy
                (VersionOrSourceLocation.source_location
                   (Pybind11Installer.github_sha_or_source_location self))).
    + apply emits_copytree. intros; exact I.
    + apply emits_bind; [apply emits_mkdir; intros; exact I |].
      intros _. unfold Pybind11Installer.download_commands.
      apply emits_for_each_in. intros c Hc.
      apply emits_run_checked. intros out.
      simpl in Hc. destruct Hc as [<- | [<- | [<- | [<- | []]]]];
        apply (fetch_only_git _ _ out).
  - intros _. apply emits_bind; [apply emits_exists; intros; exact I |].
    intros e. destruct (negb e); [apply emits_raise | apply emits_ret].
Qed.

Lemma fetch_only_LLVMInstall_prepare self :
  emits fetch_only (LLVMInstall._prepare self).
Proof.
  unfold LLVMInstall._prepare.
  apply emits_bind; [apply emits_is_dir; intros; exact I |].
  intros b. destruct (negb b); [apply emits_raise |].
  apply emits_bind; [apply emits_is_dir; intros; exact I |].
  intros d. destruct (negb d); [| apply emits_ret].
  apply emits_bind.
  - destruct (PyVal.as_truthy
                (VersionOrSourceLocation.source_location
                   (LLVMInstall.version_or_source_location self))).
    + apply emits_copytree. intros; exact I.
    + apply emits_run_checked. intros out. apply (fetch_only_git _ _ out).
  - intros _. apply emits_bind; [apply emits_copytree; intros; exact I |].
    intros _. apply emits_append_file. intros; exact I.
Qed.

Lemma fetch_only_MasterBinderInstaller_prepare self :
  emits fetch_only (MasterBinderInstaller._prepare self).
Proof.
  unfold MasterBinderInstaller._prepare.
  apply emits_bind.
  - destruct (PyVal.as_truthy
                (VersionOrSourceLocation.version
                   (MasterBinderInstaller.binder_branch_or_source_location self))).
    + apply emits_run_checked. intros out. apply (fetch_only_git _ _ out).
    + apply emits_ret.
  - intros _. apply emits_bind.
    + apply fetch_only_Pybind11Installer_prepare.
    + intros _. apply fetch_only_LLVMInstall_prepare.
Qed.

(** X5. With --prepare-only, build.py only fetches and stages.  Every
    interaction of such a run is a question to the file system, a git
    command, a copy of a tree, the creation of a directory or the
    extension of the tooling manifest: cmake, ninja and ldconfig are
    never started and no file, in particular not ENVFILE, is written. *)
Theorem prepare_only_never_builds :
  forall args env w w' r,
    BuildMain.prepare_only args = true ->
    BuildMain.main args env w = (w', r) ->
    exists evs, trace w' = trace w +++ evs /\ Forall fetch_only evs.
Proof.
  intros args env w w' r P H.
  assert (E : emits fetch_only (BuildMain.main args)); [| exact (E env w w' r H)].
  unfold BuildMain.main. rewrite P.
  apply emits_bind; [apply emits_lift |]. intros p.
  apply emits_bind; [apply emits_lift |]. intros l.
  apply emits_bind; [apply emits_lift |]. intros b.
  apply emits_bind; [apply emits_lift |]. intros mbi.
  unfold prepare. simpl. apply fetch_only_MasterBinderInstaller_prepare.
Qed.

(** The statement above on a machine without any of the three trees. *)
Lemma prepare_only_never_builds_witness :
  let run :=
    BuildMain.main Harness.prepare_only_args Harness.env_stub Harness.fresh in
  exists evs,
    trace (fst run) = trace Harness.fresh +++ evs /\ Forall fetch_only evs.
Proof.
  intros run.
  apply (@prepare_only_never_builds
           Harness.prepare_only_args Harness.env_stub Harness.fresh
           (fst run) (snd run)).
  - reflexivity.
  - exact (surjective_pairing run).
Defined.

(* ================================================================== *)
(** * What a successful call leaves behind *)
(* ================================================================== *)

Lemma is_dir_exists fs p : Fs.is_dir fs p = true -> Fs.exists_ fs p = true.
Proof.
  unfold Fs.is_dir, Fs.exists_. destruct (Fs.lookup p fs); [reflexivity | discriminate].
Qed.

(** X6. When [Pybind11Installer._prepare] returns without an exception,
    the include directory of pybind11 exists in the file system the call
    leaves, whichever way the sources were obtained and whatever the git
    commands did. *)
Theorem Pybind11Installer_prepare_postcondition :
  forall self env w w' u,
    Pybind11Installer._prepare self env w = (w', inr u) ->
    Fs.exists_ (fs w') (Path.of_string (Pybind11Installer.include_dir self))
    = true.
Proof.
  intros self env w w' u H. unfold Pybind11Installer._prepare in H.
  apply bind_ok_inv in H. destruct H as [w1 [d [H1 H2]]].
  apply is_dir_run in H1. destruct H1 as [b [Eb [_ [F1 Db]]]].
  inversion Eb; subst d; clear Eb.
  destruct b; simpl in H2.
  - inversion H2; subst w'. rewrite F1. apply is_dir_exists. symmetry. exact Db.
  - apply bind_ok_inv in H2. destruct H2 as [w2 [x [_ H3]]].
    apply bind_ok_inv in H3. destruct H3 as [w3 [e [H3 H4]]].
    unfold Os.exists_ in H3. inversion H3; subst w3 e; clear H3.
    destruct (Fs.exists_ (fs w2)
                (Path.of_string (Pybind11Installer.include_dir self))) eqn:E;
      simpl in H4; [| discriminate].
    inversion H4; subst w'. simpl. exact E.
Qed.

(** The statement above for the download of the pinned revision. *)
Lemma Pybind11Installer_prepare_postcondition_witness :
  let self :=
    Pybind11Installer.init Pybind11Installer.default_git_remote
      (Harness.pinned SUPPORTED_PYBIND11_SHA) "/tmp/build/pybind11" in
  let run := Pybind11Installer._prepare self Harness.env_stub Harness.fresh in
  Fs.exists_ (fs (fst run)) (Path.of_string (Pybind11Installer.include_dir self))
  = true.
Proof.
  intros self run.
  apply (@Pybind11Installer_prepare_postcondition
           self Harness.env_stub Harness.fresh (fst run) tt).
  vm_compute. reflexivity.
Defined.

Lemma run_checked_inr command cwd msg env w w' u :
  run_checked command cwd msg env w = (w', inr u) -> u = tt.
Proof. destruct u. reflexivity. Qed.

Lemma LLVMInstall_install_returns self env w w' r :
  LLVMInstall._install self env w = (w', inr r) ->
  r = ([ "LLVM_BIN_DIR={self.build_bin_dir}"; "LLVM_VERSION={self.version}" ],
       LLVMInstall.set_build_dir self (LLVMInstall.build_dir self ++ "2")).
Proof.
  unfold LLVMInstall._install. intros H.
  apply bind_ok_inv in H. destruct H as [w1 [u1 [_ H]]].
  apply bind_ok_inv in H. destruct H as [w2 [u2 [_ H]]].
  apply bind_ok_inv in H. destruct H as [w3 [u3 [_ H]]].
  apply bind_ok_inv in H. destruct H as [w4 [u4 [_ H]]].
  apply bind_ok_inv in H. destruct H as [w5 [u5 [_ H]]].
  inversion H. reflexivity.
Qed.

(** X7. A successful [install] of the orchestrator changes one attribute
    only: the build directory of the toolchain installer has the digit 2
    appended.  The directory of the built binaries, computed by the
    constructor from the first build directory, is not recomputed and
    still names the first-pass tree. *)
Theorem install_changes_only_the_build_directory :
  forall (self self' : MasterBinderInstaller.t) env w w',
    install self env w = (w', inr self') ->
    let llvm := MasterBinderInstaller.llvm_installer self in
    let llvm' := MasterBinderInstaller.llvm_installer self' in
    self' = MasterBinderInstaller.set_llvm_installer self
              (LLVMInstall.set_build_dir llvm (LLVMInstall.build_dir llvm ++ "2"))
    /\ LLVMInstall.build_dir llvm' = LLVMInstall.build_dir llvm ++ "2"
    /\ LLVMInstall.build_bin_dir llvm' = LLVMInstall.build_bin_dir llvm.
Proof.
  intros self self' env w w' H llvm llvm'.
  assert (E : self' = MasterBinderInstaller.set_llvm_installer self
                        (LLVMInstall.set_build_dir llvm
                           (LLVMInstall.build_dir llvm ++ "2"))).
  { unfold install in H. simpl in H.
    apply bind_ok_inv in H. destruct H as [w1 [u1 [_ H]]].
    apply bind_ok_inv in H. destruct H as [w2 [r [H R]]].
    inversion R; subst self'; clear R.
    unfold MasterBinderInstaller._install in H. simpl in H.
    apply bind_ok_inv in H. destruct H as [w3 [r1 [_ H]]].
    apply bind_ok_inv in H. destruct H as [w4 [r2 [H2 H]]].
    apply LLVMInstall_install_returns in H2. subst r2.
    apply bind_ok_inv in H. destruct H as [w5 [u5 [_ H]]].
    inversion H. reflexivity. }
  split; [exact E |]. unfold llvm'. rewrite E. split; reflexivity.
Qed.

(** The statement above for the sample build, every command
    succeeding. *)
Lemma install_changes_only_the_build_directory_witness :
  match Harness.master_pinned with
  | inr self =>
      match install self Harness.env_stub Harness.fresh with
      | (_, inr self') =>
          LLVMInstall.build_dir (MasterBinderInstaller.llvm_installer self')
          = "/tmp/build/llvm-project/build2"
          /\ LLVMInstall.build_bin_dir (MasterBinderInstaller.llvm_installer self')
             = "/tmp/build/llvm-project/build/bin"
      | (_, inl _) => False
      end
  | inl _ => False
  end.
Proof.
  destruct Harness.master_pinned as [e | self] eqn:E;
    [vm_compute in E; discriminate E |].
  vm_compute in E. injection E as <-.
  match goal with
  | |- match ?run with _ => _ end => destruct run as [w' [e | self']] eqn:R
  end; [vm_compute in R; discriminate R |].
  destruct (install_changes_only_the_build_directory _ _ _ R) as [_ [B1 B2]].
  split; [rewrite B1 | rewrite B2]; reflexivity.
Defined.

(* ================================================================== *)
(** * The generator step of make_bindings_via_cmake.py *)
(* ================================================================== *)

Lemma scan_sources_inv lines l :
  Bindings.scan_sources lines [] = inr l ->
  NoDup (map PyStr.strip lines) /\ l = map PyStr.strip lines.
Proof.
  intros H.
  destruct (ListDec.NoDup_dec string_dec (map PyStr.strip lines)) as [N | N].
  - rewrite (scan_sources_nodup lines [] N) in H. inversion H. split; [exact N | reflexivity].
  - rewrite (@scan_sources_dup lines [] (NoDup_nil _) N) in H. discriminate H.
Qed.

Lemma lift_run {A} (x : PyExc + A) env w w' r :
  lift x env w = (w', r) -> w' = w /\ r = x.
Proof. destruct x; intros H; inversion H; split; reflexivity. Qed.

(** X8. When [make_bindings_code] returns, the generator has exited with
    status 0 and the manifest has been read from the file system the
    generator left; the value returned is the list of the lines of the
    manifest, each stripped, in the order of the file, and no entry
    occurs twice.  These two interactions are all the call has done. *)
Theorem make_bindings_code_returns_stripped_manifest :
  forall be fn bd m dirs flags cfg env w w' l,
    Bindings.make_bindings_code be fn bd m dirs flags cfg env w = (w', inr l) ->
    exists content,
      Fs.read (Path.of_string (Bindings.manifest_path bd m)) (fs w') = inr content
      /\ l = map PyStr.strip (PyStr.readlines content)
      /\ NoDup l
      /\ trace w'
         = trace w
           +++ [ EvRun (PyStr.split
                          (Bindings.binder_command be fn bd m dirs flags cfg))
                   None (inr 0%Z);
                 EvRead (Bindings.manifest_path bd m) (Some content) ].
Proof.
  intros be fn bd m dirs flags cfg env w w' l H.
  unfold Bindings.make_bindings_code in H.
  apply bind_ok_inv in H. destruct H as [w1 [u [H1 H]]].
  apply run_checked_ok in H1.
  apply bind_ok_inv in H. destruct H as [w2 [content [H2 H]]].
  pose proof (read_file_run _ _ _ H2) as [F2 [R2 _]].
  apply read_file_event in H2. destruct H2 as [_ T2]. simpl in T2.
  apply lift_run in H. destruct H as [-> S].
  symmetry in S. apply scan_sources_inv in S. destruct S as [N ->].
  exists content. split; [rewrite F2; symmetry; exact R2 |].
  split; [reflexivity |]. split; [exact N |].
  rewrite T2, H1, <- app_assoc. reflexivity.
Qed.

(** The statement above for a generator that leaves a manifest of two
    lines. *)
Lemma make_bindings_code_returns_stripped_manifest_witness :
  let run :=
    Bindings.make_bindings_code "binder" Harness.all_includes_fn "/work/out"
      "mymod" ["/work/src"] EmptyString "/work/binder.cfg"
      Harness.env_binder_plain Harness.project in
  exists content,
    Fs.read (Path.of_string (Bindings.manifest_path "/work/out" "mymod"))
      (fs (fst run)) = inr content
    /\ ["mymod.cpp"; "mymod/a.cpp"] = map PyStr.strip (PyStr.readlines content)
    /\ NoDup ["mymod.cpp"; "mymod/a.cpp"]
    /\ trace (fst run)
       = trace Harness.project
         +++ [ EvRun (PyStr.split
                        (Bindings.binder_command "binder" Harness.all_includes_fn
                           "/work/out" "mymod" ["/work/src"] EmptyString
                           "/work/binder.cfg"))
                 None (inr 0%Z);
               EvRead (Bindings.manifest_path "/work/out" "mymod") (Some content) ].
Proof.
  intros run.
  apply (@make_bindings_code_returns_stripped_manifest
           "binder" Harness.all_includes_fn "/work/out" "mymod" ["/work/src"]
           EmptyString "/work/binder.cfg" Harness.env_binder_plain
           Harness.project (fst run) ["mymod.cpp"; "mymod/a.cpp"]).
  vm_compute. reflexivity.
Defined.

(** X9. [make_bindings_code] raises in exactly three situations.  The
    generator could not be started or exited with a non-zero status:
    nothing else is done, and for a non-zero status the exception is a
    [RuntimeError] whose message is the command.  The manifest cannot be
    opened: the exception is that of [open].  A stripped line of the
    manifest repeats an earlier one: the exception is the
    duplicated-source [RuntimeError]. *)
Theorem make_bindings_code_failures :
  forall be fn bd m dirs flags cfg env w w' e,
    Bindings.make_bindings_code be fn bd m dirs flags cfg env w = (w', inl e) ->
    let command := Bindings.binder_command be fn bd m dirs flags cfg in
    let manifest := Bindings.manifest_path bd m in
    (exists out,
       trace w' = trace w +++ [EvRun (PyStr.split command) None out]
       /\ out <> inr 0%Z
       /\ (forall rc, out = inr rc ->
             e = RuntimeError ("Bad command return " ++ command))
       /\ (forall x, out = inl x -> e = x))
    \/ (trace w'
        = trace w +++ [ EvRun (PyStr.split command) None (inr 0%Z);
                        EvRead manifest None ]
        /\ Fs.read (Path.of_string manifest) (fs w') = inl e)
    \/ (exists content,
          trace w'
          = trace w +++ [ EvRun (PyStr.split command) None (inr 0%Z);
                          EvRead manifest (Some content) ]
          /\ ~ NoDup (map PyStr.strip (PyStr.readlines content))
          /\ e = RuntimeError Bindings.DUPLICATED_SOURCE).
Proof.
  intros be fn bd m dirs flags cfg env w w' e H command manifest.
  unfold Bindings.make_bindings_code in H. fold command in H. fold manifest in H.
  apply bind_inv in H. destruct H as [[x [H X]] | [w1 [u [H1 H]]]].
  - left. inversion X; subst x; clear X. unfold run_checked in H.
    apply bind_inv in H. destruct H as [[x [H X]] | [w1 [rc [H1 H]]]].
    + inversion X; subst x; clear X. apply subprocess_run_run in H.
      exists (inl e). split; [exact H |]. split; [discriminate |].
      split; [intros rc C; discriminate C | intros x C; inversion C; reflexivity].
    + apply subprocess_run_run in H1.
      destruct (Z.eqb_spec rc 0) as [-> | N]; simpl in H; [discriminate H |].
      inversion H; subst w1 e; clear H.
      exists (inr rc). split; [exact H1 |].
      split; [intros C; inversion C; contradiction |].
      split; [intros rc' _; reflexivity | intros x C; discriminate C].
  - right. apply run_checked_ok in H1.
    apply bind_inv in H. destruct H as [[x [H X]] | [w2 [content [H2 H]]]].
    + left. inversion X; subst x; clear X.
      pose proof (read_file_run _ _ _ H) as [F [R _]].
      apply read_file_event in H. destruct H as [_ T]. simpl in T.
      split; [rewrite T, H1, <- app_assoc; reflexivity |].
      rewrite F. symmetry. exact R.
    + right. apply read_file_event in H2. destruct H2 as [_ T2]. simpl in T2.
      apply lift_run in H. destruct H as [-> S].
      exists content. split; [rewrite T2, H1, <- app_assoc; reflexivity |].
      destruct (ListDec.NoDup_dec string_dec
                  (map PyStr.strip (PyStr.readlines content))) as [N | N].
      * rewrite (scan_sources_nodup (PyStr.readlines content) [] N) in S.
        discriminate S.
      * split; [exact N |].
        rewrite (@scan_sources_dup (PyStr.readlines content) []
                   (NoDup_nil _) N) in S.
        inversion S. reflexivity.
Qed.

(** The statement above for a generator whose manifest names a file
    twice. *)
Lemma make_bindings_code_failures_witness :
  let command :=
    Bindings.binder_command "binder" Harness.all_includes_fn "/work/out"
      "mymod" ["/work/src"] EmptyString "/work/binder.cfg" in
  let manifest := Bindings.manifest_path "/work/out" "mymod" in
  let run :=
    Bindings.make_bindings_code "binder" Harness.all_includes_fn "/work/out"
      "mymod" ["/work/src"] EmptyString "/work/binder.cfg"
      Harness.env_binder Harness.project in
  let e := RuntimeError Bindings.DUPLICATED_SOURCE in
  (exists out,
     trace (fst run)
     = trace Harness.project +++ [EvRun (PyStr.split command) None out]
     /\ out <> inr 0%Z
     /\ (forall rc, out = inr rc ->
           e = RuntimeError ("Bad command return " ++ command))
     /\ (forall x, out = inl x -> e = x))
  \/ (trace (fst run)
      = trace Harness.project
        +++ [ EvRun (PyStr.split command) None (inr 0%Z); EvRead manifest None ]
      /\ Fs.read (Path.of_string manifest) (fs (fst run)) = inl e)
  \/ (exists content,
        trace (fst run)
        = trace Harness.project
          +++ [ EvRun (PyStr.split command) None (inr 0%Z);
                EvRead manifest (Some content) ]
        /\ ~ NoDup (map PyStr.strip (PyStr.readlines content))
        /\ e = RuntimeError Bindings.DUPLICATED_SOURCE).
Proof.
  intros command manifest run e.
  apply (@make_bindings_code_failures
           "binder" Harness.all_includes_fn "/work/out" "mymod" ["/work/src"]
           EmptyString "/work/binder.cfg" Harness.env_binder Harness.project
           (fst run) e).
  vm_compute. reflexivity.
Defined.

(* ================================================================== *)
(** * Collecting the include lines *)
(* ================================================================== *)

Lemma read_fold_stops ignore f post e :
  forall pre acc env w,
    forallb (readable (fs w)) pre = true ->
    Fs.read (Path.of_string f) (fs w) = inl e ->
    exists w',
      fold_m
        (fun acc filename =>
           content <- Os.read_file filename ;;
           ret (acc +++ Bindings.includes_of_lines ignore (PyStr.readlines content)))
        (pre +++ f :: post) acc env w = (w', inl e)
      /\ fs w' = fs w
      /\ trace w' = trace w +++ map (read_event (fs w)) (pre +++ [f]).
Proof.
  induction pre as [| p pre IH]; intros acc env w R U.
  - exists (log (EvRead f None) w). simpl.
    unfold bind, Os.read_file, read_event. rewrite U.
    split; [reflexivity |]. split; reflexivity.
  - simpl in R. apply andb_prop in R. destruct R as [Rp R].
    unfold readable, succeeded in Rp.
    destruct (Fs.read (Path.of_string p) (fs w)) as [x | c] eqn:C;
      [discriminate Rp |].
    destruct (IH (acc +++ Bindings.includes_of_lines ignore (PyStr.readlines c))
                env (log (EvRead p (Some c)) w) R U) as [w' [H [F T]]].
    exists w'. split; [| split].
    + simpl. unfold bind at 1. unfold bind at 1. unfold Os.read_file at 1.
      rewrite C. exact H.
    + exact F.
    + rewrite T. simpl. unfold read_event at 2. rewrite C.
      rewrite <- app_assoc. reflexivity.
Qed.

(** X10. [make_and_write_all_includes] stops at the first source file
    that cannot be opened.  The files before it have been read, in
    order; it is the last one tried; the exception is that of [open];
    the files after it are not opened and the output file is not
    written: the file system is as before. *)
Theorem include_scan_stops_at_first_unreadable_file :
  forall pre f post out ignore env w e,
    forallb (readable (fs w)) pre = true ->
    Fs.read (Path.of_string f) (fs w) = inl e ->
    exists w',
      Bindings.make_and_write_all_includes (pre +++ f :: post) out ignore env w
      = (w', inl e)
      /\ fs w' = fs w
      /\ trace w' = trace w +++ map (read_event (fs w)) (pre +++ [f]).
Proof.
  intros pre f post out ignore env w e R U.
  destruct (@read_fold_stops ignore f post e pre [] env w R U) as [w' [H [F T]]].
  exists w'. split; [| split; assumption].
  unfold Bindings.make_and_write_all_includes.
  apply bind_err. exact H.
Qed.

(** The statement above for the sample project and a second file that
    does not exist. *)
Lemma include_scan_stops_at_first_unreadable_file_witness :
  exists w',
    Bindings.make_and_write_all_includes
      (["/work/src/a.hpp"] +++ "/work/src/missing.hpp" :: ["/work/src/b.cpp"])
      Harness.all_includes_fn ["boost"] Harness.env_stub Harness.project
    = (w', inl (FileNotFoundError "/work/src/missing.hpp"))
    /\ fs w' = fs Harness.project
    /\ trace w'
       = trace Harness.project
         +++ map (read_event (fs Harness.project))
               (["/work/src/a.hpp"] +++ ["/work/src/missing.hpp"]).
Proof.
  apply include_scan_stops_at_first_unreadable_file.
  - vm_compute. reflexivity.
  - vm_compute. reflexivity.
Defined.

Lemma contains_empty s : PyStr.contains EmptyString s = true.
Proof. destruct s; reflexivity. Qed.

Lemma includes_of_lines_empty_word ignore lines :
  In EmptyString ignore -> Bindings.includes_of_lines ignore lines = [].
Proof.
  intros Hin. unfold Bindings.includes_of_lines.
  induction lines as [| l lines IH]; [reflexivity |].
  simpl filter.
  assert (K : Bindings.keep_line ignore l = false).
  { destruct (Bindings.keep_line ignore l) eqn:K; [| reflexivity].
    apply keep_line_spec in K. destruct K as [_ K].
    specialize (K EmptyString Hin). rewrite contains_empty in K. discriminate K. }
  rewrite K. exact IH.
Qed.

Lemma flat_map_nil {A B} (g : A -> list B) (l : list A) :
  (forall a, g a = []) -> flat_map g l = [].
Proof.
  intros Hg. induction l as [| a l IH]; [reflexivity |].
  simpl. rewrite Hg, IH. reflexivity.
Qed.

Lemma set_order_ok_nil order : set_order_ok order -> order [] = [].
Proof.
  intros H. destruct (H []) as [_ M].
  destruct (order []) as [| x l]; [reflexivity |].
  exfalso. apply (proj1 (M x)). left. reflexivity.
Qed.

(** X11. An empty string among the ignore words suppresses every include
    line, because the empty string occurs in every line: a run of
    [make_and_write_all_includes] that returns has then written an empty
    output file, whatever the sources hold. *)
Theorem empty_ignore_word_drops_every_include :
  forall files out ignore env w w' u,
    In EmptyString ignore ->
    set_order_ok (set_order env) ->
    Bindings.make_and_write_all_includes files out ignore env w = (w', inr u) ->
    Fs.read (Path.of_string out) (fs w') = inr EmptyString.
Proof.
  intros files out ignore env w w' u Hin Hord H.
  apply make_and_write_all_includes_run in H.
  destruct (forallb (readable (fs w)) files);
    [| destruct H as [_ [e H]]; discriminate H].
  assert (E : flat_map (lines_of_file (fs w) ignore) files = []).
  { apply flat_map_nil. intros f. unfold lines_of_file.
    destruct (Fs.read (Path.of_string f) (fs w)); [reflexivity |].
    apply includes_of_lines_empty_word. exact Hin. }
  rewrite E, (set_order_ok_nil Hord) in H. simpl in H.
  change (Bindings.render []) with EmptyString in H.
  destruct (Fs.write (Path.of_string out) EmptyString (fs w)) as [e | fs'] eqn:W.
  - destruct H as [_ H]. discriminate H.
  - destruct H as [-> _]. eapply read_after_write. exact W.
Qed.

(** The statement above for the sample project. *)
Lemma empty_ignore_word_drops_every_include_witness :
  let run :=
    Bindings.make_and_write_all_includes
      ["/work/src/a.hpp"; "/work/src/b.cpp"] Harness.all_includes_fn
      ["boost"; EmptyString] Harness.env_stub Harness.project in
  Fs.read (Path.of_string Harness.all_includes_fn) (fs (fst run))
  = inr EmptyString.
Proof.
  intros run.
  apply (@empty_ignore_word_drops_every_include
           ["/work/src/a.hpp"; "/work/src/b.cpp"] Harness.all_includes_fn
           ["boost"; EmptyString] Harness.env_stub Harness.project (fst run) tt).
  - right. left. reflexivity.
  - apply set_order_ok_nodup.
  - vm_compute. reflexivity.
Defined.

(* ================================================================== *)
(** * The containerized run *)
(* ================================================================== *)

Lemma docker_new_args_forwarded argv :
  forall prev x,
    In x (Bindings.docker_new_args prev argv) ->
    x = "lbuild" \/ (In x argv /\ PyStr.contains "docker-image" x = false).
Proof.
  induction argv as [| a argv IH]; intros prev x H; [destruct H |].
  cbn [Bindings.docker_new_args] in H.
  apply in_app_or in H. destruct H as [H | H].
  - destruct (a =? "dbuild"); [| destruct H].
    destruct H as [<- | []]. left. reflexivity.
  - apply in_app_or in H. destruct H as [H | H].
    + match type of H with
      | In _ (if ?b then _ else _) => destruct b eqn:S
      end; [destruct H |].
      destruct H as [<- | []]. apply Bool.orb_false_elim in S.
      right. split; [left; reflexivity | exact (proj1 S)].
    + apply IH in H. destruct H as [-> | [Hin C]].
      * left. reflexivity.
      * right. split; [right; exact Hin | exact C].
Qed.

Lemma docker_new_args_dbuild_first rest :
  Bindings.docker_new_args None ("dbuild" :: rest)
  = "lbuild" :: "dbuild" :: Bindings.docker_new_args (Some "dbuild") rest.
Proof. reflexivity. Qed.

(** X12. The subcommand dbuild does one thing: it starts docker, in the
    current directory mounted at the same path, with the given image and
    the script itself, and passes on arguments of its own command line
    followed by the fixed pybind11 and binder options.  Every argument
    passed on is either the inserted word lbuild or an argument of the
    command line that does not contain docker-image; when the command
    line starts with dbuild, the words passed on start with lbuild and
    then dbuild, which is kept.  Nothing is removed, created or read by
    the script, and the call returns exactly when docker exits with
    status 0. *)
Theorem dbuild_only_runs_docker :
  forall c image env w w' r,
    Bindings.main (Bindings.dbuild c image) env w = (w', r) ->
    exists forwarded out,
      trace w'
      = trace w
        +++ [ EvRun
                (([ "docker"; "run"; "--workdir"; getcwd env; "-v";
                    getcwd env ++ ":" ++ getcwd env; "-t"; image;
                    "make_bindings_via_cmake.py" ]
                  +++ forwarded)
                 +++ [ "--pybind11-source"; "/build/pybind11";
                       "--binder-executable"; "binder" ])
                None out ]
      /\ (forall x,
            In x forwarded ->
            x = "lbuild"
            \/ (In x (tl (sys_argv env))
                /\ PyStr.contains "docker-image" x = false))
      /\ (forall rest,
            tl (sys_argv env) = "dbuild" :: rest ->
            exists more, forwarded = "lbuild" :: "dbuild" :: more)
      /\ (succeeded r = true <-> out = inr 0%Z).
Proof.
  intros c image env w w' r H. simpl in H.
  unfold Bindings.run_in_docker in H.
  apply bind_inv in H. destruct H as [[e [H _]] | [w0 [env0 [H0 H]]]];
    [discriminate H |].
  inversion H0; subst w0 env0; clear H0.
  exists (Bindings.docker_new_args None (tl (sys_argv env))).
  apply bind_inv in H. destruct H as [[e [H ->]] | [w1 [rc [H1 H]]]].
  - apply subprocess_run_run in H. exists (inl e).
    split; [exact H |]. split; [apply docker_new_args_forwarded |].
    split; [intros rest ->; eexists; apply docker_new_args_dbuild_first |].
    split; discriminate.
  - apply subprocess_run_run in H1. exists (inr rc).
    split; [destruct (negb (rc =? 0)%Z); inversion H; subst; exact H1 |].
    split; [apply docker_new_args_forwarded |].
    split; [intros rest ->; eexists; apply docker_new_args_dbuild_first |].
    destruct (Z.eqb_spec rc 0) as [-> | N]; simpl in H; inversion H; subst.
    + split; reflexivity.
    + split; [discriminate | intros C; inversion C; contradiction].
Qed.

(** The statement above for a command line that names the image. *)
Lemma dbuild_only_runs_docker_witness :
  let run :=
    Bindings.main (Bindings.dbuild Harness.gen_common "binder:latest")
      Harness.env_docker Harness.project in
  exists forwarded out,
    trace (fst run)
    = trace Harness.project
      +++ [ EvRun
              (([ "docker"; "run"; "--workdir"; "/work"; "-v";
                  "/work" ++ ":" ++ "/work"; "-t"; "binder:latest";
                  "make_bindings_via_cmake.py" ]
                +++ forwarded)
               +++ [ "--pybind11-source"; "/build/pybind11";
                     "--binder-executable"; "binder" ])
              None out ]
    /\ (forall x,
          In x forwarded ->
          x = "lbuild"
          \/ (In x (tl (sys_argv Harness.env_docker))
              /\ PyStr.contains "docker-image" x = false))
    /\ (forall rest,
          tl (sys_argv Harness.env_docker) = "dbuild" :: rest ->
          exists more, forwarded = "lbuild" :: "dbuild" :: more)
    /\ (succeeded (snd run) = true <-> out = inr 0%Z).
Proof.
  intros run.
  apply (@dbuild_only_runs_docker
           Harness.gen_common "binder:latest" Harness.env_docker Harness.project
           (fst run) (snd run)).
  exact (surjective_pairing run).
Defined.

(* ================================================================== *)
(** * The argument vector of the generator *)
(* ================================================================== *)

(** X14. The argument vector of the generator is obtained by splitting
    the command text at white space, so each value contributes its words
    and not itself: the words of the executable, --root-module, the words
    of the module name, --prefix, the words of the output directory, the
    words of the extra flags (none when they are empty), --config, the
    words of the configuration file, the words of the include file, the
    two fixed options, the words of each include directory prefixed with
    -I, and the two closing options. *)
Theorem generator_argv_words :
  forall be fn bd m dirs flags cfg,
    PyStr.split (Bindings.binder_command be fn bd m dirs flags cfg)
    = PyStr.split be
      +++ ["--root-module"] +++ PyStr.split m
      +++ ["--prefix"] +++ PyStr.split bd
      +++ PyStr.split flags
      +++ ["--config"] +++ PyStr.split cfg
      +++ PyStr.split fn
      +++ ["--"; "-std=c++11"]
      +++ flat_map (fun x => PyStr.split ("-I" ++ x)) dirs
      +++ ["-DNDEBUG"; "-v"].
Proof.
  intros be fn bd m dirs flags cfg. unfold Bindings.binder_command.
  set (inc := PyStr.join " " (map (fun x => "-I" ++ x) dirs)).
  change (PyStr.split
            (be ++ " " ++ "--root-module" ++ " " ++ m ++ " " ++ "--prefix"
             ++ " " ++ bd ++ " " ++ flags ++ " " ++ "--config" ++ " " ++ cfg
             ++ " " ++ fn ++ " " ++ "--" ++ " " ++ "-std=c++11" ++ " " ++ inc
             ++ " " ++ "-DNDEBUG -v")
          = PyStr.split be
            +++ ["--root-module"] +++ PyStr.split m
            +++ ["--prefix"] +++ PyStr.split bd
            +++ PyStr.split flags
            +++ ["--config"] +++ PyStr.split cfg
            +++ PyStr.split fn
            +++ ["--"; "-std=c++11"]
            +++ flat_map (fun x => PyStr.split ("-I" ++ x)) dirs
            +++ ["-DNDEBUG"; "-v"]).
  rewrite !split_app_space.
  unfold inc. rewrite split_join_space.
  assert (F : flat_map PyStr.split (map (fun x => "-I" ++ x) dirs)
              = flat_map (fun x => PyStr.split ("-I" ++ x)) dirs).
  { induction dirs as [| d dirs IH]; [reflexivity |].
    cbn [flat_map map]. rewrite IH. reflexivity. }
  rewrite F. reflexivity.
Qed.

(* ================================================================== *)
(** * A run with an include file of the caller's own *)
(* ================================================================== *)

(** X15. When a custom include file is given, a non-containerized run of
    [main] never opens a project source and never writes the collected
    include file: the only file the script reads is the manifest of the
    generator and the only file it writes is CMakeLists.txt. *)
Theorem custom_includes_file_skips_the_scan :
  forall c pyb be env w w' r,
    PyStr.truthy (Bindings.custom_all_includes_file c) = true ->
    Bindings.main (Bindings.lbuild c pyb be) env w = (w', r) ->
    exists evs,
      trace w' = trace w +++ evs /\ Forall (generated_files_only c) evs.
Proof.
  intros c pyb be env w w' r T H.
  assert (E : emits (generated_files_only c)
                (Bindings.main (Bindings.lbuild c pyb be)));
    [| exact (E env w w' r H)].
  cbn [Bindings.main].
  apply emits_bind; [unfold Bindings.validate_args; simpl; apply emits_ret |].
  intros _. apply emits_bind;
    [unfold Bindings.run_preinstall_script; emits_any |].
  intros _. apply emits_bind; [apply emits_ask |]. intros env0.
  apply emits_bind; [apply emits_rmtree; exact I |]. intros _.
  apply emits_bind; [apply emits_mkdir; intros; exact I |]. intros _.
  unfold Bindings.main_pipeline.
  apply emits_bind;
    [unfold Bindings.get_all_project_source_files; emits_any |].
  intros files. apply emits_bind; [apply emits_ask |]. intros env1.
  rewrite T.
  apply emits_bind; [apply emits_ret |]. intros fn.
  apply emits_bind.
  - unfold Bindings.make_bindings_code.
    apply emits_bind; [apply emits_run_checked; intros; exact I |].
    intros _. apply emits_bind;
      [apply emits_read_file; intros; reflexivity | intros; apply emits_lift].
  - intros stc. unfold Bindings.compile_sources.
    apply emits_bind; [apply emits_write_file; intros; reflexivity |].
    intros _. emits_any.
Qed.

(** The statement above for the sample project. *)
Lemma custom_includes_file_skips_the_scan_witness :
  let run :=
    Bindings.main
      (Bindings.lbuild Harness.gen_common_custom "/build/pybind11" "binder")
      Harness.env_binder_plain Harness.project in
  exists evs,
    trace (fst run) = trace Harness.project +++ evs
    /\ Forall (generated_files_only Harness.gen_common_custom) evs.
Proof.
  intros run.
  apply (@custom_includes_file_skips_the_scan
           Harness.gen_common_custom "/build/pybind11" "binder"
           Harness.env_binder_plain Harness.project (fst run) (snd run)).
  - reflexivity.
  - exact (surjective_pairing run).
Defined.

(* ================================================================== *)
(** * The module search path *)
(* ================================================================== *)

Lemma write_file_sys_path p text env w w' r :
  Os.write_file p text env w = (w', r) -> sys_path w' = sys_path w.
Proof.
  intros H. apply fs_step_run with (env := env) in H.
  destruct H as [[e [_ [_ ->]]] | [fs' [_ [_ ->]]]]; reflexivity.
Qed.

Lemma subprocess_run_sys_path argv cwd env w w' r :
  Os.subprocess_run argv cwd env w = (w', r) -> sys_path w' = sys_path w.
Proof.
  unfold Os.subprocess_run.
  destruct (exec env (List.length (trace w)) argv cwd (fs w)) as [fs' out].
  intros H. inversion H; subst. reflexivity.
Qed.

Lemma import_module_sys_path name env w w' r :
  Os.import_module name env w = (w', r) -> sys_path w' = sys_path w.
Proof. unfold Os.import_module. intros H. inversion H; subst. reflexivity. Qed.

Lemma sys_path_add_spec d env w w' r :
  Os.sys_path_add d env w = (w', r) ->
  In d (sys_path w')
  /\ (sys_path w' = sys_path w
      \/ (~ In d (sys_path w) /\ sys_path w' = sys_path w +++ [d])).
Proof.
  unfold Os.sys_path_add. intros H. inversion H; subst; clear H.
  destruct (existsb (String.eqb d) (sys_path w)) eqn:E.
  - apply existsb_eqb_in in E. split; [exact E | left; reflexivity].
  - simpl. split; [apply in_or_app; right; left; reflexivity |].
    right. split; [| reflexivity].
    intros Hin. apply existsb_eqb_in in Hin. congruence.
Qed.

Lemma no_import_among (evs l : list Event) (t : list Event) name ok :
  t +++ l = t +++ evs ->
  In (EvImport name ok) evs ->
  Forall (fun e => match e with EvImport _ _ => False | _ => True end) l ->
  False.
Proof.
  intros E Hin F. apply app_inv_head in E. subst evs.
  rewrite Forall_forall in F. exact (F _ Hin).
Qed.

(** X16. [compile_sources] keeps the module search path free of
    repetitions.  A run leaves the path as it was or appends the
    bindings directory, and appends it only when it was not on the path;
    whenever the import of the new module is attempted, the bindings
    directory is on the path. *)
Theorem compile_sources_extends_sys_path_once :
  forall stc bd m dirs pyb files env w w' r,
    Bindings.compile_sources stc bd m dirs pyb files env w = (w', r) ->
    (sys_path w' = sys_path w
     \/ (~ In bd (sys_path w) /\ sys_path w' = sys_path w +++ [bd]))
    /\ (NoDup (sys_path w) -> NoDup (sys_path w'))
    /\ (forall evs ok,
          trace w' = trace w +++ evs ->
          In (EvImport m ok) evs ->
          In bd (sys_path w')).
Proof.
  intros stc bd m dirs pyb files env w w' r H.
  assert (K : (sys_path w' = sys_path w
               \/ (~ In bd (sys_path w) /\ sys_path w' = sys_path w +++ [bd]))
              /\ (forall evs ok,
                    trace w' = trace w +++ evs ->
                    In (EvImport m ok) evs ->
                    In bd (sys_path w'))).
  { unfold Bindings.compile_sources in H.
    apply bind_inv in H. destruct H as [[e [H ->]] | [w1 [[] [H1 H]]]].
    { pose proof (write_file_sys_path _ _ _ _ H) as S.
      apply write_file_run in H. destruct H as [ok1 [T _]].
      split; [left; exact S |]. intros evs ok E Hin. exfalso.
      rewrite T in E. eapply no_import_among; [exact E | exact Hin |].
      repeat constructor. }
    pose proof (write_file_sys_path _ _ _ _ H1) as S1.
    apply write_file_run in H1. destruct H1 as [ok1 [T1 _]].
    apply bind_inv in H. destruct H as [[e [H ->]] | [w2 [rc1 [H2 H]]]].
    { pose proof (subprocess_run_sys_path _ _ _ _ H) as S.
      apply subprocess_run_run in H.
      split; [left; rewrite S; exact S1 |]. intros evs ok E Hin. exfalso.
      rewrite H, T1, <- app_assoc in E.
      eapply no_import_among; [exact E | exact Hin |]. repeat constructor. }
    pose proof (subprocess_run_sys_path _ _ _ _ H2) as S2.
    apply subprocess_run_run in H2.
    apply bind_inv in H. destruct H as [[e [H ->]] | [w3 [rc2 [H3 H]]]].
    { pose proof (subprocess_run_sys_path _ _ _ _ H) as S.
      apply subprocess_run_run in H.
      split; [left; rewrite S, S2; exact S1 |]. intros evs ok E Hin. exfalso.
      rewrite H, H2, T1, <- !app_assoc in E.
      eapply no_import_among; [exact E | exact Hin |]. repeat constructor. }
    pose proof (subprocess_run_sys_path _ _ _ _ H3) as S3.
    apply subprocess_run_run in H3.
    apply bind_inv in H. destruct H as [[e [H ->]] | [w4 [[] [H4 H]]]].
    { apply sys_path_add_run in H. destruct H as [H _]. discriminate H. }
    apply sys_path_add_spec in H4. destruct H4 as [I4 A4].
    apply import_module_sys_path in H.
    rewrite S3, S2, S1 in A4. rewrite <- H in I4, A4.
    split; [exact A4 | intros; exact I4]. }
  destruct K as [A C]. split; [exact A |]. split; [| exact C].
  intros N. destruct A as [-> | [Nin ->]]; [exact N |].
  apply NoDup_app; [exact N | repeat constructor; intros [] |].
  intros x Hx [<- | []]. exact (Nin Hx).
Qed.

(** The statement above for the sample compilation on a machine whose
    cmake and ninja succeed. *)
Lemma compile_sources_extends_sys_path_once_witness :
  let run := Harness.compile_sample Harness.env_stub Harness.project in
  (sys_path (fst run) = sys_path Harness.project
   \/ (~ In "/work/out" (sys_path Harness.project)
       /\ sys_path (fst run) = sys_path Harness.project +++ ["/work/out"]))
  /\ (NoDup (sys_path Harness.project) -> NoDup (sys_path (fst run)))
  /\ (forall evs ok,
        trace (fst run) = trace Harness.project +++ evs ->
        In (EvImport "mymod" ok) evs ->
        In "/work/out" (sys_path (fst run))).
Proof.
  intros run.
  apply (@compile_sources_extends_sys_path_once
           ["mymod.cpp"] "/work/out" "mymod" ["/work/src"] "/build/pybind11"
           ["/work/src/a.hpp"; "/work/src/b.cpp"] Harness.env_stub
           Harness.project (fst run) (snd run)).
  exact (surjective_pairing run).
Defined.

(* ================================================================== *)
(** * The platform name *)
(* ================================================================== *)

(** X17. [get_platform] answers with one of five names.  It is linux
    exactly for the platforms whose name starts with linux, and unknown
    exactly for the platforms that neither start with linux nor are one
    of darwin, cygwin and win32. *)
Theorem get_platform_values :
  forall p,
    In (get_platform p) ["linux"; "macos"; "cygwin"; "windows"; "unknown"]
    /\ (get_platform p = "linux" <-> PyStr.startswith "linux" p = true)
    /\ (get_platform p = "unknown"
        <-> PyStr.startswith "linux" p = false
            /\ p <> "darwin" /\ p <> "cygwin" /\ p <> "win32").
Proof.
  intros p. unfold get_platform.
  destruct (PyStr.startswith "linux" p) eqn:L.
  - split; [left; reflexivity |].
    split; [split; reflexivity |].
    split; [discriminate | intros [C _]; discriminate C].
  - unfold dict_get.
    destruct (String.eqb_spec "darwin" p) as [<- | N1].
    { split; [right; left; reflexivity |].
      split; [split; discriminate |].
      split; [discriminate | intros [_ [C _]]; contradiction]. }
    destruct (String.eqb_spec "cygwin" p) as [<- | N2].
    { split; [right; right; left; reflexivity |].
      split; [split; discriminate |].
      split; [discriminate | intros [_ [_ [C _]]]; contradiction]. }
    destruct (String.eqb_spec "win32" p) as [<- | N3].
    { split; [right; right; right; left; reflexivity |].
      split; [split; discriminate |].
      split; [discriminate | intros [_ [_ [_ C]]]; contradiction]. }
    split; [right; right; right; right; left; reflexivity |].
    split; [split; discriminate |].
    split; [| reflexivity].
    intros _. split; [reflexivity |].
    repeat split; intros C; subst p; contradiction.
Qed.

(* ================================================================== *)
(** * The text of CMakeLists.txt *)
(* ================================================================== *)

Lemma substring_all s : substring 0 (String.length s) s = s.
Proof. induction s as [| c s IH]; [reflexivity |]. simpl. rewrite IH. reflexivity. Qed.

Lemma substring_app_tail s t :
  substring (String.length s) (String.length t) (s ++ t) = t.
Proof. induction s as [| c s IH]; [apply substring_all | exact IH]. Qed.

Lemma length_app s t :
  String.length (s ++ t) = (String.length s + String.length t)%nat.
Proof. induction s as [| c s IH]; [reflexivity |]. simpl. rewrite IH. reflexivity. Qed.

Lemma rfind_dot_app stem ext :
  Path.rfind_dot ext = Some 0%nat ->
  Path.rfind_dot (stem ++ ext) = Some (String.length stem).
Proof.
  intros E. induction stem as [| c stem IH]; [exact E |].
  simpl. rewrite IH. reflexivity.
Qed.

Lemma suffix_of_name p stem ext :
  Path.name p = stem ++ ext ->
  Path.rfind_dot ext = Some 0%nat ->
  (2 <= String.length ext)%nat ->
  Path.suffix p = if PyStr.is_empty stem then EmptyString else ext.
Proof.
  intros N D L. unfold Path.suffix. rewrite N, (@rfind_dot_app stem ext D).
  rewrite length_app.
  destruct stem as [| c stem]; [reflexivity |].
  cbn [PyStr.is_empty String.length].
  replace (0 <? S (String.length stem))%nat with true
    by (symmetry; apply Nat.ltb_lt; lia).
  replace (S (String.length stem) <? S (String.length stem) + String.length ext - 1)%nat
    with true by (symmetry; apply Nat.ltb_lt; lia).
  replace (S (String.length stem) + String.length ext - S (String.length stem))%nat
    with (String.length ext) by lia.
  cbn [andb].
  exact (substring_app_tail (String c stem) ext).
Qed.

Lemma source_lib_name_underscored s :
  Bindings.source_lib_name s = underscored s.
Proof.
  unfold Bindings.source_lib_name. induction s as [| c s IH]; [reflexivity |].
  cbn [PyStr.replace_char underscored].
  destruct (Ascii.eqb_spec c "/"%char) as [-> | N1].
  - cbn. rewrite IH. reflexivity.
  - destruct (Ascii.eqb_spec c "."%char) as [-> | N2].
    + cbn. rewrite IH. reflexivity.
    + change (String c EmptyString
              ++ PyStr.replace_char "/"%char "_" s)
        with (String c (PyStr.replace_char "/"%char "_" s)).
      cbn [PyStr.replace_char].
      destruct (Ascii.eqb_spec c "."%char) as [E | _]; [contradiction |].
      cbn. rewrite IH. reflexivity.
Qed.

(** For a file found by the search, the test of [compile_sources] holds
    exactly when the suffix is that of a C or C++ source. *)
Lemma is_compiled_found fs project_sources f :
  (forall p n, In (p, n) fs -> Path.of_string (Path.to_string p) = p) ->
  matched_source fs project_sources f ->
  Bindings.is_compiled_source f = has_source_suffix f.
Proof.
  intros K [src [p [node [ext [_ [_ [Hin [_ [Hext [E ->]]]]]]]]]].
  unfold Bindings.is_compiled_source, has_source_suffix.
  rewrite (K p node Hin).
  apply endswith_suffix in E. destruct E as [stem N].
  assert (S : Path.suffix p = if PyStr.is_empty stem then EmptyString else ext).
  { apply suffix_of_name; [exact N | |];
      simpl in Hext;
      destruct Hext as [<- | [<- | [<- | [<- | [<- | [<- | []]]]]]];
      first [reflexivity | simpl; lia]. }
  rewrite S. destruct (PyStr.is_empty stem); [reflexivity |].
  simpl in Hext.
  destruct Hext as [<- | [<- | [<- | [<- | [<- | [<- | []]]]]]]; reflexivity.
Qed.

Lemma flat_map_ext_in {A B} (g h : A -> list B) (l : list A) :
  (forall a, In a l -> g a = h a) -> flat_map g l = flat_map h l.
Proof.
  induction l as [| a l IH]; intros E; [reflexivity |].
  simpl. rewrite (E a (or_introl eq_refl)), IH; [reflexivity |].
  intros b Hb. apply E. right. exact Hb.
Qed.

(** X18. What [compile_sources] writes.  When the sources are those the
    search has found, in a file system keyed by paths in normal form,
    the first interaction of [compile_sources] is the writing of
    CMakeLists.txt with this text, one entry per line: the cmake version,
    the project, the pybind11 directory, an empty line; for every found
    file whose suffix is .cpp, .cc or .c, in the order found, the three
    lines that declare a static library named after the path with
    underscores for slashes and dots, position independent, with the
    include directories; then the module made of the generated sources,
    its include directories, its position independence, and its linking
    with exactly these libraries.  Headers are never declared as
    libraries. *)
Theorem cmakelists_declares_libraries_of_found_sources :
  forall project_sources stc bd m dirs pyb env w0 w1 files w w' r,
    (forall p n, In (p, n) (fs w0) -> Path.of_string (Path.to_string p) = p) ->
    Bindings.get_all_project_source_files project_sources env w0
      = (w1, inr files) ->
    Bindings.compile_sources stc bd m dirs pyb files env w = (w', r) ->
    exists ok rest,
      trace w'
      = trace w
        +++ EvWrite "CMakeLists.txt" (cmakelists_text stc m dirs pyb files) ok
            :: rest.
Proof.
  intros project_sources stc bd m dirs pyb env w0 w1 files w w' r K G H.
  apply get_all_project_source_files_run in G. destruct G as [G _].
  assert (C : forall f, In f files ->
                        Bindings.is_compiled_source f = has_source_suffix f).
  { intros f Hf. inversion G; subst files.
    apply found_below_spec in Hf. eapply is_compiled_found; eassumption. }
  assert (T : String.concat EmptyString
                (map (fun line => line ++ PyStr.nl)
                   (Bindings.cmakelists_lines stc m dirs pyb files))
              = cmakelists_text stc m dirs pyb files).
  { change (Bindings.render (Bindings.cmakelists_lines stc m dirs pyb files)
            = cmakelists_text stc m dirs pyb files).
    rewrite render_one_per_line.
    unfold cmakelists_text, Bindings.cmakelists_lines. f_equal.
    assert (F : filter Bindings.is_compiled_source files
                = filter has_source_suffix files)
      by (apply filter_ext_in; exact C).
    assert (L : flat_map (Bindings.library_lines dirs) files
                = flat_map (fun f => if has_source_suffix f
                                     then library_block dirs f else [])
                    files).
    { apply flat_map_ext_in. intros f Hf. unfold Bindings.library_lines.
      rewrite (C f Hf). destruct (has_source_suffix f); [| reflexivity].
      unfold library_block. rewrite source_lib_name_underscored. reflexivity. }
    rewrite F, L.
    assert (U : map Bindings.source_lib_name (filter has_source_suffix files)
                = map underscored (filter has_source_suffix files))
      by (apply map_ext; exact source_lib_name_underscored).
    rewrite U. reflexivity. }
  unfold Bindings.compile_sources in H. rewrite T in H.
  apply bind_inv in H. destruct H as [[e [H _]] | [wa [[] [Ha H]]]].
  - apply write_file_run in H. destruct H as [ok [E _]].
    exists ok, []. exact E.
  - apply write_file_run in Ha. destruct Ha as [ok [E _]].
    assert (R : emits (fun _ => True)
                  (Os.subprocess_run Bindings.cmake_configure_argv (Some bd) ;;
                   Os.subprocess_run Bindings.ninja_argv (Some bd) ;;
                   Os.sys_path_add bd ;;
                   Os.import_module m)) by emits_any.
    apply R in H. destruct H as [rest [E' _]].
    exists ok, rest. rewrite E', E, <- app_assoc. reflexivity.
Qed.

(** The statement above for the sample project: the header gets no
    library, the C++ source gets one. *)
Lemma cmakelists_declares_libraries_of_found_sources_witness :
  let found :=
    Bindings.get_all_project_source_files ["/work/src"]
      Harness.env_stub Harness.project in
  let run := Harness.compile_sample Harness.env_stub Harness.project in
  exists ok rest,
    trace (fst run)
    = trace Harness.project
      +++ EvWrite "CMakeLists.txt"
            (cmakelists_text ["mymod.cpp"] "mymod" ["/work/src"]
               "/build/pybind11" ["/work/src/a.hpp"; "/work/src/b.cpp"])
            ok
          :: rest.
Proof.
  intros found run.
  apply (@cmakelists_declares_libraries_of_found_sources
           ["/work/src"] ["mymod.cpp"] "/work/out" "mymod" ["/work/src"]
           "/build/pybind11" Harness.env_stub Harness.project (fst found)
           ["/work/src/a.hpp"; "/work/src/b.cpp"] Harness.project
           (fst run) (snd run)).
  - intros p n Hin. simpl in Hin.
    repeat (destruct Hin as [Hin | Hin];
            [inversion Hin; vm_compute; reflexivity |]).
    destruct Hin.
  - vm_compute. reflexivity.
  - exact (surjective_pairing run).
Defined.

Lemma replace_char_chars a s :
  forall c,
    In c (list_ascii_of_string (PyStr.replace_char a "_" s)) ->
    (c <> a \/ a = "_"%char) /\ (In c (list_ascii_of_string s) \/ c = "_"%char).
Proof.
  induction s as [| d s IH]; intros c H; [destruct H |].
  cbn [PyStr.replace_char] in H.
  destruct (Ascii.eqb_spec d a) as [-> | N].
  - change (In c ("_"%char :: list_ascii_of_string (PyStr.replace_char a "_" s))) in H.
    destruct H as [<- | H].
    + split; [| right; reflexivity].
      destruct (Ascii.eqb_spec "_"%char a) as [E | E];
        [right; symmetry; exact E | left; exact E].
    + apply IH in H. destruct H as [H1 [H2 | H2]].
      * split; [exact H1 | left; right; exact H2].
      * split; [exact H1 | right; exact H2].
  - change (In c (d :: list_ascii_of_string (PyStr.replace_char a "_" s))) in H.
    destruct H as [<- | H].
    + split; [left; exact N | left; left; reflexivity].
    + apply IH in H. destruct H as [H1 [H2 | H2]].
      * split; [exact H1 | left; right; exact H2].
      * split; [exact H1 | right; exact H2].
Qed.

Lemma replace_char_length a s :
  String.length (PyStr.replace_char a "_" s) = String.length s.
Proof.
  induction s as [| d s IH]; [reflexivity |].
  cbn [PyStr.replace_char]. destruct (Ascii.eqb d a); simpl; rewrite IH; reflexivity.
Qed.

(** X19. The library name made from the path of a source has the length
    of the path and holds neither a slash nor a dot: every character of
    the name is a character of the path or the underscore that replaced
    one. *)
Theorem source_lib_name_characters :
  forall source_fn,
    String.length (Bindings.source_lib_name source_fn) = String.length source_fn
    /\ forall c,
         In c (list_ascii_of_string (Bindings.source_lib_name source_fn)) ->
         c <> "/"%char /\ c <> "."%char
         /\ (In c (list_ascii_of_string source_fn) \/ c = "_"%char).
Proof.
  intros source_fn. unfold Bindings.source_lib_name. split.
  - rewrite !replace_char_length. reflexivity.
  - intros c H. apply replace_char_chars in H. destruct H as [D H].
    assert (Dot : c <> "."%char) by (destruct D as [D | D]; [exact D | discriminate D]).
    destruct H as [H | ->].
    + apply replace_char_chars in H. destruct H as [S H].
      split; [destruct S as [S | S]; [exact S | discriminate S] |].
      split; [exact Dot | exact H].
    + split; [discriminate |]. split; [discriminate | right; reflexivity].
Qed.

(* ================================================================== *)
(** * The preinstall script *)
(* ================================================================== *)

Lemma emits_main_pipeline c pyb be dirs :
  emits (fun _ => True) (Bindings.main_pipeline c pyb be dirs).
Proof.
  unfold Bindings.main_pipeline, Bindings.get_all_project_source_files,
    Bindings.make_and_write_all_includes, Bindings.make_bindings_code,
    Bindings.compile_sources.
  emits_any.
Qed.

(** X20. The exit status of the preinstall script is not looked at.
    When a script is given and the shell that runs it ends, with any
    status, a non-containerized run of [main] goes on: its next
    interaction is the removal of the output directory. *)
Theorem preinstall_status_is_ignored :
  forall c pyb be env w fs1 rc,
    PyStr.truthy (Bindings.preinstall_script c) = true ->
    exec env (List.length (trace w)) ["sh"; Bindings.preinstall_script c] None
      (fs w) = (fs1, inr rc) ->
    exists rest,
      trace (fst (Bindings.main (Bindings.lbuild c pyb be) env w))
      = trace w
        +++ EvRun ["sh"; Bindings.preinstall_script c] None (inr rc)
            :: EvRmTree (Bindings.output_directory c) :: rest.
Proof.
  intros c pyb be env w fs1 rc T X.
  set (w1 := log (EvRun ["sh"; Bindings.preinstall_script c] None (inr rc))
               (with_fs fs1 w)).
  set (w2 := fst (Os.rmtree (Bindings.output_directory c) env w1)).
  assert (P : Bindings.run_preinstall_script (Bindings.preinstall_script c) env w
              = (w1, inr tt)).
  { unfold Bindings.run_preinstall_script. rewrite T.
    unfold bind, Os.subprocess_run. rewrite X. reflexivity. }
  assert (E : exists k : M unit,
            Bindings.main (Bindings.lbuild c pyb be) env w = k env w2
            /\ emits (fun _ => True) k).
  { eexists. split.
    - cbn [Bindings.main].
      assert (V : Bindings.validate_args (Bindings.lbuild c pyb be) env w
                  = (w, inr tt)) by reflexivity.
      rewrite (@bind_ok _ _ _ _ _ _ _ _ V), (@bind_ok _ _ _ _ _ _ _ _ P).
      rewrite (@bind_ok _ _ _ _ _ _ _ _
                 (eq_refl : ask env w1 = (w1, inr env))).
      rewrite (@bind_ok _ _ _ _ _ _ _ _
                 (eq_refl : Os.rmtree (Bindings.output_directory c) env w1
                            = (w2, inr tt))).
      reflexivity.
    - apply emits_bind; [apply emits_mkdir; intros; exact I |].
      intros _. apply emits_main_pipeline. }
  destruct E as [k [E Hk]]. rewrite E.
  destruct (k env w2) as [w' r] eqn:K. apply Hk in K.
  destruct K as [rest [Tr _]]. exists rest. simpl fst. rewrite Tr.
  assert (T2 : trace w2
               = trace w1 +++ [EvRmTree (Bindings.output_directory c)]).
  { unfold w2, Os.rmtree. simpl.
    destruct (PyStr.is_empty (Bindings.output_directory c)
              || islink env (Bindings.output_directory c)); reflexivity. }
  rewrite T2. unfold w1. simpl. rewrite <- !app_assoc. reflexivity.
Qed.

(** The statement above for a script that ends with status 3. *)
Lemma preinstall_status_is_ignored_witness :
  exists rest,
    trace (fst (Bindings.main
                  (Bindings.lbuild Harness.gen_common_preinstall
                     "/build/pybind11" "binder")
                  Harness.env_sh_fails Harness.project))
    = trace Harness.project
      +++ EvRun ["sh"; "setup.sh"] None (inr 3%Z) :: EvRmTree "/work/out" :: rest.
Proof.
  apply (@preinstall_status_is_ignored
           Harness.gen_common_preinstall "/build/pybind11" "binder"
           Harness.env_sh_fails Harness.project (fs Harness.project) 3%Z).
  - reflexivity.
  - reflexivity.
Defined.

(* ================================================================== *)
(** * The commands of the two-pass bootstrap, word by word *)
(* ================================================================== *)

Lemma append_empty_r s : s ++ EmptyString = s.
Proof. induction s as [| c s IH]; [reflexivity |]. simpl. rewrite IH. reflexivity. Qed.

(** A non-empty text without white space is one word. *)
Lemma split_from_word s :
  forall cur,
    forallb (fun c => negb (PyStr.isspace c)) (list_ascii_of_string s) = true ->
    PyStr.split_from cur s
    = if PyStr.is_empty (cur ++ s) then [] else [cur ++ s].
Proof.
  induction s as [| c s IH]; intros cur H.
  - rewrite append_empty_r. reflexivity.
  - simpl in H. apply andb_prop in H. destruct H as [C H].
    apply negb_true_iff in C. cbn [PyStr.split_from]. rewrite C.
    rewrite (IH _ H), append_assoc_char. reflexivity.
Qed.

Lemma split_word s :
  s <> EmptyString ->
  forallb (fun c => negb (PyStr.isspace c)) (list_ascii_of_string s) = true ->
  PyStr.split s = [s].
Proof.
  intros N H. unfold PyStr.split. rewrite (split_from_word s EmptyString H).
  destruct s; [contradiction | reflexivity].
Qed.

Lemma digits_no_space d :
  forallb (fun c => negb (PyStr.isspace c))
    (list_ascii_of_string (DecimalString.NilEmpty.string_of_uint d)) = true.
Proof. induction d; simpl; try exact IHd; reflexivity. Qed.

Lemma split_str_of_int n : PyStr.split (str_of_int n) = [str_of_int n].
Proof.
  unfold str_of_int, DecimalString.NilZero.string_of_int.
  destruct (Z.to_int n) as [d | d].
  - unfold DecimalString.NilZero.string_of_uint.
    destruct d; try reflexivity;
      (apply split_word; [discriminate | simpl; apply digits_no_space]).
  - apply split_word; [discriminate |]. simpl.
    unfold DecimalString.NilZero.string_of_uint.
    destruct d; try reflexivity; simpl; apply digits_no_space.
Qed.

Lemma split_cmake_base_command self extra :
  PyStr.split (LLVMInstall.cmake_base_command self extra)
  = ["cmake"; "llvm"; "-B"] +++ PyStr.split (LLVMInstall.build_dir self)
    +++ ["-G"; "Ninja"] +++ PyStr.split extra +++ llvm_options.
Proof.
  unfold LLVMInstall.cmake_base_command.
  change (PyStr.split
            ("cmake" ++ " " ++ "llvm" ++ " " ++ "-B" ++ " "
             ++ LLVMInstall.build_dir self ++ " " ++ "-G" ++ " " ++ "Ninja"
             ++ " " ++ extra ++ " "
             ++ "-DLLVM_ENABLE_LIBCXX=ON -DLLVM_INCLUDE_TESTS=OFF -DLLVM_ENABLE_RUNTIMES='libc;libcxx;libcxxabi' -DLLVM_ENABLE_PROJECTS='clang-tools-extra;clang' -DLLVM_ENABLE_EH=1 -DLLVM_ENABLE_RTTI=ON")
          = ["cmake"; "llvm"; "-B"] +++ PyStr.split (LLVMInstall.build_dir self)
            +++ ["-G"; "Ninja"] +++ PyStr.split extra +++ llvm_options).
  rewrite !split_app_space. reflexivity.
Qed.

Lemma split_ninja_build_command self :
  PyStr.split (LLVMInstall.ninja_build_command self)
  = ["ninja"; "-j"; str_of_int (LLVMInstall.install_cpus self)].
Proof.
  unfold LLVMInstall.ninja_build_command.
  change (PyStr.split ("ninja" ++ " " ++ "-j" ++ " "
                       ++ str_of_int (LLVMInstall.install_cpus self))
          = ["ninja"; "-j"; str_of_int (LLVMInstall.install_cpus self)]).
  rewrite !split_app_space, split_str_of_int. reflexivity.
Qed.

Lemma split_ninja_install_command self :
  PyStr.split (LLVMInstall.ninja_install_command self)
  = "ninja" :: curated_targets
    +++ ["-j"; str_of_int (LLVMInstall.install_cpus self)].
Proof.
  unfold LLVMInstall.ninja_install_command.
  change (PyStr.split
            ("ninja install-clang-resource-headers install-cxx install-cxxabi install-clang tools/clang/tools/extra/binder/install install-clang-headers"
             ++ " " ++ EmptyString ++ " " ++ "-j" ++ " "
             ++ str_of_int (LLVMInstall.install_cpus self))
          = "ninja" :: curated_targets
            +++ ["-j"; str_of_int (LLVMInstall.install_cpus self)]).
  rewrite !split_app_space, split_str_of_int. reflexivity.
Qed.

(** The flags of a constructed [CompileOptions], word by word. *)
Lemma compile_options_flags compiler build_mode comp :
  CompileOptions.init compiler build_mode = inr comp ->
  PyStr.split (CompileOptions.cmake_extra_commands comp)
  = [ "-DCMAKE_C_COMPILER=" ++ fst (system_pair compiler);
      "-DCMAKE_CXX_COMPILER=" ++ snd (system_pair compiler);
      "-DCMAKE_BUILD_TYPE=" ++ build_mode ]
  /\ PyStr.split
       (CompileOptions.cmake_extra_commands_from_known_compiler_paths
          "clang" "clang++" (CompileOptions.build_mode comp))
     = [ "-DCMAKE_C_COMPILER=clang"; "-DCMAKE_CXX_COMPILER=clang++";
         "-DCMAKE_BUILD_TYPE=" ++ build_mode ].
Proof.
  unfold CompileOptions.init.
  destruct (existsb (String.eqb build_mode) ALLOWED_BUILD_MODES) eqn:B;
    simpl negb; cbv iota; [| discriminate].
  apply existsb_eqb_in in B. unfold KNOWN_COMPILERS, dict_get.
  destruct (String.eqb_spec "clang" compiler) as [<- | N1].
  - intros H. inversion H; subst comp; clear H.
    simpl in B. destruct B as [<- | [<- | [<- | [<- | []]]]];
      split; reflexivity.
  - destruct (String.eqb_spec "gcc" compiler) as [<- | N2]; [| discriminate].
    intros H. inversion H; subst comp; clear H.
    simpl in B. destruct B as [<- | [<- | [<- | [<- | []]]]];
      split; reflexivity.
Qed.

(** C2, amended.  A successful [LLVMInstall._install] of an installer
    built by the constructors has performed exactly these interactions,
    in this order, every command ending with status 0: cmake on the llvm
    directory for the build directory, with the compiler pair of the
    caller's choice (clang and clang++, or gcc and g++), the build type
    and the fixed options; ninja; ninja for the six install targets; the
    creation of /etc/ld.so.conf.d, the writing of the runtime library
    path into libc2.conf there, and ldconfig; cmake for the build
    directory with a 2 appended, with the compilers named clang and
    clang++ whatever the caller chose; ninja and the ninja install in
    that second directory.  Commands run in the source tree (cmake) or
    in the build directory of their pass, and the installer keeps the
    second build directory afterwards. *)
Theorem LLVMInstall_install_bootstrap :
  forall env remote vs compiler build_mode comp binder_source base subdir
         cpus w w' r,
    CompileOptions.init compiler build_mode = inr comp ->
    LLVMInstall._install
      (LLVMInstall.init remote vs comp binder_source base subdir cpus) env w
    = (w', inr r) ->
    trace w'
    = trace w
      +++ bootstrap_events base (child base subdir) compiler build_mode cpus
    /\ LLVMInstall.build_dir (snd r) = child base subdir ++ "2".
Proof.
  intros env remote vs compiler build_mode comp binder_source base subdir
    cpus w w' r C H.
  destruct (LLVMInstall_install_events _ _ _ H) as [T [S _]].
  destruct (compile_options_flags _ _ C) as [F1 F2].
  split; [| rewrite S; reflexivity].
  rewrite T. f_equal. unfold two_pass_events, bootstrap_events, configure_argv.
  rewrite !split_cmake_base_command, !split_ninja_build_command,
    !split_ninja_install_command.
  cbn [LLVMInstall.compiler LLVMInstall.init] in *.
  rewrite F1, F2. reflexivity.
Qed.

(** The amended statement for the toolchain installer of the sample
    build, with gcc as the caller's compiler. *)
Lemma LLVMInstall_install_bootstrap_witness :
  let run :=
    LLVMInstall._install
      (LLVMInstall.init LLVMInstall.default_git_remote
         (Harness.pinned SUGGESTED_LLVM_RELEASE) Harness.gcc_release
         "/tmp/build/binder/source" "/tmp/build/llvm-project" "build" 1)
      Harness.env_stub Harness.fresh in
  match snd run with
  | inr r =>
      trace (fst run)
      = trace Harness.fresh
        +++ bootstrap_events "/tmp/build/llvm-project"
              (child "/tmp/build/llvm-project" "build") "gcc" "Release" 1
      /\ LLVMInstall.build_dir (snd r)
         = child "/tmp/build/llvm-project" "build" ++ "2"
  | inl _ => False
  end.
Proof.
  intros run. destruct (snd run) as [e | r] eqn:R.
  - vm_compute in R. discriminate R.
  - apply (@LLVMInstall_install_bootstrap
             Harness.env_stub LLVMInstall.default_git_remote
             (Harness.pinned SUGGESTED_LLVM_RELEASE) "gcc" "Release"
             Harness.gcc_release "/tmp/build/binder/source"
             "/tmp/build/llvm-project" "build" 1 Harness.fresh (fst run) r).
    + reflexivity.
    + rewrite <- R. exact (surjective_pairing run).
Defined.

(** C2 as stated fails in its last part.  The caller has chosen clang,
    and an earlier build has left the second build directory with its
    cache.  The installation succeeds.  Its two configure commands
    differ in the build directory only: the second names the same
    compilers as the first, by the same bare names, so nothing in it
    tells the just-built compiler from the one of the system.  The
    second build directory is not a fresh one: the script neither
    removes nor creates it, and as the commands of this machine leave
    the files alone, the old cache is still in it at the end. *)
Lemma second_pass_same_names_and_old_directory :
  let self :=
    LLVMInstall.init LLVMInstall.default_git_remote
      (Harness.pinned SUGGESTED_LLVM_RELEASE) Harness.clang_release
      "/tmp/build/binder/source" "/tmp/build/llvm-project" "build" 1 in
  let run :=
    LLVMInstall._install self Harness.env_stub Harness.second_build_dir_present in
  let tr := trace (fst run) in
  let flags :=
    [ "-G"; "Ninja"; "-DCMAKE_C_COMPILER=clang"; "-DCMAKE_CXX_COMPILER=clang++";
      "-DCMAKE_BUILD_TYPE=Release" ] +++ llvm_options in
  CompileOptions.init "clang" "Release" = inr Harness.clang_release
  /\ succeeded (snd run) = true
  /\ List.length tr = 9%nat
  /\ nth 0 tr (EvRmTree EmptyString)
     = EvRun (["cmake"; "llvm"; "-B"; "/tmp/build/llvm-project/build"] +++ flags)
         (Some "/tmp/build/llvm-project") (inr 0%Z)
  /\ nth 6 tr (EvRmTree EmptyString)
     = EvRun (["cmake"; "llvm"; "-B"; "/tmp/build/llvm-project/build2"] +++ flags)
         (Some "/tmp/build/llvm-project") (inr 0%Z)
  /\ Forall (fun e => match e with
                      | EvRmTree _ => False
                      | EvMkdir p _ => p = "/etc/ld.so.conf.d"
                      | _ => True
                      end) tr
  /\ Fs.read (Path.of_string "/tmp/build/llvm-project/build2/CMakeCache.txt")
       (fs (fst run))
     = inr "CMAKE_C_COMPILER:FILEPATH=/usr/bin/gcc".
Proof.
  intros self run tr flags.
  split; [reflexivity |].
  split; [vm_compute; reflexivity |].
  split; [vm_compute; reflexivity |].
  split; [vm_compute; reflexivity |].
  split; [vm_compute; reflexivity |].
  split; [| vm_compute; reflexivity].
  assert (E : tr = bootstrap_events "/tmp/build/llvm-project"
                     "/tmp/build/llvm-project/build" "clang" "Release" 1)
    by (vm_compute; reflexivity).
  rewrite E. unfold bootstrap_events.
  repeat (constructor; [first [exact I | reflexivity] |]). constructor.
Qed.

(* ================================================================== *)
(** * The toolchain preparation, event by event *)
(* ================================================================== *)

Lemma split_download_command self :
  PyStr.split (LLVMInstall.download_command self)
  = clone_argv
      (PyVal.fmt (VersionOrSourceLocation.version
                    (LLVMInstall.version_or_source_location self)))
      (LLVMInstall.git_remote self) (LLVMInstall.base_source_directory self).
Proof.
  unfold LLVMInstall.download_command, clone_argv.
  change (PyStr.split
            ("git" ++ " " ++ "clone" ++ " " ++ "--depth" ++ " " ++ "1" ++ " "
             ++ "--branch" ++ " "
             ++ PyVal.fmt (VersionOrSourceLocation.version
                             (LLVMInstall.version_or_source_location self))
             ++ " " ++ LLVMInstall.git_remote self
             ++ " " ++ LLVMInstall.base_source_directory self)
          = ["git"; "clone"; "--depth"; "1"; "--branch"]
            +++ PyStr.split
                  (PyVal.fmt (VersionOrSourceLocation.version
                                (LLVMInstall.version_or_source_location self)))
            +++ PyStr.split (LLVMInstall.git_remote self)
            +++ PyStr.split (LLVMInstall.base_source_directory self)).
  rewrite !split_app_space. reflexivity.
Qed.

(** The events of a successful toolchain preparation. *)
Lemma LLVMInstall_prepare_events remote vs comp binder_source base subdir cpus
    env w w' u :
  LLVMInstall._prepare
    (LLVMInstall.init remote vs comp binder_source base subdir cpus) env w
  = (w', inr u) ->
  exists prep,
    trace w' = trace w +++ prep
    /\ (prep = toolchain_found binder_source base
        \/ (exists src,
              PyVal.as_truthy (VersionOrSourceLocation.source_location vs)
              = Some src
              /\ prep = toolchain_staged binder_source base
                          (EvCopyTree src base true))
        \/ (PyVal.truthy (VersionOrSourceLocation.source_location vs) = false
            /\ prep = toolchain_staged binder_source base
                        (EvRun (clone_argv
                                  (PyVal.fmt (VersionOrSourceLocation.version vs))
                                  remote base)
                           None (inr 0%Z)))).
Proof.
  unfold LLVMInstall._prepare. intros H.
  apply bind_ok_inv in H. destruct H as [w1 [b [H1 H]]].
  apply is_dir_run in H1. destruct H1 as [b' [Eb [T1 _]]].
  inversion Eb; subst b'; clear Eb.
  destruct b; simpl negb in H; cbv iota in H; [| discriminate].
  apply bind_ok_inv in H. destruct H as [w2 [d [H2 H]]].
  apply is_dir_run in H2. destruct H2 as [d' [Ed [T2 _]]].
  inversion Ed; subst d'; clear Ed.
  destruct d; simpl negb in H; cbv iota in H.
  - inversion H; subst. eexists. split; [| left; reflexivity].
    rewrite T2, T1, <- app_assoc. reflexivity.
  - apply bind_ok_inv in H. destruct H as [w3 [[] [H3 H]]].
    apply bind_ok_inv in H. destruct H as [w4 [[] [H4 H]]].
    apply copytree_ok in H4. apply append_file_ok in H.
    cbn [LLVMInstall.version_or_source_location LLVMInstall.init] in H3.
    unfold PyVal.truthy.
    destruct (PyVal.as_truthy (VersionOrSourceLocation.source_location vs))
      as [src |] eqn:S.
    + apply copytree_ok in H3. eexists. split.
      * rewrite H, H4, H3, T2, T1, <- !app_assoc. reflexivity.
      * right. left. exists src. split; reflexivity.
    + apply run_checked_ok in H3. rewrite split_download_command in H3.
      eexists. split.
      * rewrite H, H4, H3, T2, T1, <- !app_assoc. reflexivity.
      * right. right. split; reflexivity.
Qed.

(** The toolchain installer of a constructed orchestrator. *)
Lemma MasterBinderInstaller_init_llvm_installer
    rem binder llvm pyb build_dir compiler build_mode cpus self :
  MasterBinderInstaller.init rem binder llvm pyb build_dir compiler build_mode cpus
  = inr self ->
  exists comp,
    MasterBinderInstaller.llvm_installer self
    = LLVMInstall.init (MasterBinderInstaller.llvm_remote rem) llvm comp
        (if PyVal.truthy (VersionOrSourceLocation.version binder)
         then child (child build_dir "binder") "source"
         else child (PyVal.fmt (VersionOrSourceLocation.source_location binder))
                "source")
        (child build_dir "llvm-project") "build" cpus.
Proof.
  unfold MasterBinderInstaller.init. intros H.
  destruct (CompileOptions.init compiler build_mode) as [e | comp];
    [discriminate H |].
  exists comp.
  destruct (PyVal.truthy (VersionOrSourceLocation.version binder)).
  - inversion H. reflexivity.
  - destruct (VersionOrSourceLocation.source_location binder) as [p |];
      simpl in H; [| discriminate H].
    inversion H. reflexivity.
Qed.

Lemma before_toolchain_git s cwd out :
  before_toolchain (EvRun (PyStr.split ("git " ++ s)) cwd out)
  /\ not_configure (EvRun (PyStr.split ("git " ++ s)) cwd out).
Proof. destruct (split_git s) as [rest ->]. split; exact I. Qed.

Lemma before_toolchain_Pybind11Installer_prepare self :
  emits (fun e => before_toolchain e /\ not_configure e)
    (Pybind11Installer._prepare self).
Proof.
  unfold Pybind11Installer._prepare.
  apply emits_bind; [apply emits_is_dir; intros; split; exact I |].
  intros d. destruct (negb d); [| apply emits_ret].
  apply emits_bind.
  - destruct (PyVal.as_truthy
                (VersionOrSourceLocation.source_location
                   (Pybind11Installer.github_sha_or_source_location self))).
    + apply emits_copytree. intros; split; exact I.
    + apply emits_bind; [apply emits_mkdir; intros; split; exact I |].
      intros _. unfold Pybind11Installer.download_commands.
      apply emits_for_each_in. intros c Hc.
      apply emits_run_checked. intros out.
      simpl in Hc. destruct Hc as [<- | [<- | [<- | [<- | []]]]];
        apply (before_toolchain_git _ _ out).
  - intros _. apply emits_bind; [apply emits_exists; intros; split; exact I |].
    intros e. destruct (negb e); [apply emits_raise | apply emits_ret].
Qed.

Lemma build_step_LLVMInstall_install self :
  emits build_step (LLVMInstall._install self).
Proof.
  assert (C : forall s extra out,
            build_step (EvRun (PyStr.split (LLVMInstall.cmake_base_command s extra))
                          (Some (LLVMInstall.base_source_directory s)) out)).
  { intros s extra out. rewrite split_cmake_base_command. exact I. }
  assert (N : forall s,
            emits build_step (LLVMInstall._run_ninja_build_and_install_command s)).
  { intros s. unfold LLVMInstall._run_ninja_build_and_install_command.
    apply emits_for_each_in. intros c Hc. apply emits_run_checked. intros out.
    destruct Hc as [<- | [<- | []]].
    - rewrite split_ninja_build_command. exact I.
    - rewrite split_ninja_install_command. exact I. }
  unfold LLVMInstall._install, LLVMInstall._run_llvm_cmake_base_command.
  apply emits_bind; [apply emits_run_checked; intros out; apply C |].
  intros _. apply emits_bind; [apply N |].
  intros _. apply emits_bind.
  { unfold LLVMInstall._setup_ldconfig_path.
    apply emits_bind; [apply emits_mkdir; intros; exact I |].
    intros _. apply emits_bind; [apply emits_write_file; intros; exact I |].
    intros _. apply emits_bind; [apply emits_subprocess_run; intros; exact I |].
    intros rc. destruct (negb (rc =? 0)%Z); [apply emits_raise | apply emits_ret]. }
  intros _. apply emits_bind;
    [apply emits_run_checked; intros out;
     apply (C (LLVMInstall.set_build_dir self (LLVMInstall.build_dir self ++ "2"))) |].
  intros _. apply emits_bind; [apply N | intros _; apply emits_ret].
Qed.

Lemma build_step_MasterBinderInstaller_install self :
  emits build_step (MasterBinderInstaller._install self).
Proof.
  unfold MasterBinderInstaller._install.
  apply emits_bind; [simpl; unfold Pybind11Installer._install; apply emits_ret |].
  intros r1. apply emits_bind; [apply build_step_LLVMInstall_install |].
  intros r2. apply emits_bind; [apply emits_write_file; intros; exact I |].
  intros _. apply emits_ret.
Qed.

(** C9, amended.  In every run of [install] of an orchestrator built by
    its constructor, either cmake is never started and the run ends with
    an exception (so when the binder source directory is missing, which
    makes the preparation raise), or the interactions of the run are, in
    this order: the fetching of binder and pybind11, in which no
    manifest is extended; the toolchain preparation, complete; and the
    steps of the installation proper, in which nothing is copied and no
    file is extended, and among which every start of cmake is found.
    The toolchain preparation has found the binder source directory and
    then either found the toolchain tree in place, and then it has asked
    these two questions and done nothing else, or found it missing,
    fetched it (a copy of the local tree, or git clone of the chosen
    branch from the toolchain's remote), copied the binder sources into
    the directory binder of its clang-tools-extra tree, and appended the
    line add_subdirectory(binder), between two line feeds, to
    CMakeLists.txt of that tree, each of these steps succeeding. *)
Theorem configure_follows_toolchain_preparation :
  forall env rem binder llvm pyb build_dir compiler build_mode cpus self
         w w' r,
    MasterBinderInstaller.init rem binder llvm pyb build_dir compiler build_mode
      cpus = inr self ->
    install self env w = (w', r) ->
    exists events,
      trace w' = trace w +++ events
      /\ prepared_before_configure rem binder llvm build_dir events r.
Proof.
  intros env rem binder llvm pyb build_dir compiler build_mode cpus self
    w w' r I H.
  destruct (MasterBinderInstaller_init_llvm_installer _ _ _ _ _ _ _ _ I)
    as [comp L].
  unfold install in H. simpl in H.
  apply bind_inv in H. destruct H as [[x [H ->]] | [w1 [[] [H1 H]]]].
  - apply emits_MasterBinderInstaller_prepare in H.
    destruct H as [evs [E F]]. exists evs. split; [exact E |].
    left. split; [exact F | reflexivity].
  - unfold MasterBinderInstaller._prepare in H1.
    apply bind_ok_inv in H1. destruct H1 as [wa [[] [Ha H1]]].
    apply bind_ok_inv in H1. destruct H1 as [wb [[] [Hb Hc]]].
    assert (Ea : exists evs, trace wa = trace w +++ evs
                             /\ Forall (fun e => before_toolchain e
                                                 /\ not_configure e) evs).
    { destruct (PyVal.as_truthy
                  (VersionOrSourceLocation.version
                     (MasterBinderInstaller.binder_branch_or_source_location self))).
      - assert (E : emits (fun e => before_toolchain e /\ not_configure e)
                      (run_checked
                         (MasterBinderInstaller.download_command self s) None
                         ("Error downloading binder version " ++ s)))
          by (apply emits_run_checked; intros out;
              apply (before_toolchain_git _ _ out)).
        exact (E _ _ _ _ Ha).
      - inversion Ha; subst. exists []. rewrite app_nil_r.
        split; [reflexivity | constructor]. }
    destruct Ea as [evs1 [E1 F1]].
    unfold prepare in Hb, Hc. simpl in Hb, Hc.
    apply before_toolchain_Pybind11Installer_prepare in Hb.
    destruct Hb as [evs2 [E2 F2]].
    rewrite L in Hc. apply LLVMInstall_prepare_events in Hc.
    destruct Hc as [prep [E3 P]].
    assert (E4 : exists inst, trace w' = trace w1 +++ inst
                              /\ Forall build_step inst).
    { apply bind_inv in H. destruct H as [[x [H _]] | [w2 [a [H2 H]]]].
      - eapply build_step_MasterBinderInstaller_install; exact H.
      - inversion H; subst.
        eapply build_step_MasterBinderInstaller_install; exact H2. }
    destruct E4 as [inst [E4 F4]].
    assert (F0 : Forall (fun e => before_toolchain e /\ not_configure e)
                   (evs1 +++ evs2))
      by (apply Forall_app; split; assumption).
    exists ((evs1 +++ evs2) +++ prep +++ inst). split.
    { rewrite E4, E3, E2, E1, <- !app_assoc. reflexivity. }
    right. exists (evs1 +++ evs2), prep, inst.
    split; [reflexivity |].
    split; [eapply Forall_impl; [| exact F0]; intros e [B _]; exact B |].
    split; [exact F4 |].
    split; [exact P |].
    intros t1 e t2 T C.
    assert (NC : Forall not_configure ((evs1 +++ evs2) +++ prep)).
    { apply Forall_app. split.
      - eapply Forall_impl; [| exact F0]. intros e' [_ N]. exact N.
      - destruct P as [-> | [[src [_ ->]] | [_ ->]]]; repeat constructor. }
    symmetry in T. rewrite app_assoc in T.
    destruct (@split_before_first _ not_configure _ _ _ _ _ T NC) as [rest ->].
    + intros N. eapply configure_not_both; eassumption.
    + exists rest. rewrite <- app_assoc. reflexivity.
Qed.

(** The amended statement for the sample build on a fresh machine: the
    toolchain is fetched and the binder sources are staged before the
    first cmake. *)
Lemma configure_follows_toolchain_preparation_witness :
  match Harness.master_pinned with
  | inr self =>
      let run := install self Harness.env_stub Harness.fresh in
      exists events,
        trace (fst run) = trace Harness.fresh +++ events
        /\ prepared_before_configure MasterBinderInstaller.default_remotes
             (Harness.pinned "master") (Harness.pinned SUGGESTED_LLVM_RELEASE)
             "/tmp/build" events (snd run)
  | inl _ => False
  end.
Proof.
  destruct Harness.master_pinned as [e | self] eqn:E;
    [vm_compute in E; discriminate E |].
  intros run.
  apply (@configure_follows_toolchain_preparation
           Harness.env_stub MasterBinderInstaller.default_remotes
           (Harness.pinned "master") (Harness.pinned SUGGESTED_LLVM_RELEASE)
           (Harness.pinned SUPPORTED_PYBIND11_SHA) "/tmp/build" "clang" "Release"
           1 self Harness.fresh (fst run) (snd run)).
  - exact E.
  - exact (surjective_pairing run).
Defined.
